(** * ruff-jupyter-jetbrains: the coordinate rewriter, embedded and verified

    A shallow embedding of [src/ruff_jupyter_jetbrains/__main__.py]:

    - the two compiled patterns [LINE_BREAK] and
      [RUFF_CONCISE_LINE_OUTPUT_PATTERN], as regular-expression syntax run
      by a small backtracking matcher ([Module Re]);
    - the Python built-ins the script relies on ([Module Py]): list
      indexing with negative indices, [l[:-1]], [itertools.accumulate],
      [int], [str] and [str.join], with the exceptions they raise;
    - [compute_jetbrains_cell_offsets],
      [transform_ruff_to_jetbrains_compatible_output], [read_cells] and
      [main].

    Conventions.  A Python [str] is a list of code points.  What the
    interpreter brings along is a parameter of the model: the table of
    decimal digits of its Unicode database, which [\d] and [int] consult,
    and the limit it sets on the number of digits of a conversion between
    [int] and [str].  A Python [int] is a [Z].  An exception that escapes
    a function is the [Raise] branch of its [result]. *)

From Stdlib Require Import String Ascii List ZArith NArith Lia Bool Arith.
From Stdlib Require Import DecimalString DecimalPos.
Import ListNotations.

Open Scope bool_scope.
Open Scope string_scope.
Open Scope list_scope.

(* ================================================================== *)
(** * Characters and strings *)

(** A character is its code point; a [str] is the list of its
    characters. *)
Definition char : Type := N.
Definition str : Type := list char.

Definition code (a : ascii) : char := N_of_ascii a.

(** The [str] of an ASCII literal. *)
Definition text (s : string) : str := map code (list_ascii_of_string s).

(** [s == t] on strings. *)
Fixpoint str_eqb (s t : str) : bool :=
  match s, t with
  | [], [] => true
  | a :: s', b :: t' => N.eqb a b && str_eqb s' t'
  | _, _ => false
  end.

Definition CR : char := 13%N.
Definition LF : char := 10%N.
Definition ESC : char := 27%N.

(* ================================================================== *)
(** * The interpreter *)

Record interpreter : Type := mk_interpreter {
  (** [unicodedata.decimal]: the value of a character that is a decimal
      digit (category Nd), which is what [\d] matches and [int] reads. *)
  decimal : char -> option N;
  (** [sys.get_int_max_str_digits()]: the most digits a conversion
      between [int] and [str] may have, 0 for no limit. *)
  int_max_str_digits : nat
}.

(* ================================================================== *)
(** * Exceptions *)

(** [msg] is the beginning of the message, as far as it does not depend
    on the values at hand. *)
Inductive exn : Type :=
| IndexError (msg : string)
| ValueError (msg : string)
| OSError (msg : string)
| OtherException (kind msg : string).

Inductive result (A : Type) : Type :=
| Return (a : A)
| Raise (e : exn).

Arguments Return {A} a.
Arguments Raise {A} e.

Definition bind {A B : Type} (x : result A) (f : A -> result B) : result B :=
  match x with
  | Return a => f a
  | Raise e => Raise e
  end.

Notation "x <- e1 ;; e2" := (bind e1 (fun x => e2))
  (at level 61, e1 at next level, right associativity).

(* ================================================================== *)
(** * The regular expressions of [re], as far as the script uses them *)

Module Re.

(** Sets of one character: a literal, [.], [\d] with the table of
    decimal digits it consults, and [[lo-hi]]. *)
Inductive cclass : Type :=
| CChar (c : char)
| CAny
| CDigit (table : char -> option N)
| CRange (lo hi : char).

Definition accepts (c : cclass) (a : char) : bool :=
  match c with
  | CChar c' => N.eqb a c'
  | CAny => negb (N.eqb a LF)
  | CDigit table => match table a with Some _ => true | None => false end
  | CRange lo hi => (lo <=? a)%N && (a <=? hi)%N
  end.

(** Quantifiers apply to one-character sets, which is all the two
    patterns of the script need: [Rep c lo hi greedy] is [c{lo,hi}]
    ([hi = None] for no upper bound), lazy when [greedy] is [false]. *)
Inductive regex : Type :=
| Eps
| One (c : cclass)
| Rep (c : cclass) (lo : nat) (hi : option nat) (greedy : bool)
| Seq (r1 r2 : regex)
| Alt (r1 r2 : regex)
| Group (name : string) (r : regex)
| Bos                        (* ^ *)
| Eos.                       (* $ *)

(** A literal string. *)
Fixpoint lit (s : str) : regex :=
  match s with
  | [] => Eps
  | [a] => One (CChar a)
  | a :: s' => Seq (One (CChar a)) (lit s')
  end.

(** The matcher's state: the position in the subject string, what is
    left of it, and the groups closed so far (most recent first). *)
Record state : Type := mk_state {
  pos : nat;
  rest : str;
  groups : list (string * str)
}.

Definition orelse {A : Type} (x y : option A) : option A :=
  match x with
  | Some _ => x
  | None => y
  end.

Definition below (hi : option nat) (n : nat) : bool :=
  match hi with
  | None => true
  | Some h => (n <? h)%nat
  end.

(** [rep c greedy lo hi n s k]: [n] characters of the set are consumed
    already and [s] is left.  A greedy quantifier first tries one more
    character and falls back on stopping here; a lazy one first tries
    to stop here. *)
Fixpoint rep {A : Type} (c : cclass) (greedy : bool) (lo : nat)
    (hi : option nat) (n : nat) (s : str)
    (k : nat -> str -> option A) : option A :=
  let stop := if (lo <=? n)%nat then k n s else None in
  let more :=
    match s with
    | a :: s' =>
        if below hi n && accepts c a then rep c greedy lo hi (S n) s' k
        else None
    | [] => None
    end in
  if greedy then orelse more stop else orelse stop more.

(** Backtracking matcher in continuation-passing style: [exec r st k]
    is the first success, in the priority order of [re], of matching
    [r] from [st] and then running [k] on the state reached. *)
Fixpoint exec {A : Type} (r : regex) (st : state)
    (k : state -> option A) : option A :=
  match r with
  | Eps => k st
  | One c =>
      match rest st with
      | a :: s' =>
          if accepts c a then k (mk_state (S (pos st)) s' (groups st))
          else None
      | [] => None
      end
  | Rep c lo hi greedy =>
      rep c greedy lo hi 0 (rest st)
        (fun n s' => k (mk_state (pos st + n) s' (groups st)))
  | Seq r1 r2 => exec r1 st (fun st' => exec r2 st' k)
  | Alt r1 r2 => orelse (exec r1 st k) (exec r2 st k)
  | Group name r =>
      exec r st
        (fun st' =>
           k (mk_state (pos st') (rest st')
                ((name, firstn (pos st' - pos st) (rest st))
                 :: groups st')))
  | Bos => if (pos st =? 0)%nat then k st else None
  | Eos =>
      match rest st with
      | [] => k st
      | [a] => if N.eqb a LF then k st else None
      | _ => None
      end
  end.

(** A match object: the length of the matched text and the named
    groups. *)
Record match_object : Type := mk_match {
  span : nat;
  named : list (string * str)
}.

(** [pattern.match] anchored at position [p], with [s] the subject from
    [p] on. *)
Definition match_at (r : regex) (p : nat) (s : str) : option match_object :=
  exec r (mk_state p s [])
    (fun st => Some (mk_match (pos st - p) (groups st))).

(** [re.match(r, s)]. *)
Definition match_ (r : regex) (s : str) : option match_object :=
  match_at r 0 s.

Fixpoint lookup (name : string) (gs : list (string * str)) : option str :=
  match gs with
  | [] => None
  | (n, v) :: gs' => if String.eqb n name then Some v else lookup name gs'
  end.

(** [m[name]]; a name that is no group of the match is an
    [IndexError]. *)
Definition getitem (m : match_object) (name : string) : result str :=
  match lookup name (named m) with
  | Some v => Return v
  | None => Raise (IndexError "no such group")
  end.

(** The scan shared by [re.split] and [re.findall]: the subject is read
    left to right, [p] is the position of [s] in it and [skip] counts
    the characters of [s] that still belong to the match found last.
    Where no match is in progress the pattern is tried at [p]; a match
    there is taken, otherwise the character joins the current piece.
    The patterns of the script match at least one character; an empty
    match counts as none. *)
Fixpoint split_from (r : regex) (p skip : nat) (s : str) : list str :=
  match s with
  | [] => [[]]
  | a :: s' =>
      match skip with
      | S skip' => split_from r (S p) skip' s'
      | O =>
          match match_at r p s with
          | Some (mk_match (S n) _) => [] :: split_from r (S p) n s'
          | _ =>
              match split_from r (S p) 0 s' with
              | piece :: pieces => (a :: piece) :: pieces
              | [] => [[a]]
              end
          end
      end
  end.

(** [re.split(r, s)]. *)
Definition split (r : regex) (s : str) : list str :=
  split_from r 0 0 s.

Fixpoint findall_from (r : regex) (p skip : nat) (s : str) : list str :=
  match s with
  | [] => []
  | a :: s' =>
      match skip with
      | S skip' => findall_from r (S p) skip' s'
      | O =>
          match match_at r p s with
          | Some (mk_match (S n) _) =>
              firstn (S n) s :: findall_from r (S p) n s'
          | _ => findall_from r (S p) 0 s'
          end
      end
  end.

(** [re.findall(r, s)] for a pattern without groups: the matched
    texts. *)
Definition findall (r : regex) (s : str) : list str :=
  findall_from r 0 0 s.

End Re.

Infix ";;;" := Re.Seq (at level 60, right associativity).

(* ================================================================== *)
(** * The Python built-ins the script uses *)

Module Py.

(** [l[i]]: an index below zero counts from the end; an index outside
    [-len(l) .. len(l) - 1] raises [IndexError]. *)
Definition getitem {A : Type} (l : list A) (i : Z) : result A :=
  let n := Z.of_nat (List.length l) in
  let j := if (i <? 0)%Z then (i + n)%Z else i in
  if (0 <=? j)%Z && (j <? n)%Z then
    match nth_error l (Z.to_nat j) with
    | Some x => Return x
    | None => Raise (IndexError "list index out of range")
    end
  else Raise (IndexError "list index out of range").

(** [l[:-1]]: all but the last element; the empty list stays empty. *)
Definition slice_to_minus_1 {A : Type} (l : list A) : list A :=
  removelast l.

(** [list(accumulate(xs, initial=v))]: [v] first, then the running
    sums. *)
Fixpoint accumulate (xs : list Z) (initial : Z) : list Z :=
  initial ::
  match xs with
  | [] => []
  | x :: xs' => accumulate xs' (initial + x)
  end.

(** Whether a conversion of [digits] digits is past the limit of the
    interpreter. *)
Definition exceeds_limit (py : interpreter) (digits : nat) : bool :=
  negb (int_max_str_digits py =? 0)%nat && (int_max_str_digits py <? digits)%nat.

(** The number that a string of decimal digits writes, after [acc]. *)
Fixpoint digits_value (table : char -> option N) (s : str) (acc : N) : option N :=
  match s with
  | [] => Some acc
  | c :: s' =>
      match table c with
      | Some d => digits_value table s' (10 * acc + d)%N
      | None => None
      end
  end.

(** [int(s)] on a string of decimal digits, the only ones the script's
    [\d+] groups hand to it: the number the digits write, or the
    [ValueError] of a string with more digits than the limit allows.
    Anything else is reported as the [ValueError] that [int] raises on
    text that is no number. *)
Definition int (py : interpreter) (s : str) : result Z :=
  match s with
  | [] => Raise (ValueError "invalid literal for int() with base 10")
  | _ =>
      match digits_value (decimal py) s 0 with
      | None => Raise (ValueError "invalid literal for int() with base 10")
      | Some v =>
          if exceeds_limit py (List.length s) then
            Raise (ValueError
                     "Exceeds the limit for integer string conversion")
          else Return (Z.of_N v)
      end
  end.

(** The decimal notation of an integer. *)
Definition decimal_text (z : Z) : string :=
  NilEmpty.string_of_int (Z.to_int z).

(** The number of digits of that notation, the sign not counted. *)
Definition digit_count (z : Z) : nat :=
  String.length (decimal_text (Z.abs z)).

(** [str(z)], which is also how an f-string renders an [int]: the
    decimal notation, or the [ValueError] of a number with more digits
    than the limit allows. *)
Definition str_ (py : interpreter) (z : Z) : result str :=
  if exceeds_limit py (digit_count z) then
    Raise (ValueError "Exceeds the limit for integer string conversion")
  else Return (text (decimal_text z)).

(** [sep.join(ls)]. *)
Fixpoint join (sep : str) (ls : list str) : str :=
  match ls with
  | [] => []
  | [x] => x
  | x :: xs => x ++ sep ++ join sep xs
  end.

End Py.

(* ================================================================== *)
(** * The script *)

(** [LINE_BREAK]: CR LF, or CR, or LF, tried in this order. *)
Definition LINE_BREAK : Re.regex :=
  Re.Alt (Re.One (Re.CChar CR) ;;; Re.One (Re.CChar LF))
    (Re.Alt (Re.One (Re.CChar CR)) (Re.One (Re.CChar LF))).

(** [RUFF_CONCISE_LINE_OUTPUT_PATTERN], the pattern of one line of Ruff's
    concise output, piece by piece as the source spells it. *)
Definition RUFF_CONCISE_LINE_OUTPUT_PATTERN (py : interpreter) : Re.regex :=
  let digit := Re.CDigit (decimal py) in                  (* \d *)
  Re.Bos ;;;                                              (* ^ *)
  Re.Group "file_path" (Re.Rep Re.CAny 1 None false) ;;;  (* (?P<file_path>.+?) *)
  Re.lit (text ":cell ") ;;;                              (* :cell, then a blank *)
  Re.Group "cell" (Re.Rep digit 1 None true) ;;;          (* (?P<cell>\d+) *)
  Re.lit (text ":") ;;;
  Re.Group "line" (Re.Rep digit 1 None true) ;;;          (* (?P<line>\d+) *)
  Re.lit (text ":") ;;;
  Re.Group "column" (Re.Rep digit 1 None true) ;;;        (* (?P<column>\d+) *)
  Re.lit (text ": ") ;;;                                  (* a colon, then a blank *)
  Re.Group "error_code"                                   (* (?P<error_code>[A-Z]\d{3}) *)
    (Re.One (Re.CRange (code "A") (code "Z"))
       ;;; Re.Rep digit 3 (Some 3) true) ;;;
  Re.lit (text " ") ;;;
  Re.Group "message" (Re.Rep Re.CAny 0 None true) ;;;     (* the group message: any run of [.] *)
  Re.Eos.                                                 (* $ *)

(** The full block line count of a cell:
    [len(re.findall(LINE_BREAK, cell_source)) + 2]. *)
Definition full_cell_line_count (cell_source : str) : Z :=
  (Z.of_nat (List.length (Re.findall LINE_BREAK cell_source)) + 2)%Z.

Definition compute_jetbrains_cell_offsets (cell_sources : list str) : list Z :=
  let jetbrains_full_cell_line_counts :=
    map full_cell_line_count cell_sources in
  Py.accumulate (Py.slice_to_minus_1 jetbrains_full_cell_line_counts) 1.

(** The f-string of the comprehension, for one match; its fields are
    evaluated, and turned into text, one after the other from left to
    right. *)
Definition render_match (py : interpreter)
    (jetbrains_cell_line_offsets : list Z)
    (m : Re.match_object) : result str :=
  file_path <- Re.getitem m "file_path" ;;
  cell_text <- Re.getitem m "cell" ;;
  cell <- Py.int py cell_text ;;
  offset <- Py.getitem jetbrains_cell_line_offsets (cell - 1) ;;
  line_text <- Re.getitem m "line" ;;
  line <- Py.int py line_text ;;
  absolute_line <- Py.str_ py (offset + line) ;;
  column_text <- Re.getitem m "column" ;;
  column <- Py.int py column_text ;;
  absolute_column <- Py.str_ py (column - 1) ;;
  error_code <- Re.getitem m "error_code" ;;
  message <- Re.getitem m "message" ;;
  Return (file_path ++ text ":" ++ absolute_line ++ text ":"
            ++ absolute_column ++ text ": Ruff (" ++ error_code
            ++ text "): " ++ message).

(** The list comprehension: the lines are visited in order, a line that
    does not match is skipped, and the first exception ends the loop. *)
Fixpoint transformed_lines (py : interpreter)
    (jetbrains_cell_line_offsets : list Z)
    (ruff_lines : list str) : result (list str) :=
  match ruff_lines with
  | [] => Return []
  | ruff_line :: ruff_lines' =>
      match Re.match_ (RUFF_CONCISE_LINE_OUTPUT_PATTERN py) ruff_line with
      | Some m =>
          transformed <- render_match py jetbrains_cell_line_offsets m ;;
          others <- transformed_lines py jetbrains_cell_line_offsets
                      ruff_lines' ;;
          Return (transformed :: others)
      | None =>
          transformed_lines py jetbrains_cell_line_offsets ruff_lines'
      end
  end.

Definition transform_ruff_to_jetbrains_compatible_output (py : interpreter)
    (ruff_output : str) (cell_sources : list str) : result str :=
  let ruff_lines := Re.split LINE_BREAK ruff_output in
  let jetbrains_cell_line_offsets :=
    compute_jetbrains_cell_offsets cell_sources in
  lines <- transformed_lines py jetbrains_cell_line_offsets ruff_lines ;;
  Return (Py.join [LF] lines).

(* ================================================================== *)
(** * The command line *)

(** What a run of the script does to the outside world, in order. *)
Inductive event : Type :=
| PrintOut (written : str)          (* written to sys.stdout *)
| PrintErr (written : str)          (* written to sys.stderr *)
| RunRuff (notebook_path : str)     (* subprocess.run(["ruff", ...]) *)
| ReadNotebook (notebook_path : str).

(** How a run ends: [sys.exit(code)], or an exception that nothing
    catches. *)
Inductive exit_status : Type :=
| Exit (code : Z)
| Uncaught (e : exn).

Record run : Type := mk_run {
  trace : list event;
  status : exit_status
}.

(** [subprocess.run(..., capture_output=True, text=True)] *)
Record completed_process : Type := mk_completed_process {
  stdout : str;
  stderr : str;
  returncode : Z
}.

(** A notebook as [nbformat.read] returns it, down to what is used. *)
Record cell : Type := mk_cell { source : str }.
Record notebook : Type := mk_notebook { cells : list cell }.

Definition RED : str := ESC :: text "[91m".
Definition UNDERLINE : str := ESC :: text "[4m".
Definition NO_UNDERLINE : str := ESC :: text "[24m".
Definition RESET : str := ESC :: text "[0m".

(** What [print(message, file=...)] writes. *)
Definition println (message : str) : str := message ++ [LF].

Definition written_to (select : event -> option str) (evs : list event) : str :=
  concat (flat_map (fun e => match select e with
                             | Some t => [t]
                             | None => []
                             end) evs).

Definition stdout_of (r : run) : str :=
  written_to (fun e => match e with PrintOut t => Some t | _ => None end)
    (trace r).

Definition stderr_of (r : run) : str :=
  written_to (fun e => match e with PrintErr t => Some t | _ => None end)
    (trace r).

Section Main.

Variable py : interpreter.

(** The collaborators outside the repository: [pathlib], the file
    system, the [ruff] executable and [nbformat].  [Path.is_file]
    answers, or raises the [OSError] that it does not take for a missing
    file. *)
Variable suffix : str -> str.               (* Path(p).suffix *)
Variable path_str : str -> str.             (* str(Path(p)) *)
Variable is_file : str -> result bool.      (* Path(p).is_file() *)
Variable ruff_check : str -> result completed_process.
Variable nbformat_read : str -> result notebook.  (* open, nbformat.read *)

Definition read_cells (notebook_path : str) : result (list str) :=
  notebook_content <- nbformat_read notebook_path ;;
  Return (map source (cells notebook_content)).

Definition usage_error (message : str) : run :=
  mk_run [PrintErr (println message)] (Exit 2).

Definition main (argv : list str) : run :=
  if (List.length argv =? 1)%nat then
    usage_error
      (RED ++ text "No file specified. Make sure you provide the JetBrains $FilePath$ argument in the file watcher run configurations" ++ RESET)
  else if (3 <=? List.length argv)%nat then
    usage_error
      (RED ++ text "Several files specified. Make sure you only provide the JetBrains $FilePath$ argument in the file watcher run configurations" ++ RESET)
  else
    match nth_error argv 1 with
    | None => mk_run [] (Uncaught (IndexError "list index out of range"))
    | Some notebook_path =>
        if negb (str_eqb (suffix notebook_path) (text ".ipynb")) then
          usage_error
            (RED ++ text "ruff-jupyter-jetbrains is designed to be run on "
               ++ UNDERLINE ++ text ".ipynb" ++ NO_UNDERLINE
               ++ text " files. Make sure the JetBrains file watcher is configured for Jupyter files exclusively."
               ++ RESET)
        else
          match is_file notebook_path with
          | Raise e => mk_run [] (Uncaught e)
          | Return false =>
              usage_error
                (RED ++ text "File " ++ path_str notebook_path
                   ++ text " does not exist. This is unexpected if you use ruff-jupyter-jetbrains as a file watcher."
                   ++ RESET)
          | Return true =>
              (* Processing *)
              match ruff_check notebook_path with
              | Raise e => mk_run [RunRuff notebook_path] (Uncaught e)
              | Return ruff_output =>
                  match read_cells notebook_path with
                  | Raise e =>
                      mk_run [RunRuff notebook_path;
                              ReadNotebook notebook_path] (Uncaught e)
                  | Return cell_sources =>
                      (* Transforming *)
                      match transform_ruff_to_jetbrains_compatible_output py
                              (stdout ruff_output) cell_sources with
                      | Raise e =>
                          mk_run [RunRuff notebook_path;
                                  ReadNotebook notebook_path] (Uncaught e)
                      | Return jetbrains_compatible_output =>
                          (* Output: both prints go to sys.stdout *)
                          mk_run [RunRuff notebook_path;
                                  ReadNotebook notebook_path;
                                  PrintOut jetbrains_compatible_output;
                                  PrintOut (stderr ruff_output)]
                            (Exit (returncode ruff_output))
                      end
                  end
              end
          end
    end.

End Main.

(* ================================================================== *)
(** * What the specification says, in its own terms *)

Definition is_line_break_char (a : char) : bool :=
  N.eqb a CR || N.eqb a LF.

(** A text without any line break in it. *)
Definition one_line (s : str) : bool :=
  forallb (fun a => negb (is_line_break_char a)) s.

(** The three line-break conventions. *)
Inductive line_break : str -> Prop :=
| lb_crlf : line_break [CR; LF]
| lb_cr : line_break [CR]
| lb_lf : line_break [LF].

(** The number of line breaks inside a text, CR LF counting once. *)
Fixpoint line_breaks (s : str) : nat :=
  match s with
  | [] => 0
  | a :: s' =>
      if N.eqb a CR then
        match s' with
        | b :: s'' => if N.eqb b LF then S (line_breaks s'')
                      else S (line_breaks s')
        | [] => 1
        end
      else if N.eqb a LF then S (line_breaks s')
      else line_breaks s'
  end.

(** The lines of a text, cut at every line break. *)
Fixpoint split_lines (s : str) : list str :=
  match s with
  | [] => [[]]
  | a :: s' =>
      if N.eqb a CR then
        match s' with
        | b :: s'' => if N.eqb b LF then [] :: split_lines s''
                      else [] :: split_lines s'
        | [] => [[]; []]
        end
      else if N.eqb a LF then [] :: split_lines s'
      else
        match split_lines s' with
        | piece :: pieces => (a :: piece) :: pieces
        | [] => [[a]]
        end
  end.

(** What one attempt of [LINE_BREAK] at a position gives. *)
Definition line_break_at (s : str) : option nat :=
  match s with
  | [] => None
  | a :: s' =>
      if N.eqb a CR then
        match s' with
        | b :: _ => if N.eqb b LF then Some 2%nat else Some 1%nat
        | [] => Some 1%nat
        end
      else if N.eqb a LF then Some 1%nat
      else None
  end.

(** The full block line count: line breaks plus 2. *)
Definition spec_full_block_line_count (cell_source : str) : Z :=
  (Z.of_nat (line_breaks cell_source) + 2)%Z.

(** The offsets by the recurrence of the specification:
    [offset[0] = 1] and
    [offset[i] = offset[i-1] + fullBlockLineCount(cell[i-1])]. *)
Fixpoint spec_offset (cell_sources : list str) (i : nat) : Z :=
  match i with
  | O => 1
  | S j =>
      (spec_offset cell_sources j
       + match nth_error cell_sources j with
         | Some cell_source => spec_full_block_line_count cell_source
         | None => 0
         end)%Z
  end.

(** Later elements are larger. *)
Definition strictly_increasing (l : list Z) : Prop :=
  forall i j a b,
    (i < j)%nat -> nth_error l i = Some a -> nth_error l j = Some b ->
    (a < b)%Z.

(** One diagnostic of the linter, as the six fields of its line. *)
Record raw_diagnostic : Type := mk_raw_diagnostic {
  file_path : str;
  cell_number : str;
  line_number : str;
  column_number : str;
  error_code : str;
  message : str
}.

(** [<file_path>:cell <cell_number>:<line>:<column>: <error_code> <message>] *)
Definition concise_line (d : raw_diagnostic) : str :=
  file_path d ++ text ":cell " ++ cell_number d ++ text ":"
    ++ line_number d ++ text ":" ++ column_number d ++ text ": "
    ++ error_code d ++ text " " ++ message d.

Definition not_LF (a : char) : bool := negb (N.eqb a LF).

Definition is_upper (a : char) : bool :=
  (code "A" <=? a)%N && (a <=? code "Z")%N.

(** A decimal digit of the interpreter's table. *)
Definition is_decimal (py : interpreter) (a : char) : bool :=
  match decimal py a with
  | Some _ => true
  | None => false
  end.

(** A non-empty string of decimal digits. *)
Definition number_text (py : interpreter) (s : str) : bool :=
  negb (str_eqb s []) && forallb (is_decimal py) s.

(** One uppercase letter followed by exactly three digits. *)
Definition error_code_text (py : interpreter) (s : str) : bool :=
  match s with
  | a :: ds =>
      is_upper a && (List.length ds =? 3)%nat && forallb (is_decimal py) ds
  | [] => false
  end.

(** The fields a line of the pattern is made of. *)
Definition diagnostic_fields (py : interpreter) (d : raw_diagnostic) : bool :=
  negb (str_eqb (file_path d) [])
  && forallb not_LF (file_path d)
  && number_text py (cell_number d)
  && number_text py (line_number d)
  && number_text py (column_number d)
  && error_code_text py (error_code d)
  && forallb not_LF (message d).

(** The groups of a match of the pattern, as the match object lists
    them. *)
Definition groups_of (d : raw_diagnostic) : list (string * str) :=
  [("message", message d); ("error_code", error_code d);
   ("column", column_number d); ("line", line_number d);
   ("cell", cell_number d); ("file_path", file_path d)].

(** The rewritten line:
    [<file_path>:<absolute_line>:<absolute_column>: Ruff (<error_code>): <message>],
    the two numbers in decimal notation. *)
Definition rewritten_line (file_path : str) (absolute_line absolute_column : Z)
    (error_code message : str) : str :=
  file_path ++ text ":" ++ text (Py.decimal_text absolute_line) ++ text ":"
    ++ text (Py.decimal_text absolute_column)
    ++ text ": Ruff (" ++ error_code ++ text "): " ++ message.

(** Whether the interpreter converts, to a number, a string of that many
    digits and, to a string, that number. *)
Definition convertible_text (py : interpreter) (s : str) : bool :=
  negb (Py.exceeds_limit py (List.length s)).

Definition convertible (py : interpreter) (z : Z) : bool :=
  negb (Py.exceeds_limit py (Py.digit_count z)).

(** What the rewriter does with the fields of a line once the offset of
    its cell is known: [absolute_line = offset + line],
    [absolute_column = column - 1], each number read and written as far
    as the interpreter converts it. *)
Definition rewrite_with_offset (py : interpreter) (d : raw_diagnostic)
    (offset : Z) : result str :=
  line <- Py.int py (line_number d) ;;
  _ <- Py.str_ py (offset + line) ;;
  column <- Py.int py (column_number d) ;;
  _ <- Py.str_ py (column - 1) ;;
  Return (rewritten_line (file_path d) (offset + line) (column - 1)
            (error_code d) (message d)).

(** What the rewriter does with the fields of a line:
    [offsets[cell_number - 1]] is looked up first. *)
Definition rewrite_diagnostic (py : interpreter) (offsets : list Z)
    (d : raw_diagnostic) : result str :=
  cell <- Py.int py (cell_number d) ;;
  offset <- Py.getitem offsets (cell - 1) ;;
  rewrite_with_offset py d offset.

(** The part of the pattern that follows the [file_path] group. *)
Definition after_file_path (py : interpreter) : Re.regex :=
  let digit := Re.CDigit (decimal py) in
  Re.lit (text ":cell ") ;;;
  Re.Group "cell" (Re.Rep digit 1 None true) ;;;
  Re.lit (text ":") ;;;
  Re.Group "line" (Re.Rep digit 1 None true) ;;;
  Re.lit (text ":") ;;;
  Re.Group "column" (Re.Rep digit 1 None true) ;;;
  Re.lit (text ": ") ;;;
  Re.Group "error_code"
    (Re.One (Re.CRange (code "A") (code "Z"))
       ;;; Re.Rep digit 3 (Some 3) true) ;;;
  Re.lit (text " ") ;;;
  Re.Group "message" (Re.Rep Re.CAny 0 None true) ;;;
  Re.Eos.


(** The lines that match the pattern. *)
Definition matching_lines (py : interpreter) (ruff_lines : list str) : list str :=
  filter (fun ruff_line =>
            match Re.match_ (RUFF_CONCISE_LINE_OUTPUT_PATTERN py) ruff_line with
            | Some _ => true
            | None => false
            end) ruff_lines.

(** A line matches and is rendered to a text. *)
Definition rendered (py : interpreter) (offsets : list Z)
    (ruff_line rewritten : str) : Prop :=
  exists m,
    Re.match_ (RUFF_CONCISE_LINE_OUTPUT_PATTERN py) ruff_line = Some m
    /\ render_match py offsets m = Return rewritten.

(** Pieces of text with a separator after each but the last. *)
Fixpoint interleave (pieces seps : list str) : str :=
  match pieces, seps with
  | piece :: pieces', sep :: seps' => piece ++ sep ++ interleave pieces' seps'
  | piece :: _, [] => piece
  | [], _ => []
  end.

(** The last character of a text. *)
Fixpoint last_char (s : str) : option char :=
  match s with
  | [] => None
  | [a] => Some a
  | _ :: s' => last_char s'
  end.

Definition ends_with_line_break (s : str) : bool :=
  match last_char s with
  | Some a => is_line_break_char a
  | None => false
  end.

Definition not_CR (a : char) : bool := negb (N.eqb a CR).

(** The words a pattern matches: [matches r st st'] when [r] can take the
    matcher from [st] to [st'], whatever the priorities. *)
Inductive matches : Re.regex -> Re.state -> Re.state -> Prop :=
| M_Eps : forall st, matches Re.Eps st st
| M_One : forall c a s p gs,
    Re.accepts c a = true ->
    matches (Re.One c) (Re.mk_state p (a :: s) gs) (Re.mk_state (S p) s gs)
| M_Rep : forall c lo hi greedy w s p gs,
    forallb (Re.accepts c) w = true ->
    (lo <= List.length w)%nat ->
    (forall h, hi = Some h -> (List.length w <= h)%nat) ->
    matches (Re.Rep c lo hi greedy) (Re.mk_state p (w ++ s) gs)
      (Re.mk_state (p + List.length w) s gs)
| M_Seq : forall r1 r2 st1 st2 st3,
    matches r1 st1 st2 -> matches r2 st2 st3 -> matches (Re.Seq r1 r2) st1 st3
| M_AltL : forall r1 r2 st st', matches r1 st st' -> matches (Re.Alt r1 r2) st st'
| M_AltR : forall r1 r2 st st', matches r2 st st' -> matches (Re.Alt r1 r2) st st'
| M_Group : forall name r st st',
    matches r st st' ->
    matches (Re.Group name r) st
      (Re.mk_state (Re.pos st') (Re.rest st')
         ((name, firstn (Re.pos st' - Re.pos st) (Re.rest st))
          :: Re.groups st'))
| M_Bos : forall st, Re.pos st = O -> matches Re.Bos st st
| M_Eos : forall st,
    Re.rest st = [] \/ Re.rest st = [LF] -> matches Re.Eos st st.

(* ================================================================== *)
(** * Further notions *)

(** The line breaks that [re.findall] finds in some cells, all together. *)
Definition line_breaks_found (cell_sources : list str) : nat :=
  list_sum (map (fun cell_source =>
                   List.length (Re.findall LINE_BREAK cell_source))
              cell_sources).

(** The cell number of a match as the comprehension reads it,
    [int(match['cell'])]. *)
Definition cell_of (py : interpreter) (m : Re.match_object) : result Z :=
  cell_text <- Re.getitem m "cell" ;; Py.int py cell_text.

(** Its line and column numbers, read the same way. *)
Definition line_of (py : interpreter) (m : Re.match_object) : result Z :=
  line_text <- Re.getitem m "line" ;; Py.int py line_text.

Definition column_of (py : interpreter) (m : Re.match_object) : result Z :=
  column_text <- Re.getitem m "column" ;; Py.int py column_text.

(** A text without a colon in it. *)
Definition no_colon (s : str) : bool :=
  forallb (fun a => negb (N.eqb a (code ":"))) s.

(** Two rewritten texts put one after the other, with the LF that [join]
    sets between lines when both have some. *)
Definition one_after_the_other (first second : str) : str :=
  match first, second with
  | [], _ => second
  | _, [] => first
  | _, _ => first ++ [LF] ++ second
  end.

(** The decimal digits of ASCII. *)
Definition ascii_decimal (a : char) : option N :=
  if (code "0" <=? a)%N && (a <=? code "9")%N then Some (a - code "0")%N
  else None.

(** What holds of every interpreter: among the ASCII characters the
    decimal digits are ['0'] to ['9'], and a limit on conversions, when
    there is one, is not below 640 digits. *)
Definition python (py : interpreter) : Prop :=
  (forall a, (a < 128)%N -> decimal py a = ascii_decimal a)
  /\ (int_max_str_digits py = 0%nat \/ (640 <= int_max_str_digits py)%nat).

(** Interpreters for examples: a table reduced to the ASCII digits, with
    the limit given; 4300 is the limit of an interpreter that was not told
    otherwise. *)
Definition ascii_interpreter (limit : nat) : interpreter :=
  mk_interpreter ascii_decimal limit.

(** Two sets of characters with the same members among the characters
    [P], and two patterns that differ in such sets only. *)
Definition agree_on (P : char -> bool) (c c' : Re.cclass) : Prop :=
  forall a, P a = true -> Re.accepts c a = Re.accepts c' a.

Inductive similar (P : char -> bool) : Re.regex -> Re.regex -> Prop :=
| S_Eps : similar P Re.Eps Re.Eps
| S_One : forall c c', agree_on P c c' -> similar P (Re.One c) (Re.One c')
| S_Rep : forall c c' lo hi greedy,
    agree_on P c c' ->
    similar P (Re.Rep c lo hi greedy) (Re.Rep c' lo hi greedy)
| S_Seq : forall r1 r1' r2 r2',
    similar P r1 r1' -> similar P r2 r2' ->
    similar P (Re.Seq r1 r2) (Re.Seq r1' r2')
| S_Alt : forall r1 r1' r2 r2',
    similar P r1 r1' -> similar P r2 r2' ->
    similar P (Re.Alt r1 r2) (Re.Alt r1' r2')
| S_Group : forall name r r',
    similar P r r' -> similar P (Re.Group name r) (Re.Group name r')
| S_Bos : similar P Re.Bos Re.Bos
| S_Eos : similar P Re.Eos Re.Eos.

(** A text of ASCII characters. *)
Definition ascii_text (s : str) : bool :=
  forallb (fun a => (a <? 128)%N) s.

(** The four messages of [main]. *)
Definition no_file_message : str :=
  RED ++ text "No file specified. Make sure you provide the JetBrains $FilePath$ argument in the file watcher run configurations" ++ RESET.

Definition several_files_message : str :=
  RED ++ text "Several files specified. Make sure you only provide the JetBrains $FilePath$ argument in the file watcher run configurations" ++ RESET.

Definition not_a_notebook_message : str :=
  RED ++ text "ruff-jupyter-jetbrains is designed to be run on "
    ++ UNDERLINE ++ text ".ipynb" ++ NO_UNDERLINE
    ++ text " files. Make sure the JetBrains file watcher is configured for Jupyter files exclusively."
    ++ RESET.

Definition no_such_file_message (path : str) : str :=
  RED ++ text "File " ++ path
    ++ text " does not exist. This is unexpected if you use ruff-jupyter-jetbrains as a file watcher."
    ++ RESET.

(* ================================================================== *)
(** * Strings *)

Lemma append_assoc {A : Type} (s t u : list A) : (s ++ t) ++ u = s ++ t ++ u.
Proof. symmetry. apply app_assoc. Qed.

(** The first [length w] characters of [w ++ s] are [w]. *)
Lemma firstn_prefix {A : Type} (w s : list A) :
  firstn (List.length w) (w ++ s) = w.
Proof.
  induction w as [|a w IH]; simpl; [reflexivity | now rewrite IH].
Qed.

Lemma forallb_impl {A : Type} (p q : A -> bool) (s : list A) :
  (forall a, p a = true -> q a = true) ->
  forallb p s = true -> forallb q s = true.
Proof.
  intros Hpq. induction s as [|a s IH]; simpl; [reflexivity|].
  intros H. apply andb_true_iff in H as [Ha Hs].
  now rewrite (Hpq _ Ha), IH.
Qed.

Lemma append_length_inv {A : Type} (w1 w2 s1 s2 : list A) :
  w1 ++ s1 = w2 ++ s2 -> List.length w1 = List.length w2 ->
  w1 = w2 /\ s1 = s2.
Proof.
  revert w2. induction w1 as [|a w1 IH]; intros [|b w2] H Hl;
    simpl in *; try discriminate; auto.
  injection H as -> H. destruct (IH w2 H) as [-> ->]; auto.
Qed.

Lemma str_eqb_eq (s t : str) : str_eqb s t = true <-> s = t.
Proof.
  revert t. induction s as [|a s IH]; intros [|b t]; simpl;
    try (split; intros H; auto; discriminate).
  rewrite andb_true_iff, N.eqb_eq, IH. split.
  - intros [-> ->]. reflexivity.
  - intros H. injection H as -> ->. auto.
Qed.

(* ================================================================== *)
(** * The line-break pattern *)

Lemma match_at_LINE_BREAK (p : nat) (s : str) :
  Re.match_at LINE_BREAK p s
  = option_map (fun n => Re.mk_match n []) (line_break_at s).
Proof.
  unfold Re.match_at, LINE_BREAK.
  destruct s as [|a s]; [reflexivity|].
  cbn -[Nat.sub N.eqb].
  destruct (N.eqb a CR) eqn:Ea.
  - destruct s as [|b s]; cbn -[Nat.sub N.eqb].
    + replace (S p - p)%nat with 1%nat by lia. reflexivity.
    + destruct (N.eqb b LF) eqn:Eb; cbn -[Nat.sub N.eqb].
      * replace (S (S p) - p)%nat with 2%nat by lia. reflexivity.
      * replace (S p - p)%nat with 1%nat by lia. reflexivity.
  - destruct (N.eqb a LF) eqn:El; cbn -[Nat.sub N.eqb]; [|reflexivity].
    replace (S p - p)%nat with 1%nat by lia. reflexivity.
Qed.

Lemma findall_from_cons (r : Re.regex) (p : nat) (a : char) (s : str) :
  Re.findall_from r p 0 (a :: s)
  = match Re.match_at r p (a :: s) with
    | Some (Re.mk_match (S n) _) =>
        firstn (S n) (a :: s) :: Re.findall_from r (S p) n s
    | _ => Re.findall_from r (S p) 0 s
    end.
Proof. reflexivity. Qed.

Lemma findall_from_skip (r : Re.regex) (p k : nat) (a : char) (s : str) :
  Re.findall_from r p (S k) (a :: s) = Re.findall_from r (S p) k s.
Proof. reflexivity. Qed.

Lemma split_from_cons (r : Re.regex) (p : nat) (a : char) (s : str) :
  Re.split_from r p 0 (a :: s)
  = match Re.match_at r p (a :: s) with
    | Some (Re.mk_match (S n) _) => [] :: Re.split_from r (S p) n s
    | _ =>
        match Re.split_from r (S p) 0 s with
        | piece :: pieces => (a :: piece) :: pieces
        | [] => [[a]]
        end
    end.
Proof. reflexivity. Qed.

Lemma split_from_skip (r : Re.regex) (p k : nat) (a : char) (s : str) :
  Re.split_from r p (S k) (a :: s) = Re.split_from r (S p) k s.
Proof. reflexivity. Qed.

(** [re.findall] with [LINE_BREAK] finds as many matches as the text has
    line breaks. *)
Lemma findall_from_LINE_BREAK (n : nat) :
  forall (s : str) (p : nat),
    (List.length s <= n)%nat ->
    List.length (Re.findall_from LINE_BREAK p 0 s) = line_breaks s.
Proof.
  induction n as [|n IH]; intros s p Hn.
  - destruct s; [reflexivity | simpl in Hn; lia].
  - destruct s as [|a s]; [reflexivity|].
    simpl in Hn.
    rewrite findall_from_cons, match_at_LINE_BREAK.
    cbn [line_break_at line_breaks].
    destruct (N.eqb a CR) eqn:Ea.
    + destruct s as [|b s]; [reflexivity|].
      destruct (N.eqb b LF) eqn:Eb; cbn [option_map List.length].
      * rewrite findall_from_skip. f_equal. apply IH. simpl in Hn. lia.
      * f_equal. apply IH. lia.
    + destruct (N.eqb a LF) eqn:El; cbn [option_map List.length].
      * f_equal. apply IH. lia.
      * apply IH. lia.
Qed.

Lemma findall_LINE_BREAK (s : str) :
  List.length (Re.findall LINE_BREAK s) = line_breaks s.
Proof. apply (findall_from_LINE_BREAK (List.length s)). lia. Qed.

Lemma full_cell_line_count_spec (cell_source : str) :
  full_cell_line_count cell_source = spec_full_block_line_count cell_source.
Proof.
  unfold full_cell_line_count, spec_full_block_line_count.
  now rewrite findall_LINE_BREAK.
Qed.

(** [re.split] with [LINE_BREAK] cuts the text into its lines. *)
Lemma split_from_LINE_BREAK (n : nat) :
  forall (s : str) (p : nat),
    (List.length s <= n)%nat ->
    Re.split_from LINE_BREAK p 0 s = split_lines s.
Proof.
  induction n as [|n IH]; intros s p Hn.
  - destruct s; [reflexivity | simpl in Hn; lia].
  - destruct s as [|a s]; [reflexivity|].
    simpl in Hn.
    rewrite split_from_cons, match_at_LINE_BREAK.
    cbn [line_break_at split_lines].
    destruct (N.eqb a CR) eqn:Ea.
    + destruct s as [|b s]; [reflexivity|].
      destruct (N.eqb b LF) eqn:Eb; cbn [option_map].
      * rewrite split_from_skip. f_equal. apply IH. simpl in Hn. lia.
      * f_equal. apply IH. lia.
    + destruct (N.eqb a LF) eqn:El; cbn [option_map].
      * f_equal. apply IH. lia.
      * rewrite IH by lia. reflexivity.
Qed.

Lemma split_LINE_BREAK (s : str) :
  Re.split LINE_BREAK s = split_lines s.
Proof. apply (split_from_LINE_BREAK (List.length s)). lia. Qed.

(* ================================================================== *)
(** * The offset calculator *)

Section Offsets.

Lemma accumulate_length (xs : list Z) (v : Z) :
  List.length (Py.accumulate xs v) = S (List.length xs).
Proof.
  revert v. induction xs as [|x xs IH]; intros v; simpl; [reflexivity|].
  now rewrite IH.
Qed.

Lemma accumulate_head (xs : list Z) (v : Z) :
  nth_error (Py.accumulate xs v) 0 = Some v.
Proof. destruct xs; reflexivity. Qed.

(** Each element is the one before plus the count at that place. *)
Lemma accumulate_step (xs : list Z) :
  forall (v : Z) (i : nat) (x o : Z),
    nth_error xs i = Some x ->
    nth_error (Py.accumulate xs v) i = Some o ->
    nth_error (Py.accumulate xs v) (S i) = Some (o + x)%Z.
Proof.
  induction xs as [|y xs IH]; intros v i x o Hx Ho.
  - destruct i; discriminate.
  - destruct i as [|i].
    + injection Hx as ->. injection Ho as ->.
      change (nth_error (Py.accumulate xs (o + x)) 0 = Some (o + x)%Z).
      apply accumulate_head.
    + change (nth_error (Py.accumulate xs (v + y)) (S i) = Some (o + x)%Z).
      change (nth_error (Py.accumulate xs (v + y)) i = Some o) in Ho.
      now apply IH.
Qed.

Lemma accumulate_lower_bound (xs : list Z) :
  forall (v : Z) (j : nat) (b : Z),
    Forall (fun x => 0 < x)%Z xs ->
    nth_error (Py.accumulate xs v) j = Some b ->
    (v <= b)%Z /\ ((0 < j)%nat -> (v < b)%Z).
Proof.
  induction xs as [|x xs IH]; intros v j b Hpos Hb.
  - destruct j as [|[|j]]; simpl in Hb; try discriminate.
    injection Hb as <-. split; [lia | intros H; inversion H].
  - destruct j as [|j]; simpl in Hb.
    + injection Hb as <-. split; [lia | intros H; inversion H].
    + inversion Hpos as [|? ? Hx Hxs]; subst.
      destruct (IH _ _ _ Hxs Hb) as [Hle _]. lia.
Qed.

Lemma accumulate_increasing (xs : list Z) :
  forall v : Z,
    Forall (fun x => 0 < x)%Z xs ->
    strictly_increasing (Py.accumulate xs v).
Proof.
  induction xs as [|x xs IH]; intros v Hpos i j a b Hij Ha Hb.
  - destruct i as [|i], j as [|[|j]]; simpl in *; try discriminate; lia.
  - destruct j as [|j]; [lia|].
    destruct i as [|i].
    + injection Ha as <-.
      destruct (accumulate_lower_bound (x :: xs) v (S j) b Hpos Hb) as [_ Hlt].
      apply Hlt. lia.
    + inversion Hpos as [|? ? Hx Hxs]; subst.
      simpl in Ha, Hb.
      apply (IH (v + x)%Z Hxs i j); [lia | assumption | assumption].
Qed.

Lemma removelast_length {A : Type} (l : list A) :
  List.length (removelast l) = pred (List.length l).
Proof.
  induction l as [|x l IH]; [reflexivity|].
  destruct l as [|y l]; [reflexivity|].
  change (removelast (x :: y :: l)) with (x :: removelast (y :: l)).
  cbn [List.length]. rewrite IH. reflexivity.
Qed.

Lemma nth_error_removelast {A : Type} (l : list A) :
  forall i : nat,
    (i < List.length (removelast l))%nat ->
    nth_error (removelast l) i = nth_error l i.
Proof.
  induction l as [|x l IH]; intros i Hi; [simpl in Hi; lia|].
  destruct l as [|y l]; [simpl in Hi; lia|].
  - change (removelast (x :: y :: l)) with (x :: removelast (y :: l)) in *.
    destruct i as [|i]; [reflexivity|].
    cbn [List.length] in Hi. cbn [nth_error]. apply IH. lia.
Qed.

Lemma Forall_removelast {A : Type} (P : A -> Prop) (l : list A) :
  Forall P l -> Forall P (removelast l).
Proof.
  induction l as [|x l IH]; intros H; [constructor|].
  destruct l as [|y l]; [constructor|].
  change (removelast (x :: y :: l)) with (x :: removelast (y :: l)).
  inversion H; subst. constructor; [assumption | now apply IH].
Qed.

Variable cell_sources : list str.

Lemma offsets_length :
  List.length (compute_jetbrains_cell_offsets cell_sources)
  = Nat.max 1 (List.length cell_sources).
Proof.
  unfold compute_jetbrains_cell_offsets, Py.slice_to_minus_1.
  rewrite accumulate_length, removelast_length, length_map.
  destruct cell_sources; simpl; lia.
Qed.

Lemma offsets_head :
  nth_error (compute_jetbrains_cell_offsets cell_sources) 0 = Some 1%Z.
Proof. apply accumulate_head. Qed.

Lemma offsets_increasing :
  strictly_increasing (compute_jetbrains_cell_offsets cell_sources).
Proof.
  apply accumulate_increasing, Forall_removelast, Forall_forall.
  intros x Hx. apply in_map_iff in Hx as [c [<- _]].
  unfold full_cell_line_count. lia.
Qed.

(** Element [i] of the computed offsets is the offset of the
    recurrence. *)
Lemma offsets_nth (i : nat) :
  (i < List.length (compute_jetbrains_cell_offsets cell_sources))%nat ->
  nth_error (compute_jetbrains_cell_offsets cell_sources) i
  = Some (spec_offset cell_sources i).
Proof.
  induction i as [|i IH]; intros Hi.
  - apply offsets_head.
  - assert (Hi' : (i < List.length (compute_jetbrains_cell_offsets cell_sources))%nat)
      by lia.
    specialize (IH Hi').
    unfold compute_jetbrains_cell_offsets, Py.slice_to_minus_1 in *.
    rewrite accumulate_length in Hi.
    assert (Hlt : (i < List.length
                          (removelast (map full_cell_line_count cell_sources)))%nat)
      by lia.
    pose proof (nth_error_removelast _ i Hlt) as Hnth.
    rewrite nth_error_map in Hnth.
    rewrite removelast_length, length_map in Hlt.
    destruct (nth_error cell_sources i) as [c|] eqn:Hc.
    + simpl in Hnth.
      rewrite (accumulate_step _ _ _ _ _ Hnth IH).
      cbn [spec_offset]. rewrite Hc, full_cell_line_count_spec. reflexivity.
    + apply nth_error_None in Hc. lia.
Qed.

End Offsets.

Lemma map_nth_error_seq {A : Type} (l : list A) (f : nat -> A) :
  (forall i, (i < List.length l)%nat -> nth_error l i = Some (f i)) ->
  l = map f (seq 0 (List.length l)).
Proof.
  intros H. apply nth_error_ext. intros i.
  destruct (Nat.lt_ge_cases i (List.length l)) as [Hi|Hi].
  - rewrite (H i Hi), nth_error_map, nth_error_seq.
    destruct (Nat.ltb_spec i (List.length l)); [reflexivity | lia].
  - rewrite (proj2 (nth_error_None _ _) Hi).
    symmetry. apply nth_error_None. now rewrite length_map, length_seq.
Qed.



(* ================================================================== *)
(** * The matcher finds what the pattern matches *)

Section Matcher.

Context {A : Type}.

Lemma orelse_Some (x y : option A) (v : A) :
  Re.orelse x y = Some v -> x = Some v \/ (x = None /\ y = Some v).
Proof. destruct x; simpl; intros H; [left | right]; auto. Qed.

Lemma below_bound (hi : option nat) (n : nat) :
  Re.below hi n = true -> forall h, hi = Some h -> (S n <= h)%nat.
Proof.
  intros H h ->. simpl in H. apply Nat.ltb_lt in H. lia.
Qed.

(** One step of a quantifier that succeeds: it stops here, or it takes
    one more character. *)
Lemma rep_cases (c : Re.cclass) (greedy : bool) (lo : nat) (hi : option nat)
    (n : nat) (s : str) (k : nat -> str -> option A) (x : A) :
  Re.rep c greedy lo hi n s k = Some x ->
  ((lo <= n)%nat /\ k n s = Some x)
  \/ (exists a s0, s = (a :: s0) /\ Re.below hi n = true
                   /\ Re.accepts c a = true
                   /\ Re.rep c greedy lo hi (S n) s0 k = Some x).
Proof.
  intros H.
  assert (Hstop : (if (lo <=? n)%nat then k n s else None) = Some x ->
                  (lo <= n)%nat /\ k n s = Some x).
  { destruct (Nat.leb_spec lo n); [auto | discriminate]. }
  destruct s as [|a s0].
  - left. apply Hstop. cbn in H.
    destruct greedy; cbn in H; [exact H|].
    destruct (if (lo <=? n)%nat then k n [] else None); [exact H | discriminate].
  - cbn [Re.rep] in H.
    assert (Hmore : (if Re.below hi n && Re.accepts c a
                     then Re.rep c greedy lo hi (S n) s0 k else None) = Some x ->
                    exists a' s', (a :: s0) = (a' :: s') /\ Re.below hi n = true
                      /\ Re.accepts c a' = true
                      /\ Re.rep c greedy lo hi (S n) s' k = Some x).
    { destruct (Re.below hi n) eqn:Eb; [|discriminate].
      destruct (Re.accepts c a) eqn:Ea; [|discriminate].
      intros Hr. exists a, s0. auto. }
    destruct greedy; apply orelse_Some in H as [H | [_ H]]; auto.
Qed.

Lemma rep_sound (c : Re.cclass) (greedy : bool) (lo : nat) (hi : option nat)
    (k : nat -> str -> option A) (x : A) :
  forall (s : str) (n : nat),
    (forall h, hi = Some h -> (n <= h)%nat) ->
    Re.rep c greedy lo hi n s k = Some x ->
    exists w s',
      s = w ++ s'
      /\ forallb (Re.accepts c) w = true
      /\ (lo <= n + List.length w)%nat
      /\ (forall h, hi = Some h -> (n + List.length w <= h)%nat)
      /\ k (n + List.length w)%nat s' = Some x.
Proof.
  induction s as [|a s IH]; intros n Hn H;
    apply rep_cases in H as [[Hlo Hk] | (a' & s0 & Hs & Hb & Ha & Hr)].
  - exists [], []. simpl. rewrite Nat.add_0_r. auto.
  - discriminate.
  - exists [], (a :: s). simpl. rewrite Nat.add_0_r. auto.
  - injection Hs as <- <-.
    apply IH in Hr as (w & s' & -> & Hw & Hlo & Hhi & Hk).
    + exists (a :: w), s'. simpl. rewrite Ha, Hw.
      rewrite <- Nat.add_succ_comm. auto.
    + intros h Hh. exact (below_bound _ _ Hb h Hh).
Qed.

(** A quantifier succeeds on every admissible run of characters after
    which the continuation succeeds. *)
Lemma rep_complete (c : Re.cclass) (greedy : bool) (lo : nat) (hi : option nat)
    (k : nat -> str -> option A) (s' : str) (x : A) :
  forall (w : str) (n : nat),
    forallb (Re.accepts c) w = true ->
    (lo <= n + List.length w)%nat ->
    (forall h, hi = Some h -> (n + List.length w <= h)%nat) ->
    k (n + List.length w)%nat s' = Some x ->
    exists y, Re.rep c greedy lo hi n (w ++ s') k = Some y.
Proof.
  induction w as [|a w IH]; intros n Hw Hlo Hhi Hk.
  - simpl in *. rewrite Nat.add_0_r in *.
    assert (Hstop : (if (lo <=? n)%nat then k n s' else None) = Some x).
    { destruct (Nat.leb_spec lo n); [exact Hk | lia]. }
    destruct s' as [|b s0]; cbn [Re.rep]; rewrite Hstop.
    + destruct greedy; simpl; eauto.
    + destruct greedy; simpl; [|eauto].
      destruct (if Re.below hi n && Re.accepts c b
                then Re.rep c true lo hi (S n) s0 k else None); simpl; eauto.
  - simpl in Hw. apply andb_true_iff in Hw as [Ha Hw].
    simpl List.length in *.
    destruct (IH (S n) Hw) as [y Hy]; try (rewrite Nat.add_succ_comm; assumption).
    assert (Hb : Re.below hi n = true).
    { destruct hi as [h|]; [|reflexivity]. simpl.
      apply Nat.ltb_lt. specialize (Hhi h eq_refl). lia. }
    change ((a :: w) ++ s') with ((a :: w ++ s')).
    cbn [Re.rep]. rewrite Hb, Ha, Hy. simpl.
    destruct greedy; simpl; [eauto|].
    destruct (if (lo <=? n)%nat then k n ((a :: w ++ s')) else None);
      simpl; eauto.
Qed.

(** A lazy quantifier stops at the first place where the continuation
    succeeds. *)
Lemma rep_lazy_least (c : Re.cclass) (lo : nat) (hi : option nat)
    (k : nat -> str -> option A) (x : A) :
  forall (s : str) (n : nat),
    Re.rep c false lo hi n s k = Some x ->
    exists w s',
      s = w ++ s'
      /\ k (n + List.length w)%nat s' = Some x
      /\ forall w1 s1,
           s = w1 ++ s1 ->
           (List.length w1 < List.length w)%nat ->
           (lo <= n + List.length w1)%nat ->
           k (n + List.length w1)%nat s1 = None.
Proof.
  induction s as [|a s IH]; intros n H.
  - cbn in H.
    destruct (Nat.leb_spec lo n) as [Hlo|Hlo]; [|discriminate].
    destruct (k n []) eqn:Hk; [|discriminate]. injection H as ->.
    exists [], []. simpl. rewrite Nat.add_0_r. repeat split; auto.
    intros w1 s1 _ Hlt. lia.
  - cbn [Re.rep] in H.
    destruct (if (lo <=? n)%nat then k n (a :: s) else None) eqn:Hstop.
    + simpl in H. injection H as ->.
      destruct (Nat.leb_spec lo n) as [Hlo|Hlo]; [|discriminate].
      exists [], (a :: s). simpl. rewrite Nat.add_0_r. repeat split; auto.
      intros w1 s1 _ Hlt. lia.
    + simpl in H.
      destruct (Re.below hi n && Re.accepts c a); [|discriminate].
      apply IH in H as (w & s' & -> & Hk & Hleast).
      exists (a :: w), s'. simpl. rewrite <- Nat.add_succ_comm.
      repeat split; auto.
      intros w1 s1 Hs Hlt Hlo.
      destruct w1 as [|b w1].
      * simpl in *. rewrite Nat.add_0_r in *. subst s1.
        destruct (Nat.leb_spec lo n); [exact Hstop | lia].
      * simpl in Hs. injection Hs as <- Hs.
        simpl. rewrite <- Nat.add_succ_comm. apply Hleast; auto.
        -- simpl in Hlt. lia.
        -- simpl in Hlo. lia.
Qed.

End Matcher.

(** What the matcher finds, the pattern matches. *)
Lemma exec_sound (r : Re.regex) :
  forall (A : Type) (st : Re.state) (k : Re.state -> option A) (x : A),
    Re.exec r st k = Some x ->
    exists st', matches r st st' /\ k st' = Some x.
Proof.
  induction r as [|c|c lo hi greedy|r1 IH1 r2 IH2|r1 IH1 r2 IH2|name r IH| |];
    intros A st k x H; cbn [Re.exec] in H.
  - exists st. split; [constructor | exact H].
  - destruct st as [p s gs]. cbn in H.
    destruct s as [|a s]; [discriminate|].
    destruct (Re.accepts c a) eqn:Ea; [|discriminate].
    eexists. split; [constructor; exact Ea | exact H].
  - destruct st as [p s gs]. cbn [Re.rest Re.pos Re.groups] in H.
    apply rep_sound in H as (w & s' & -> & Hw & Hlo & Hhi & Hk);
      [|intros; lia].
    eexists. split; [|exact Hk].
    constructor; auto.
  - apply IH1 in H as (st2 & H1 & H).
    apply IH2 in H as (st3 & H2 & H).
    exists st3. split; [econstructor; eauto | exact H].
  - apply orelse_Some in H as [H | [_ H]].
    + apply IH1 in H as (st' & H1 & H). exists st'. split; [now apply M_AltL | exact H].
    + apply IH2 in H as (st' & H2 & H). exists st'. split; [now apply M_AltR | exact H].
  - apply IH in H as (st' & H1 & H).
    eexists. split; [apply M_Group; exact H1 | exact H].
  - destruct (Nat.eqb_spec (Re.pos st) 0); [|discriminate].
    exists st. split; [now constructor | exact H].
  - exists st.
    destruct (Re.rest st) as [|a [|b s]] eqn:Es; try discriminate.
    + split; [constructor; now left | exact H].
    + destruct (N.eqb_spec a LF); [subst a|discriminate].
      split; [constructor; now right | exact H].
Qed.

(** What the pattern matches, the matcher does not miss: it succeeds,
    possibly on another match of higher priority. *)
Lemma exec_complete (r : Re.regex) (st st' : Re.state) :
  matches r st st' ->
  forall (A : Type) (k : Re.state -> option A) (x : A),
    k st' = Some x -> exists y, Re.exec r st k = Some y.
Proof.
  induction 1 as [st|c a s p gs Ha|c lo hi greedy w s p gs Hw Hlo Hhi
                 |r1 r2 st1 st2 st3 _ IH1 _ IH2
                 |r1 r2 st st' _ IH|r1 r2 st st' _ IH
                 |name r st st' _ IH|st Hp|st He];
    intros A k x Hk; cbn [Re.exec].
  - eauto.
  - cbn. rewrite Ha. eauto.
  - cbn [Re.rest Re.pos Re.groups].
    apply rep_complete with (x := x); auto.
  - destruct (IH2 _ k x Hk) as [y Hy].
    exact (IH1 _ (fun st' => Re.exec r2 st' k) y Hy).
  - destruct (IH _ k x Hk) as [y Hy]. rewrite Hy. simpl. eauto.
  - destruct (IH _ k x Hk) as [y Hy].
    destruct (Re.exec r1 st k); simpl; eauto.
  - exact (IH _ _ x Hk).
  - rewrite Hp. simpl. eauto.
  - destruct He as [-> | ->]; simpl; eauto.
Qed.

(** A match consumes a prefix of what is left and moves the position by
    its length. *)
Lemma matches_frame (r : Re.regex) (st st' : Re.state) :
  matches r st st' ->
  exists w, Re.rest st = w ++ Re.rest st'
            /\ Re.pos st' = (Re.pos st + List.length w)%nat.
Proof.
  induction 1 as [st|c a s p gs Ha|c lo hi greedy w s p gs Hw Hlo Hhi
                 |r1 r2 st1 st2 st3 _ IH1 _ IH2
                 |r1 r2 st st' _ IH|r1 r2 st st' _ IH
                 |name r st st' _ IH|st Hp|st He]; simpl.
  - exists []. simpl. split; [reflexivity | lia].
  - exists [a]. simpl. split; [reflexivity | lia].
  - exists w. auto.
  - destruct IH1 as (w1 & E1 & P1), IH2 as (w2 & E2 & P2).
    exists (w1 ++ w2). rewrite E1, E2, P2, P1, append_assoc, length_app.
    split; [reflexivity | lia].
  - exact IH.
  - exact IH.
  - exact IH.
  - exists []. simpl. split; [reflexivity | lia].
  - exists []. simpl. split; [reflexivity | lia].
Qed.


(* ================================================================== *)
(** * The pieces of the diagnostic pattern *)

Lemma state_eta (st : Re.state) :
  st = Re.mk_state (Re.pos st) (Re.rest st) (Re.groups st).
Proof. destruct st; reflexivity. Qed.

Lemma matches_one_inv (c : Re.cclass) (st st' : Re.state) :
  matches (Re.One c) st st' ->
  exists a s, Re.rest st = (a :: s) /\ Re.accepts c a = true
              /\ st' = Re.mk_state (S (Re.pos st)) s (Re.groups st).
Proof. intros H. inversion H; subst. simpl. eauto. Qed.

Lemma matches_seq_inv (r1 r2 : Re.regex) (st st3 : Re.state) :
  matches (Re.Seq r1 r2) st st3 ->
  exists st2, matches r1 st st2 /\ matches r2 st2 st3.
Proof. intros H. inversion H; subst. eauto. Qed.

Lemma matches_rep_inv (c : Re.cclass) (lo : nat) (hi : option nat)
    (greedy : bool) (st st' : Re.state) :
  matches (Re.Rep c lo hi greedy) st st' ->
  exists w,
    Re.rest st = w ++ Re.rest st'
    /\ forallb (Re.accepts c) w = true
    /\ (lo <= List.length w)%nat
    /\ (forall h, hi = Some h -> (List.length w <= h)%nat)
    /\ st' = Re.mk_state (Re.pos st + List.length w) (Re.rest st')
              (Re.groups st).
Proof. intros H. inversion H; subst. simpl. exists w. auto. Qed.

Lemma matches_eos_inv (st st' : Re.state) :
  matches Re.Eos st st' ->
  st' = st /\ (Re.rest st = [] \/ Re.rest st = [LF]).
Proof. intros H. inversion H; subst. auto. Qed.

Lemma matches_lit_inv (w : str) :
  forall st st',
    matches (Re.lit w) st st' ->
    exists s', Re.rest st = w ++ s'
               /\ st' = Re.mk_state (Re.pos st + List.length w) s' (Re.groups st).
Proof.
  induction w as [|a w IH]; intros st st' H.
  - inversion H; subst. exists (Re.rest st'). simpl. rewrite Nat.add_0_r.
    split; [reflexivity | apply state_eta].
  - destruct w as [|b w].
    + apply matches_one_inv in H as (a' & s & Hs & Ha & ->).
      apply N.eqb_eq in Ha. subst a'.
      exists s. simpl. rewrite Nat.add_1_r. auto.
    + change (Re.lit (a :: b :: w))
        with (Re.Seq (Re.One (Re.CChar a)) (Re.lit (b :: w))) in H.
      apply matches_seq_inv in H as (st2 & H1 & H2).
      apply matches_one_inv in H1 as (a' & s & Hs & Ha & ->).
      apply N.eqb_eq in Ha. subst a'.
      apply IH in H2 as (s' & Hs' & ->). cbn [Re.rest Re.pos Re.groups] in *.
      exists s'. rewrite Hs, Hs'. split; [reflexivity|].
      f_equal. cbn [List.length]. lia.
Qed.

Lemma matches_lit (w : str) :
  forall p s gs,
    matches (Re.lit w) (Re.mk_state p (w ++ s) gs)
      (Re.mk_state (p + List.length w) s gs).
Proof.
  induction w as [|a w IH]; intros p s gs.
  - simpl. rewrite Nat.add_0_r. constructor.
  - destruct w as [|b w].
    + simpl. rewrite Nat.add_1_r. constructor. apply N.eqb_refl.
    + change (Re.lit (a :: b :: w))
        with (Re.Seq (Re.One (Re.CChar a)) (Re.lit (b :: w))).
      apply M_Seq with (st2 := Re.mk_state (S p) ((b :: w) ++ s) gs).
      * constructor. apply N.eqb_refl.
      * replace (p + List.length (a :: b :: w))%nat
          with (S p + List.length (b :: w))%nat
          by (cbn [List.length]; lia).
        apply IH.
Qed.

(** A group records the text its body consumed. *)
Lemma matches_group_inv (name : string) (r : Re.regex) (st st2 : Re.state) :
  matches (Re.Group name r) st st2 ->
  exists st' w,
    matches r st st'
    /\ Re.rest st = w ++ Re.rest st'
    /\ Re.pos st' = (Re.pos st + List.length w)%nat
    /\ st2 = Re.mk_state (Re.pos st') (Re.rest st') ((name, w) :: Re.groups st').
Proof.
  intros H. inversion H as [| | | | | |name' r' st0 st' Hr| |]; subst.
  destruct (matches_frame _ _ _ Hr) as (w & Hw & Hp).
  exists st', w. repeat split; auto.
  rewrite Hw, Hp. replace (Re.pos st + List.length w - Re.pos st)%nat
    with (List.length w) by lia.
  now rewrite firstn_prefix.
Qed.

Lemma matches_group (name : string) (r : Re.regex) (p p' : nat)
    (w s : str) (gs gs' : list (string * str)) :
  matches r (Re.mk_state p (w ++ s) gs) (Re.mk_state p' s gs') ->
  p' = (p + List.length w)%nat ->
  matches (Re.Group name r) (Re.mk_state p (w ++ s) gs)
    (Re.mk_state p' s ((name, w) :: gs')).
Proof.
  intros H ->. apply (M_Group name) in H. cbn [Re.rest Re.pos Re.groups] in H.
  revert H. replace (p + List.length w - p)%nat with (List.length w) by lia.
  rewrite firstn_prefix. intros H. exact H.
Qed.

(** A group around a quantifier. *)
Lemma matches_group_rep_inv (name : string) (c : Re.cclass) (lo : nat)
    (hi : option nat) (greedy : bool) (st st2 : Re.state) :
  matches (Re.Group name (Re.Rep c lo hi greedy)) st st2 ->
  exists w s',
    Re.rest st = w ++ s'
    /\ forallb (Re.accepts c) w = true
    /\ (lo <= List.length w)%nat
    /\ (forall h, hi = Some h -> (List.length w <= h)%nat)
    /\ st2 = Re.mk_state (Re.pos st + List.length w) s'
               ((name, w) :: Re.groups st).
Proof.
  intros H. apply matches_group_inv in H as (st' & w & Hr & Hw & Hp & ->).
  apply matches_rep_inv in Hr as (w' & Hw' & Hall & Hlo & Hhi & E).
  rewrite E in Hp. cbn [Re.pos] in Hp.
  rewrite Hw' in Hw.
  apply append_length_inv in Hw as [-> _]; [|lia].
  exists w, (Re.rest st'). rewrite E at 4 5. cbn [Re.pos Re.rest Re.groups].
  rewrite E at 2. cbn [Re.pos]. auto.
Qed.

Lemma number_text_iff (py : interpreter) (w : str) :
  number_text py w = true
  <-> forallb (Re.accepts (Re.CDigit (decimal py))) w = true /\ (1 <= List.length w)%nat.
Proof.
  unfold number_text.
  change (forallb (Re.accepts (Re.CDigit (decimal py))) w)
    with (forallb (is_decimal py) w).
  rewrite andb_true_iff, negb_true_iff.
  destruct w as [|a w]; simpl List.length; cbn [str_eqb].
  - split; intros [H1 H2]; [discriminate | lia].
  - split; intros [H1 H2]; (split; [auto | auto; lia]).
Qed.

Ltac split_seq H :=
  let st := fresh "st" in
  let H1 := fresh "Hpiece" in
  apply matches_seq_inv in H as (st & H1 & H).

Ltac take_lit H :=
  let s := fresh "s" in
  let E := fresh "E" in
  apply matches_lit_inv in H as (s & E & ->);
  cbn [Re.rest Re.pos Re.groups] in E.

Ltac take_group H w :=
  let s := fresh "s" in
  let E := fresh "E" in
  let Hall := fresh "Hall" in
  let Hlo := fresh "Hlo" in
  let Hhi := fresh "Hhi" in
  apply matches_group_rep_inv in H as (w & s & E & Hall & Hlo & Hhi & ->);
  cbn [Re.rest Re.pos Re.groups] in E.

(** What follows the file path in a line that matches. *)
Lemma after_file_path_inv (py : interpreter) (p : nat) (s : str) (gs : list (string * str))
    (st' : Re.state) :
  matches (after_file_path py) (Re.mk_state p s gs) st' ->
  exists c l col ec msg e,
    s = text ":cell " ++ c ++ text ":" ++ l ++ text ":" ++ col ++ text ": " ++ ec ++ text " "
          ++ msg ++ e
    /\ (e = [] \/ e = [LF])
    /\ number_text py c = true
    /\ number_text py l = true
    /\ number_text py col = true
    /\ error_code_text py ec = true
    /\ forallb not_LF msg = true
    /\ Re.groups st'
       = ("message", msg) :: ("error_code", ec) :: ("column", col)
           :: ("line", l) :: ("cell", c) :: gs.
Proof.
  unfold after_file_path. intros H.
  split_seq H. take_lit Hpiece.
  split_seq H. take_group Hpiece c.
  split_seq H. take_lit Hpiece.
  split_seq H. take_group Hpiece l.
  split_seq H. take_lit Hpiece.
  split_seq H. take_group Hpiece col.
  split_seq H. take_lit Hpiece.
  split_seq H.
  apply matches_group_inv in Hpiece as (stc & ec & Hec & Eec & Pec & ->).
  cbn [Re.rest Re.pos Re.groups] in *.
  apply matches_seq_inv in Hec as (stl & Hletter & Hdigits).
  apply matches_one_inv in Hletter as (a & sl & El & Ha & ->).
  apply matches_rep_inv in Hdigits as (ds & Eds & Hds & Hlo3 & Hhi3 & Est).
  cbn [Re.rest Re.pos Re.groups] in *.
  rewrite Est in *. cbn [Re.rest Re.pos Re.groups] in *. clear Est.
  split_seq H. take_lit Hpiece.
  split_seq H. take_group Hpiece msg.
  apply matches_eos_inv in H as [-> He]. cbn [Re.rest] in He.
  cbn [Re.groups].
  assert (Hc : ec = (a :: ds)).
  { rewrite El, Eds in Eec.
    change (a :: ds ++ Re.rest stc) with ((a :: ds) ++ Re.rest stc) in Eec.
    apply append_length_inv in Eec as [<- _]; [reflexivity|].
    cbn [List.length]. lia. }
  exists c, l, col, ec, msg, s8.
  repeat split.
  - rewrite E, E0, E1, E2, E3, E4, E5, Eec, E6, E7.
    cbn [app]. reflexivity.
  - exact He.
  - apply number_text_iff. auto.
  - apply number_text_iff. auto.
  - apply number_text_iff. auto.
  - subst ec. cbn [error_code_text].
    specialize (Hhi3 3%nat eq_refl).
    rewrite !andb_true_iff. repeat split.
    + exact Ha.
    + apply Nat.eqb_eq. lia.
    + exact Hds.
  - exact Hall2.
Qed.

Lemma matches_group_rep (name : string) (c : Re.cclass) (lo : nat)
    (hi : option nat) (greedy : bool) (p : nat) (w s : str)
    (gs : list (string * str)) :
  forallb (Re.accepts c) w = true ->
  (lo <= List.length w)%nat ->
  (forall h, hi = Some h -> (List.length w <= h)%nat) ->
  matches (Re.Group name (Re.Rep c lo hi greedy)) (Re.mk_state p (w ++ s) gs)
    (Re.mk_state (p + List.length w) s ((name, w) :: gs)).
Proof.
  intros Hw Hlo Hhi. apply matches_group; [|reflexivity].
  now constructor.
Qed.

Lemma matches_error_code (py : interpreter) (p : nat) (ec s : str)
    (gs : list (string * str)) :
  error_code_text py ec = true ->
  matches
    (Re.Group "error_code"
       (Re.One (Re.CRange (code "A") (code "Z")) ;;; Re.Rep (Re.CDigit (decimal py)) 3 (Some 3) true))
    (Re.mk_state p (ec ++ s) gs)
    (Re.mk_state (p + List.length ec) s (("error_code", ec) :: gs)).
Proof.
  destruct ec as [|a ds]; [discriminate|].
  cbn [error_code_text]. rewrite !andb_true_iff.
  intros [[Ha Hlen] Hds]. apply Nat.eqb_eq in Hlen.
  apply matches_group; [|reflexivity].
  apply M_Seq with (st2 := Re.mk_state (S p) (ds ++ s) gs).
  - change ((a :: ds) ++ s) with ((a :: ds ++ s)). now constructor.
  - replace (p + List.length (a :: ds))%nat
      with (S p + List.length ds)%nat by (cbn [List.length]; lia).
    constructor; [exact Hds | lia |].
    intros h Hh. injection Hh as <-. lia.
Qed.

(** A line built from well-formed fields is matched after its file
    path. *)
Lemma after_file_path_intro (py : interpreter) (p : nat) (gs : list (string * str))
    (c l col ec msg e : str) :
  number_text py c = true ->
  number_text py l = true ->
  number_text py col = true ->
  error_code_text py ec = true ->
  forallb not_LF msg = true ->
  e = [] \/ e = [LF] ->
  exists st',
    matches (after_file_path py)
      (Re.mk_state p
         (text ":cell " ++ c ++ text ":" ++ l ++ text ":" ++ col ++ text ": " ++ ec ++ text " "
            ++ msg ++ e) gs) st'.
Proof.
  intros Hc Hl Hcol Hec Hmsg He.
  apply number_text_iff in Hc as [Hc Hc1].
  apply number_text_iff in Hl as [Hl Hl1].
  apply number_text_iff in Hcol as [Hcol Hcol1].
  eexists. unfold after_file_path.
  eapply M_Seq; [apply matches_lit|].
  eapply M_Seq; [apply matches_group_rep; [exact Hc | exact Hc1 | discriminate]|].
  eapply M_Seq; [apply matches_lit|].
  eapply M_Seq; [apply matches_group_rep; [exact Hl | exact Hl1 | discriminate]|].
  eapply M_Seq; [apply matches_lit|].
  eapply M_Seq; [apply matches_group_rep; [exact Hcol | exact Hcol1 | discriminate]|].
  eapply M_Seq; [apply matches_lit|].
  eapply M_Seq; [apply matches_error_code; exact Hec|].
  eapply M_Seq; [apply matches_lit|].
  eapply M_Seq;
    [apply matches_group_rep; [exact Hmsg | apply Nat.le_0_l | discriminate]|].
  constructor. exact He.
Qed.

(** The pattern, run: a lazy scan for the end of the file path, each
    candidate followed by an attempt at the rest of the line. *)
Lemma exec_pattern (py : interpreter) (A : Type) (s : str) (k : Re.state -> option A) :
  Re.exec (RUFF_CONCISE_LINE_OUTPUT_PATTERN py) (Re.mk_state 0 s []) k
  = Re.rep Re.CAny false 1 None 0 s
      (fun n s' =>
         Re.exec (after_file_path py)
           (Re.mk_state (0 + n) s'
              [("file_path", firstn (0 + n - 0) s)]) k).
Proof. reflexivity. Qed.

(** A line that matches is made of well-formed fields, which are the
    groups of the match; the line may end in one LF. *)
Lemma pattern_sound (py : interpreter) (s : str) (m : Re.match_object) :
  Re.match_ (RUFF_CONCISE_LINE_OUTPUT_PATTERN py) s = Some m ->
  exists d e,
    diagnostic_fields py d = true
    /\ s = concise_line d ++ e
    /\ (e = [] \/ e = [LF])
    /\ Re.named m = groups_of d.
Proof.
  unfold Re.match_, Re.match_at. rewrite exec_pattern. intros H.
  apply rep_sound in H as (w & s' & -> & Hw & Hlo & _ & H); [|discriminate].
  apply exec_sound in H as (st' & H & Hm).
  apply after_file_path_inv in H
    as (c & l & col & ec & msg & e & -> & He & Hc & Hl & Hcol & Hec & Hmsg & Hg).
  injection Hm as <-. cbn [Re.named].
  simpl Nat.add in *.
  rewrite Nat.sub_0_r, firstn_prefix in Hg.
  exists (mk_raw_diagnostic w c l col ec msg), e.
  unfold diagnostic_fields, concise_line, groups_of.
  cbn [file_path cell_number line_number column_number error_code message].
  repeat split.
  - rewrite Hc, Hl, Hcol, Hec, Hmsg.
    change (forallb not_LF w) with (forallb (Re.accepts Re.CAny) w).
    rewrite Hw. destruct w; [simpl in Hlo; lia | reflexivity].
  - rewrite !append_assoc. reflexivity.
  - exact He.
  - exact Hg.
Qed.

(** Every line made of well-formed fields matches. *)
Lemma pattern_complete (py : interpreter) (d : raw_diagnostic) (e : str) :
  diagnostic_fields py d = true ->
  e = [] \/ e = [LF] ->
  exists m, Re.match_ (RUFF_CONCISE_LINE_OUTPUT_PATTERN py) (concise_line d ++ e) = Some m.
Proof.
  unfold diagnostic_fields. rewrite !andb_true_iff, negb_true_iff.
  intros [[[[[[Hne Hfp] Hc] Hl] Hcol] Hcode] Hmsg] He.
  unfold Re.match_, Re.match_at. rewrite exec_pattern.
  unfold concise_line. rewrite !append_assoc.
  destruct (after_file_path_intro py (0 + List.length (file_path d))
              [("file_path",
                firstn (0 + List.length (file_path d) - 0)
                  (file_path d ++ text ":cell " ++ cell_number d ++ text ":"
                     ++ line_number d ++ text ":" ++ column_number d ++ text ": "
                     ++ error_code d ++ text " " ++ message d ++ e))]
              _ _ _ _ _ _ Hc Hl Hcol Hcode Hmsg He) as [st' Hst'].
  destruct (exec_complete _ _ _ Hst' _
              (fun st => Some (Re.mk_match (Re.pos st - 0) (Re.groups st)))
              _ eq_refl) as [y Hy].
  eapply rep_complete; [exact Hfp | | discriminate | exact Hy].
  destruct (file_path d); [discriminate | simpl; lia].
Qed.

(** The file path of a match is the shortest one that leaves a
    well-formed rest of the line: [.+?] is lazy. *)
Lemma pattern_least (py : interpreter) (s : str) (m : Re.match_object) (d : raw_diagnostic) :
  Re.match_ (RUFF_CONCISE_LINE_OUTPUT_PATTERN py) s = Some m ->
  Re.named m = groups_of d ->
  forall d' e',
    diagnostic_fields py d' = true ->
    e' = [] \/ e' = [LF] ->
    s = concise_line d' ++ e' ->
    (List.length (file_path d) <= List.length (file_path d'))%nat.
Proof.
  unfold Re.match_, Re.match_at. rewrite exec_pattern. intros H Hd d' e' Hd' He' Hs.
  apply rep_lazy_least in H as (w & s' & Hw & H & Hleast).
  assert (Hfp : file_path d = w).
  { apply exec_sound in H as (st' & H & Hm).
    apply after_file_path_inv in H
      as (c & l & col & ec & msg & e & _ & _ & _ & _ & _ & _ & _ & Hg).
    injection Hm as <-. cbn [Re.named] in Hd. rewrite Hg in Hd.
    unfold groups_of in Hd.
    injection Hd as _ _ _ _ _ Hd.
    rewrite Hw in Hd. simpl Nat.add in Hd.
    rewrite Nat.sub_0_r, firstn_prefix in Hd. now symmetry. }
  rewrite Hfp.
  destruct (Nat.le_gt_cases (List.length w) (List.length (file_path d')))
    as [Hle|Hgt]; [exact Hle | exfalso].
  unfold diagnostic_fields in Hd'. rewrite !andb_true_iff, negb_true_iff in Hd'.
  destruct Hd' as [[[[[[Hne Hfp'] Hc] Hl] Hcol] Hec] Hmsg].
  unfold concise_line in Hs. rewrite !append_assoc in Hs.
  specialize (Hleast _ _ Hs Hgt).
  destruct (after_file_path_intro py (0 + (0 + List.length (file_path d')))
              [("file_path",
                firstn (0 + (0 + List.length (file_path d')) - 0) s)]
              _ _ _ _ _ _ Hc Hl Hcol Hec Hmsg He') as [st' Hst'].
  destruct (exec_complete _ _ _ Hst' _
              (fun st => Some (Re.mk_match (Re.pos st - 0) (Re.groups st)))
              _ eq_refl) as [y Hy].
  rewrite Hleast in Hy; [discriminate|].
  destruct (file_path d'); [discriminate | simpl; lia].
Qed.


(* ================================================================== *)
(** * The built-ins *)

Lemma digits_value_decimal (py : interpreter) (s : str) :
  forallb (is_decimal py) s = true ->
  forall acc, exists v, Py.digits_value (decimal py) s acc = Some v.
Proof.
  induction s as [|a s IH]; intros H acc; [simpl; eauto|].
  cbn [forallb] in H. apply andb_true_iff in H as [Ha Hs].
  cbn [Py.digits_value]. unfold is_decimal in Ha.
  destruct (decimal py a); [apply IH; exact Hs | discriminate].
Qed.

(** [int] on a non-empty string of digits: the number they write, which
    is not negative, unless the digits are more than the limit allows. *)
Lemma int_number_text (py : interpreter) (w : str) :
  number_text py w = true ->
  exists v,
    Py.int py w
    = if convertible_text py w then Return (Z.of_N v)
      else Raise (ValueError "Exceeds the limit for integer string conversion").
Proof.
  unfold number_text. rewrite andb_true_iff, negb_true_iff. intros [Hne Hd].
  destruct (digits_value_decimal py w Hd 0%N) as [v Hv].
  exists v. unfold Py.int, convertible_text. rewrite Hv.
  destruct w; [discriminate|].
  destruct (Py.exceeds_limit py _); reflexivity.
Qed.

(** On a field of digits [int] returns, or raises the [ValueError] of
    the limit. *)
Lemma int_cases (py : interpreter) (w : str) :
  number_text py w = true ->
  (exists z, Py.int py w = Return z)
  \/ Py.int py w
     = Raise (ValueError "Exceeds the limit for integer string conversion").
Proof.
  intros H. destruct (int_number_text py w H) as [v ->].
  destruct (convertible_text py w); [left; eauto | now right].
Qed.

Lemma str_convertible (py : interpreter) (z : Z) :
  Py.str_ py z
  = if convertible py z then Return (text (Py.decimal_text z))
    else Raise (ValueError "Exceeds the limit for integer string conversion").
Proof.
  unfold Py.str_, convertible. now destruct (Py.exceeds_limit py _).
Qed.

Lemma str_Return (py : interpreter) (z : Z) (t : str) :
  Py.str_ py z = Return t ->
  convertible py z = true /\ t = text (Py.decimal_text z).
Proof.
  rewrite str_convertible. destruct (convertible py z); [|discriminate].
  intros H. injection H as <-. auto.
Qed.

Lemma text_String (a : ascii) (s : string) :
  text (String a s) = code a :: text s.
Proof. reflexivity. Qed.

Lemma one_line_uint (d : Decimal.uint) :
  one_line (text (NilEmpty.string_of_uint d)) = true.
Proof.
  induction d; cbn [NilEmpty.string_of_uint]; [reflexivity | ..];
    rewrite text_String; unfold one_line in *; cbn [forallb];
    rewrite IHd; reflexivity.
Qed.

(** The decimal text of an integer has no line break in it. *)
Lemma decimal_text_one_line (z : Z) :
  one_line (text (Py.decimal_text z)) = true.
Proof.
  unfold Py.decimal_text.
  destruct (Z.to_int z) as [d|d]; cbn [NilEmpty.string_of_int].
  - apply one_line_uint.
  - rewrite text_String. unfold one_line. cbn [forallb].
    pose proof (one_line_uint d) as H. unfold one_line in H. rewrite H.
    reflexivity.
Qed.

Lemma getitem_in_range {A : Type} (l : list A) (i : Z) :
  (0 <= i < Z.of_nat (List.length l))%Z ->
  exists x, nth_error l (Z.to_nat i) = Some x /\ Py.getitem l i = Return x.
Proof.
  intros Hi. unfold Py.getitem.
  destruct (Z.ltb_spec i 0) as [?|_]; [lia|].
  destruct (Z.leb_spec 0 i) as [_|?]; [|lia].
  destruct (Z.ltb_spec i (Z.of_nat (List.length l))) as [_|?]; [|lia].
  simpl. destruct (nth_error l (Z.to_nat i)) as [x|] eqn:E; [eauto|].
  apply nth_error_None in E. lia.
Qed.

(** An index at or past the length raises. *)
Lemma getitem_past_end {A : Type} (l : list A) (i : Z) :
  (Z.of_nat (List.length l) <= i)%Z ->
  Py.getitem l i = Raise (IndexError "list index out of range").
Proof.
  intros Hi. unfold Py.getitem.
  destruct (Z.ltb_spec i 0) as [?|_]; [lia|].
  destruct (Z.ltb_spec i (Z.of_nat (List.length l))) as [?|_]; [lia|].
  now rewrite andb_false_r.
Qed.

(** Index [-1] is the last element. *)
Lemma getitem_minus_1 {A : Type} (l : list A) (x : A) :
  Py.getitem (l ++ [x]) (-1) = Return x.
Proof.
  unfold Py.getitem. rewrite length_app. cbn [List.length].
  change (-1 <? 0)%Z with true. cbv iota.
  replace (-1 + Z.of_nat (List.length l + 1))%Z
    with (Z.of_nat (List.length l)) by lia.
  destruct (Z.leb_spec 0 (Z.of_nat (List.length l))) as [_|?]; [|lia].
  destruct (Z.ltb_spec (Z.of_nat (List.length l))
              (Z.of_nat (List.length l + 1))) as [_|?]; [|lia].
  simpl. rewrite Nat2Z.id, nth_error_app2, Nat.sub_diag by lia. reflexivity.
Qed.

(** Whatever [l[i]] raises is the error of an index out of range. *)
Lemma getitem_cases {A : Type} (l : list A) (i : Z) :
  (exists x, Py.getitem l i = Return x)
  \/ Py.getitem l i = Raise (IndexError "list index out of range").
Proof.
  unfold Py.getitem.
  destruct (_ && _); [|now right].
  destruct (nth_error l _); [left; eauto | now right].
Qed.

(** An index that [l[i]] accepts is within [-len(l) .. len(l) - 1]. *)
Lemma getitem_Return {A : Type} (l : list A) (i : Z) (x : A) :
  Py.getitem l i = Return x ->
  (- Z.of_nat (List.length l) <= i < Z.of_nat (List.length l))%Z.
Proof.
  unfold Py.getitem.
  destruct (Z.ltb_spec i 0);
    destruct (Z.leb_spec 0 (i + Z.of_nat (List.length l)));
    destruct (Z.leb_spec 0 i);
    destruct (Z.ltb_spec i (Z.of_nat (List.length l)));
    destruct (Z.ltb_spec (i + Z.of_nat (List.length l)) (Z.of_nat (List.length l)));
    cbn [andb]; try discriminate; intros _; lia.
Qed.

(** ** Interpreters that are Python *)

Lemma python_ascii_interpreter (limit : nat) :
  limit = 0%nat \/ (640 <= limit)%nat -> python (ascii_interpreter limit).
Proof. intros H. split; [reflexivity | exact H]. Qed.

(** What is within the smallest limit is within the limit of every
    Python. *)
Lemma exceeds_limit_python (py : interpreter) (n : nat) :
  python py ->
  Py.exceeds_limit (ascii_interpreter 640) n = false ->
  Py.exceeds_limit py n = false.
Proof.
  intros [_ Hlimit]. unfold Py.exceeds_limit.
  cbn [int_max_str_digits ascii_interpreter].
  change (640 =? 0)%nat with false. cbn [negb andb].
  destruct (Nat.ltb_spec 640 n) as [?|Hn]; [discriminate|]. intros _.
  destruct Hlimit as [-> | Hlimit]; [reflexivity|].
  destruct (Nat.ltb_spec (int_max_str_digits py) n) as [?|_]; [lia|].
  apply andb_false_r.
Qed.

Lemma digits_value_ascii (py : interpreter) (s : str) :
  python py -> ascii_text s = true ->
  forall acc,
    Py.digits_value (decimal py) s acc = Py.digits_value ascii_decimal s acc.
Proof.
  intros [Hascii _]. induction s as [|a s IH]; intros H acc; [reflexivity|].
  cbn [ascii_text forallb] in H. apply andb_true_iff in H as [Ha Hs].
  apply N.ltb_lt in Ha. cbn [Py.digits_value]. rewrite (Hascii a Ha).
  destruct (ascii_decimal a); [apply IH; exact Hs | reflexivity].
Qed.

(** A number in ASCII digits that is read under the smallest limit is
    read by every Python. *)
Lemma int_python (py : interpreter) (s : str) (z : Z) :
  python py -> ascii_text s = true ->
  Py.int (ascii_interpreter 640) s = Return z ->
  Py.int py s = Return z.
Proof.
  intros Hpy Hs. unfold Py.int.
  change (decimal (ascii_interpreter 640)) with ascii_decimal.
  rewrite (digits_value_ascii py s Hpy Hs).
  destruct s; [discriminate|].
  destruct (Py.digits_value ascii_decimal _ _); [|discriminate].
  destruct (Py.exceeds_limit (ascii_interpreter 640) _) eqn:E; [discriminate|].
  now rewrite (exceeds_limit_python py _ Hpy E).
Qed.

(** A number that is written under the smallest limit is written by
    every Python. *)
Lemma str_python (py : interpreter) (z : Z) (t : str) :
  python py ->
  Py.str_ (ascii_interpreter 640) z = Return t ->
  Py.str_ py z = Return t.
Proof.
  intros Hpy. unfold Py.str_.
  destruct (Py.exceeds_limit (ascii_interpreter 640) _) eqn:E; [discriminate|].
  now rewrite (exceeds_limit_python py _ Hpy E).
Qed.

Lemma is_decimal_ascii (py : interpreter) (a : char) :
  python py -> (a <? 128)%N = true ->
  is_decimal py a = is_decimal (ascii_interpreter 640) a.
Proof.
  intros [Hascii _] Ha. apply N.ltb_lt in Ha. unfold is_decimal.
  now rewrite (Hascii a Ha).
Qed.

(** No Python takes a colon for a digit. *)
Lemma python_colon (py : interpreter) :
  python py -> is_decimal py (code ":") = false.
Proof. intros Hpy. now rewrite (is_decimal_ascii py (code ":") Hpy eq_refl). Qed.

(* ================================================================== *)
(** * Rewriting one diagnostic *)

Lemma bind_Return {A B : Type} (x : result A) (f : A -> result B) (b : B) :
  bind x f = Return b -> exists a, x = Return a /\ f a = Return b.
Proof. destruct x; simpl; [eauto | discriminate]. Qed.

(** The f-string, once the groups are known: the fields are read,
    looked up and written in the order of [rewrite_diagnostic]. *)
Lemma render_match_groups (py : interpreter) (offsets : list Z)
    (m : Re.match_object) (d : raw_diagnostic) :
  Re.named m = groups_of d ->
  render_match py offsets m = rewrite_diagnostic py offsets d.
Proof.
  intros Hm. unfold render_match, rewrite_diagnostic, rewrite_with_offset,
    Re.getitem.
  rewrite Hm.
  change (Re.lookup "file_path" (groups_of d)) with (Some (file_path d)).
  change (Re.lookup "cell" (groups_of d)) with (Some (cell_number d)).
  change (Re.lookup "line" (groups_of d)) with (Some (line_number d)).
  change (Re.lookup "column" (groups_of d)) with (Some (column_number d)).
  change (Re.lookup "error_code" (groups_of d)) with (Some (error_code d)).
  change (Re.lookup "message" (groups_of d)) with (Some (message d)).
  cbn [bind].
  destruct (Py.int py (cell_number d)) as [cell|e]; [|reflexivity]. cbn [bind].
  destruct (Py.getitem offsets (cell - 1)) as [offset|e]; [|reflexivity].
  cbn [bind].
  destruct (Py.int py (line_number d)) as [line|e]; [|reflexivity]. cbn [bind].
  rewrite (str_convertible py (offset + line)).
  destruct (convertible py (offset + line)); [|reflexivity]. cbn [bind].
  destruct (Py.int py (column_number d)) as [column|e]; [|reflexivity].
  cbn [bind].
  rewrite (str_convertible py (column - 1)).
  destruct (convertible py (column - 1)); reflexivity.
Qed.

(** The rewriting of the fields, when nothing is out of range or past
    the limit. *)
Lemma rewrite_with_offset_Return (py : interpreter) (d : raw_diagnostic)
    (offset line column : Z) :
  Py.int py (line_number d) = Return line ->
  Py.int py (column_number d) = Return column ->
  convertible py (offset + line) = true ->
  convertible py (column - 1) = true ->
  rewrite_with_offset py d offset
  = Return (rewritten_line (file_path d) (offset + line) (column - 1)
              (error_code d) (message d)).
Proof.
  intros Hl Hcol H1 H2. unfold rewrite_with_offset.
  rewrite Hl. cbn [bind]. rewrite str_convertible, H1. cbn [bind].
  rewrite Hcol. cbn [bind]. rewrite str_convertible, H2. reflexivity.
Qed.

(** And the other way round. *)
Lemma rewrite_with_offset_inv (py : interpreter) (d : raw_diagnostic)
    (offset : Z) (out : str) :
  rewrite_with_offset py d offset = Return out ->
  exists line column,
    Py.int py (line_number d) = Return line
    /\ Py.int py (column_number d) = Return column
    /\ convertible py (offset + line) = true
    /\ convertible py (column - 1) = true
    /\ out = rewritten_line (file_path d) (offset + line) (column - 1)
               (error_code d) (message d).
Proof.
  unfold rewrite_with_offset. intros H.
  apply bind_Return in H as (line & Hl & H).
  apply bind_Return in H as (t1 & H1 & H).
  apply bind_Return in H as (column & Hcol & H).
  apply bind_Return in H as (t2 & H2 & H).
  apply str_Return in H1 as [H1 _]. apply str_Return in H2 as [H2 _].
  injection H as <-. exists line, column. auto.
Qed.

(** Rewriting the fields raises nothing but the [ValueError] of a
    number past the limit. *)
Lemma rewrite_with_offset_cases (py : interpreter) (d : raw_diagnostic)
    (offset : Z) :
  diagnostic_fields py d = true ->
  (exists out, rewrite_with_offset py d offset = Return out)
  \/ rewrite_with_offset py d offset
     = Raise (ValueError "Exceeds the limit for integer string conversion").
Proof.
  unfold diagnostic_fields. rewrite !andb_true_iff.
  intros [[[[[[_ _] _] Hl] Hcol] _] _].
  unfold rewrite_with_offset.
  destruct (int_cases py (line_number d) Hl) as [[line ->] | ->];
    [|now right]. cbn [bind]. rewrite str_convertible.
  destruct (convertible py (offset + line)); [|now right]. cbn [bind].
  destruct (int_cases py (column_number d) Hcol) as [[column ->] | ->];
    [|now right]. cbn [bind]. rewrite str_convertible.
  destruct (convertible py (column - 1)); [left; eexists | right];
    reflexivity.
Qed.

(** Rewriting a diagnostic can go wrong in two ways: the cell number is
    out of range, or a number is past the limit of the conversions. *)
Lemma rewrite_diagnostic_cases (py : interpreter) (offsets : list Z)
    (d : raw_diagnostic) :
  diagnostic_fields py d = true ->
  (exists out, rewrite_diagnostic py offsets d = Return out)
  \/ rewrite_diagnostic py offsets d
     = Raise (IndexError "list index out of range")
  \/ rewrite_diagnostic py offsets d
     = Raise (ValueError "Exceeds the limit for integer string conversion").
Proof.
  intros Hd. pose proof Hd as Hd'. unfold diagnostic_fields in Hd'.
  rewrite !andb_true_iff in Hd'. destruct Hd' as [[[[[[_ _] Hc] _] _] _] _].
  unfold rewrite_diagnostic.
  destruct (int_cases py (cell_number d) Hc) as [[cell ->] | ->];
    [|now right; right]. cbn [bind].
  destruct (getitem_cases offsets (cell - 1)) as [[offset ->] | ->];
    [|right; left; reflexivity]. cbn [bind].
  destruct (rewrite_with_offset_cases py d offset Hd) as [H | H]; auto.
Qed.

Lemma render_match_cases (py : interpreter) (offsets : list Z) (s : str)
    (m : Re.match_object) :
  Re.match_ (RUFF_CONCISE_LINE_OUTPUT_PATTERN py) s = Some m ->
  (exists out, render_match py offsets m = Return out)
  \/ render_match py offsets m
     = Raise (IndexError "list index out of range")
  \/ render_match py offsets m
     = Raise (ValueError "Exceeds the limit for integer string conversion").
Proof.
  intros H. apply pattern_sound in H as (d & e & Hd & _ & _ & Hm).
  rewrite (render_match_groups py offsets m d Hm).
  now apply rewrite_diagnostic_cases.
Qed.

Lemma one_line_append (s t : str) :
  one_line (s ++ t) = one_line s && one_line t.
Proof. apply forallb_app. Qed.

(** A rewritten line is not empty, and it has no line break in it when
    the line it comes from has none. *)
Lemma render_match_one_line (py : interpreter) (offsets : list Z) (s : str)
    (m : Re.match_object) (out : str) :
  Re.match_ (RUFF_CONCISE_LINE_OUTPUT_PATTERN py) s = Some m ->
  render_match py offsets m = Return out ->
  out <> [] /\ (one_line s = true -> one_line out = true).
Proof.
  intros H Hout.
  apply pattern_sound in H as (d & e & Hd & Hs & _ & Hm).
  rewrite (render_match_groups py offsets m d Hm) in Hout.
  unfold rewrite_diagnostic in Hout.
  apply bind_Return in Hout as (cell & _ & Hout).
  apply bind_Return in Hout as (offset & _ & Hout).
  apply rewrite_with_offset_inv in Hout
    as (line & column & _ & _ & _ & _ & ->).
  unfold rewritten_line. split.
  - unfold diagnostic_fields in Hd. rewrite !andb_true_iff, negb_true_iff in Hd.
    destruct Hd as [[[[[[Hne _] _] _] _] _] _].
    destruct (file_path d); discriminate.
  - intros H1. rewrite Hs in H1. unfold concise_line in H1.
    rewrite !one_line_append, !andb_true_iff in H1.
    destruct H1 as [[Hfp (_ & _ & _ & _ & _ & _ & _ & Hec & _ & Hmsg)] _].
    rewrite !one_line_append, !decimal_text_one_line, Hfp, Hec, Hmsg.
    reflexivity.
Qed.

(* ================================================================== *)
(** * Lines *)

(** [split_lines] cuts a text at its line breaks and nowhere else: the
    pieces have no line break in them, and the text is the pieces with
    one line break between each two. *)
Lemma interleave_cons (piece sep : str) (pieces seps : list str) :
  interleave (piece :: pieces) (sep :: seps)
  = piece ++ sep ++ interleave pieces seps.
Proof. reflexivity. Qed.

Lemma split_lines_spec_bounded (n : nat) :
  forall s : str,
    (List.length s <= n)%nat ->
    exists seps,
      interleave (split_lines s) seps = s
      /\ List.length (split_lines s) = S (List.length seps)
      /\ Forall line_break seps
      /\ Forall (fun piece => one_line piece = true) (split_lines s).
Proof.
  induction n as [|n IH]; intros s Hn.
  - destruct s; [|simpl in Hn; lia].
    exists []. simpl. repeat split; auto.
  - destruct s as [|a s].
    { exists []. simpl. repeat split; auto. }
    simpl in Hn. cbn [split_lines].
    destruct (N.eqb_spec a CR) as [->|Hcr].
    + destruct s as [|b s].
      { exists [[CR]]. simpl. repeat split; auto using lb_cr. }
      destruct (N.eqb_spec b LF) as [->|Hlf].
      * destruct (IH s) as (seps & Hi & Hl & Hs & Hp); [simpl in Hn; lia|].
        exists ([CR; LF] :: seps).
        rewrite interleave_cons, Hi. cbn [List.length]. rewrite Hl.
        repeat split; auto using lb_crlf.
      * destruct (IH (b :: s)) as (seps & Hi & Hl & Hs & Hp); [lia|].
        exists ([CR] :: seps).
        rewrite interleave_cons, Hi. cbn [List.length]. rewrite Hl.
        repeat split; auto using lb_cr.
    + destruct (N.eqb_spec a LF) as [->|Hlf].
      * destruct (IH s) as (seps & Hi & Hl & Hs & Hp); [lia|].
        exists ([LF] :: seps).
        rewrite interleave_cons, Hi. cbn [List.length]. rewrite Hl.
        repeat split; auto using lb_lf.
      * destruct (IH s) as (seps & Hi & Hl & Hs & Hp); [lia|].
        exists seps.
        destruct (split_lines s) as [|piece pieces] eqn:E; [discriminate|].
        inversion Hp as [|? ? Hpiece Hpieces]; subst.
        repeat split; auto.
        -- destruct seps as [|sep seps'].
           ++ destruct pieces; [|discriminate]. reflexivity.
           ++ destruct pieces as [|piece' pieces']; [discriminate|].
              reflexivity.
        -- constructor; [|assumption].
           unfold one_line in *. cbn [forallb]. rewrite Hpiece.
           unfold is_line_break_char.
           destruct (N.eqb_spec a CR); [contradiction|].
           destruct (N.eqb_spec a LF); [contradiction|]. reflexivity.
Qed.

Lemma split_lines_spec (s : str) :
  exists seps,
    interleave (split_lines s) seps = s
    /\ List.length (split_lines s) = S (List.length seps)
    /\ Forall line_break seps
    /\ Forall (fun piece => one_line piece = true) (split_lines s).
Proof. apply (split_lines_spec_bounded (List.length s)). lia. Qed.

Lemma one_line_cons (a : char) (s : str) :
  one_line (a :: s) = true ->
  N.eqb a CR = false /\ N.eqb a LF = false /\ one_line s = true.
Proof.
  unfold one_line, is_line_break_char. cbn [forallb].
  rewrite andb_true_iff, negb_true_iff, orb_false_iff. tauto.
Qed.

(** A text without line breaks is one line. *)
Lemma split_lines_one_line (w : str) :
  one_line w = true -> split_lines w = [w].
Proof.
  induction w as [|a w IH]; [reflexivity|].
  intros H. apply one_line_cons in H as (Hcr & Hlf & Hw).
  cbn [split_lines]. rewrite Hcr, Hlf, (IH Hw). reflexivity.
Qed.

Lemma split_lines_app_LF (w s : str) :
  one_line w = true ->
  split_lines (w ++ (LF :: s)) = w :: split_lines s.
Proof.
  induction w as [|a w IH]; [reflexivity|].
  intros H. apply one_line_cons in H as (Hcr & Hlf & Hw).
  change ((a :: w) ++ (LF :: s)) with (a :: (w ++ (LF :: s))).
  cbn [split_lines]. rewrite Hcr, Hlf, (IH Hw). reflexivity.
Qed.

(** Joining lines with LF and splitting again gives the lines back. *)
Lemma split_lines_join (lines : list str) :
  Forall (fun l => one_line l = true) lines ->
  lines <> [] ->
  split_lines (Py.join [LF] lines) = lines.
Proof.
  induction lines as [|x lines IH]; intros H Hne; [contradiction|].
  inversion H as [|? ? Hx Hlines]; subst.
  destruct lines as [|y lines].
  - simpl. now apply split_lines_one_line.
  - change (Py.join [LF] (x :: y :: lines))
      with (x ++ LF :: Py.join [LF] (y :: lines)).
    rewrite split_lines_app_LF by assumption.
    f_equal. apply IH; [assumption | discriminate].
Qed.

Lemma join_not_empty (sep : str) (lines : list str) :
  Forall (fun l => l <> []) lines -> lines <> [] -> Py.join sep lines <> [].
Proof.
  intros H Hne.
  destruct lines as [|x lines]; [contradiction|].
  inversion H; subst.
  destruct lines; simpl; destruct x; try discriminate; contradiction.
Qed.

Lemma forallb_join (p : char -> bool) (sep : str) (lines : list str) :
  forallb p sep = true ->
  Forall (fun l => forallb p l = true) lines ->
  forallb p (Py.join sep lines) = true.
Proof.
  intros Hsep.
  induction lines as [|x lines IH]; intros H; [reflexivity|].
  inversion H as [|? ? Hx Hlines]; subst.
  destruct lines as [|y lines]; [exact Hx|].
  change (Py.join sep (x :: y :: lines))
    with (x ++ sep ++ Py.join sep (y :: lines)).
  rewrite !forallb_app, Hx, Hsep. simpl. now apply IH.
Qed.

Lemma last_char_append (s t : str) :
  t <> [] -> last_char (s ++ t) = last_char t.
Proof.
  intros Ht. induction s as [|a s IH]; [reflexivity|].
  change ((a :: s) ++ t) with ((a :: s ++ t)).
  cbn [last_char]. rewrite IH.
  destruct (s ++ t) eqn:E; [|reflexivity].
  destruct s; simpl in E; [contradiction | discriminate].
Qed.

Lemma one_line_last (s : str) :
  one_line s = true -> ends_with_line_break s = false.
Proof.
  unfold ends_with_line_break.
  induction s as [|a s IH]; [reflexivity|].
  intros H. apply one_line_cons in H as (Hcr & Hlf & Hs).
  cbn [last_char]. destruct s as [|b s].
  - unfold is_line_break_char. now rewrite Hcr, Hlf.
  - now apply IH.
Qed.

(** Joined lines end the way the last line ends: [join] adds nothing
    after it. *)
Lemma join_no_trailing_line_break (lines : list str) :
  Forall (fun l => l <> [] /\ one_line l = true) lines ->
  ends_with_line_break (Py.join [LF] lines) = false.
Proof.
  induction lines as [|x lines IH]; intros H; [reflexivity|].
  inversion H as [|? ? [Hx1 Hx2] Hlines]; subst.
  destruct lines as [|y lines]; [now apply one_line_last|].
  change (Py.join [LF] (x :: y :: lines))
    with (x ++ [LF] ++ Py.join [LF] (y :: lines)).
  assert (Hne : Py.join [LF] (y :: lines) <> []).
  { apply (join_not_empty [LF]); [|discriminate].
    eapply Forall_impl; [|exact Hlines]. simpl. tauto. }
  unfold ends_with_line_break in *.
  rewrite !last_char_append; auto.
  destruct (Py.join [LF] (y :: lines)); [contradiction|discriminate].
Qed.

(* ================================================================== *)
(** * The comprehension over the lines *)

Section Comprehension.

Variable py : interpreter.
Variable offsets : list Z.

Lemma transformed_lines_cons_None (ruff_line : str) (ruff_lines : list str) :
  Re.match_ (RUFF_CONCISE_LINE_OUTPUT_PATTERN py) ruff_line = None ->
  transformed_lines py offsets (ruff_line :: ruff_lines)
  = transformed_lines py offsets ruff_lines.
Proof. intros H. cbn [transformed_lines]. now rewrite H. Qed.

Lemma transformed_lines_cons_Some (ruff_line : str) (m : Re.match_object)
    (ruff_lines : list str) :
  Re.match_ (RUFF_CONCISE_LINE_OUTPUT_PATTERN py) ruff_line = Some m ->
  transformed_lines py offsets (ruff_line :: ruff_lines)
  = (transformed <- render_match py offsets m ;;
     others <- transformed_lines py offsets ruff_lines ;;
     Return (transformed :: others)).
Proof. intros H. cbn [transformed_lines]. now rewrite H. Qed.

(** A line that does not match leaves no trace, wherever it stands. *)
Lemma transformed_lines_drop (before after : list str) (ruff_line : str) :
  Re.match_ (RUFF_CONCISE_LINE_OUTPUT_PATTERN py) ruff_line = None ->
  transformed_lines py offsets (before ++ ruff_line :: after)
  = transformed_lines py offsets (before ++ after).
Proof.
  intros H. induction before as [|l before IH].
  - now apply transformed_lines_cons_None.
  - cbn [app transformed_lines]. rewrite IH. reflexivity.
Qed.

Lemma transformed_lines_no_match (ruff_lines : list str) :
  matching_lines py ruff_lines = [] ->
  transformed_lines py offsets ruff_lines = Return [].
Proof.
  induction ruff_lines as [|l ls IH]; intros H; [reflexivity|].
  unfold matching_lines in H. cbn [filter] in H. cbn [transformed_lines].
  destruct (Re.match_ (RUFF_CONCISE_LINE_OUTPUT_PATTERN py) l);
    [discriminate | now apply IH].
Qed.

(** The rewritten lines are the renderings of the matching lines, in
    their order. *)
Lemma transformed_lines_in_order (ruff_lines outs : list str) :
  transformed_lines py offsets ruff_lines = Return outs ->
  Forall2 (rendered py offsets) (matching_lines py ruff_lines) outs.
Proof.
  revert outs. induction ruff_lines as [|l ls IH]; intros outs H.
  - injection H as <-. constructor.
  - cbn [transformed_lines] in H. unfold matching_lines. cbn [filter].
    destruct (Re.match_ (RUFF_CONCISE_LINE_OUTPUT_PATTERN py) l) as [m|] eqn:Em.
    + apply bind_Return in H as (t & Ht & H).
      apply bind_Return in H as (others & Ho & H). injection H as <-.
      constructor; [exists m; auto | now apply IH].
    + now apply IH.
Qed.

(** And every list of renderings of the matching lines is what the
    comprehension returns. *)
Lemma transformed_lines_rendered (ruff_lines outs : list str) :
  Forall2 (rendered py offsets) (matching_lines py ruff_lines) outs ->
  transformed_lines py offsets ruff_lines = Return outs.
Proof.
  revert outs. induction ruff_lines as [|l ls IH]; intros outs H.
  - inversion H. reflexivity.
  - unfold matching_lines in H. cbn [filter] in H. cbn [transformed_lines].
    destruct (Re.match_ (RUFF_CONCISE_LINE_OUTPUT_PATTERN py) l) as [m|] eqn:Em.
    + inversion H as [|? out ? others (m' & Hm' & Hout) Hothers]; subst.
      rewrite Em in Hm'. injection Hm' as <-.
      rewrite Hout. cbn [bind]. rewrite (IH others Hothers). reflexivity.
    + now apply IH.
Qed.

(** One rewritten line per matching line. *)
Lemma transformed_lines_length (ruff_lines outs : list str) :
  transformed_lines py offsets ruff_lines = Return outs ->
  List.length outs = List.length (matching_lines py ruff_lines).
Proof.
  intros H. apply transformed_lines_in_order in H.
  symmetry. eapply Forall2_length. exact H.
Qed.

Lemma transformed_lines_shape (ruff_lines outs : list str) :
  transformed_lines py offsets ruff_lines = Return outs ->
  Forall (fun l => one_line l = true) ruff_lines ->
  Forall (fun out => out <> [] /\ one_line out = true) outs.
Proof.
  revert outs. induction ruff_lines as [|l ls IH]; intros outs H Hl.
  - injection H as <-. constructor.
  - inversion Hl as [|? ? Hl1 Hls]; subst.
    cbn [transformed_lines] in H.
    destruct (Re.match_ (RUFF_CONCISE_LINE_OUTPUT_PATTERN py) l) as [m|] eqn:Em;
      [|now apply IH].
    apply bind_Return in H as (t & Ht & H).
    apply bind_Return in H as (others & Ho & H). injection H as <-.
    destruct (render_match_one_line py offsets l m t Em Ht) as [Hne H1].
    constructor; [split; auto | now apply IH].
Qed.

(** The comprehension raises nothing but the error of an offset lookup
    out of range and the error of a number past the limit of the
    conversions. *)
Lemma transformed_lines_raise (ruff_lines : list str) (e : exn) :
  transformed_lines py offsets ruff_lines = Raise e ->
  e = IndexError "list index out of range"
  \/ e = ValueError "Exceeds the limit for integer string conversion".
Proof.
  induction ruff_lines as [|l ls IH]; intros H; [discriminate|].
  cbn [transformed_lines] in H.
  destruct (Re.match_ (RUFF_CONCISE_LINE_OUTPUT_PATTERN py) l) as [m|] eqn:Em;
    [|now apply IH].
  destruct (render_match_cases py offsets l m Em) as [[out Hout] | [Hout | Hout]];
    rewrite Hout in H; cbn [bind] in H.
  - destruct (transformed_lines py offsets ls) as [others|e'];
      [discriminate|]. cbn [bind] in H. injection H as <-. now apply IH.
  - injection H as <-. now left.
  - injection H as <-. now right.
Qed.

(** The first line that fails to render ends the comprehension with
    its exception. *)
Lemma transformed_lines_first_failure (before after : list str)
    (ruff_line : str) (m : Re.match_object) (e : exn) (outs : list str) :
  transformed_lines py offsets before = Return outs ->
  Re.match_ (RUFF_CONCISE_LINE_OUTPUT_PATTERN py) ruff_line = Some m ->
  render_match py offsets m = Raise e ->
  transformed_lines py offsets (before ++ ruff_line :: after) = Raise e.
Proof.
  intros Hb Hm Hr. revert outs Hb.
  induction before as [|l before IH]; intros outs Hb.
  - cbn [app]. rewrite (transformed_lines_cons_Some _ _ _ Hm), Hr.
    reflexivity.
  - cbn [app transformed_lines] in *.
    destruct (Re.match_ (RUFF_CONCISE_LINE_OUTPUT_PATTERN py) l) as [m'|];
      [|now apply (IH outs)].
    apply bind_Return in Hb as (t & -> & Hb).
    apply bind_Return in Hb as (others & Ho & _).
    cbn [bind]. rewrite (IH others Ho). reflexivity.
Qed.

(** One matching line that fails to render makes the whole
    comprehension fail. *)
Lemma transformed_lines_fails (ruff_lines : list str) (ruff_line : str)
    (m : Re.match_object) (e : exn) :
  In ruff_line ruff_lines ->
  Re.match_ (RUFF_CONCISE_LINE_OUTPUT_PATTERN py) ruff_line = Some m ->
  render_match py offsets m = Raise e ->
  exists e', transformed_lines py offsets ruff_lines = Raise e'.
Proof.
  intros Hin Hm Hr.
  destruct (transformed_lines py offsets ruff_lines) as [outs|e'] eqn:E;
    [|eauto].
  exfalso. revert outs E.
  induction ruff_lines as [|l ls IH]; intros outs E; [contradiction|].
  cbn [transformed_lines] in E.
  destruct Hin as [-> | Hin].
  - rewrite Hm, Hr in E. discriminate.
  - destruct (Re.match_ (RUFF_CONCISE_LINE_OUTPUT_PATTERN py) l) as [m'|];
      [|now apply (IH Hin outs)].
    apply bind_Return in E as (t & _ & E).
    apply bind_Return in E as (others & Ho & _).
    now apply (IH Hin others).
Qed.

(** The comprehension returns when every match renders. *)
Lemma transformed_lines_returns (ruff_lines : list str) :
  (forall ruff_line m,
      In ruff_line ruff_lines ->
      Re.match_ (RUFF_CONCISE_LINE_OUTPUT_PATTERN py) ruff_line = Some m ->
      exists out, render_match py offsets m = Return out) ->
  exists outs, transformed_lines py offsets ruff_lines = Return outs.
Proof.
  induction ruff_lines as [|l ls IH]; intros H; [simpl; eauto|].
  destruct IH as [outs Houts]; [intros; eapply H; simpl; eauto|].
  cbn [transformed_lines].
  destruct (Re.match_ (RUFF_CONCISE_LINE_OUTPUT_PATTERN py) l) as [m|] eqn:Em;
    [|eauto].
  destruct (H l m (or_introl eq_refl) Em) as [out ->].
  rewrite Houts. simpl. eauto.
Qed.

(** A list of lines is rewritten piece by piece. *)
Lemma transformed_lines_app (lines1 lines2 : list str) :
  transformed_lines py offsets (lines1 ++ lines2)
  = (outs1 <- transformed_lines py offsets lines1 ;;
     outs2 <- transformed_lines py offsets lines2 ;;
     Return (outs1 ++ outs2)).
Proof.
  induction lines1 as [|l lines1 IH].
  - cbn [app transformed_lines bind].
    destruct (transformed_lines py offsets lines2); reflexivity.
  - cbn [app transformed_lines].
    destruct (Re.match_ (RUFF_CONCISE_LINE_OUTPUT_PATTERN py) l) as [m|];
      [|exact IH].
    destruct (render_match py offsets m) as [t|e]; [|reflexivity].
    cbn [bind]. rewrite IH.
    destruct (transformed_lines py offsets lines1) as [outs1|e];
      [|reflexivity].
    cbn [bind].
    destruct (transformed_lines py offsets lines2); reflexivity.
Qed.

End Comprehension.

Lemma empty_line_does_not_match (py : interpreter) :
  Re.match_ (RUFF_CONCISE_LINE_OUTPUT_PATTERN py) [] = None.
Proof. reflexivity. Qed.

(* ================================================================== *)
(** * The rewriter on a whole output *)

Lemma split_one_line (s : str) :
  one_line s = true -> Re.split LINE_BREAK s = [s].
Proof. intros H. rewrite split_LINE_BREAK. now apply split_lines_one_line. Qed.

Lemma split_pieces_one_line (s : str) :
  Forall (fun piece => one_line piece = true) (Re.split LINE_BREAK s).
Proof.
  rewrite split_LINE_BREAK.
  destruct (split_lines_spec s) as (seps & _ & _ & _ & H). exact H.
Qed.

(** An output of one matching line is rewritten to the rendering of its
    match. *)
Lemma transform_single (py : interpreter) (ruff_line : str)
    (m : Re.match_object) (cell_sources : list str) :
  one_line ruff_line = true ->
  Re.match_ (RUFF_CONCISE_LINE_OUTPUT_PATTERN py) ruff_line = Some m ->
  transform_ruff_to_jetbrains_compatible_output py ruff_line cell_sources
  = render_match py (compute_jetbrains_cell_offsets cell_sources) m.
Proof.
  intros H1 Hm. unfold transform_ruff_to_jetbrains_compatible_output.
  rewrite (split_one_line _ H1). cbn [transformed_lines]. rewrite Hm.
  destruct (render_match py _ m); reflexivity.
Qed.

Lemma offsets_not_empty (cell_sources : list str) :
  compute_jetbrains_cell_offsets cell_sources <> [].
Proof.
  intros H. pose proof (offsets_length cell_sources) as Hl.
  rewrite H in Hl. cbn [List.length] in Hl. lia.
Qed.

Lemma getitem_last (l : list Z) :
  l <> [] -> Py.getitem l (-1) = Return (last l 0%Z).
Proof.
  intros H. rewrite (app_removelast_last 0%Z H) at 1.
  apply getitem_minus_1.
Qed.

Lemma split_lines_app_CRLF (w s : str) :
  one_line w = true ->
  split_lines (w ++ CR :: LF :: s) = w :: split_lines s.
Proof.
  induction w as [|a w IH]; [reflexivity|].
  intros H. apply one_line_cons in H as (Hcr & Hlf & Hw).
  change ((a :: w) ++ CR :: LF :: s)
    with (a :: (w ++ CR :: LF :: s)).
  cbn [split_lines]. rewrite Hcr, Hlf, (IH Hw). reflexivity.
Qed.

Lemma split_lines_app_CR (w s : str) :
  one_line w = true ->
  (forall s', s <> (LF :: s')) ->
  split_lines (w ++ (CR :: s)) = w :: split_lines s.
Proof.
  intros Hw Hs. induction w as [|a w IH].
  - cbn [app split_lines]. change (N.eqb CR CR) with true. cbv iota.
    destruct s as [|b s]; [reflexivity|].
    destruct (N.eqb_spec b LF) as [->|_]; [|reflexivity].
    now destruct (Hs s).
  - apply one_line_cons in Hw as (Hcr & Hlf & Hw).
    change ((a :: w) ++ (CR :: s)) with (a :: (w ++ (CR :: s))).
    cbn [split_lines]. rewrite Hcr, Hlf, (IH Hw). reflexivity.
Qed.


(* ================================================================== *)
(** * The fields of a line *)

(** A run of characters of one kind ends where the first character of
    another kind stands. *)
Lemma span_unique (p : char -> bool) :
  forall (w1 w2 : str) (a b : char) (r1 r2 : str),
    forallb p w1 = true ->
    forallb p w2 = true ->
    p a = false ->
    p b = false ->
    w1 ++ (a :: r1) = w2 ++ (b :: r2) ->
    w1 = w2 /\ a = b /\ r1 = r2.
Proof.
  induction w1 as [|c w1 IH]; intros [|d w2] a b r1 r2 H1 H2 Ha Hb H;
    simpl in *.
  - injection H as -> ->. auto.
  - injection H as -> _. apply andb_true_iff in H2 as [H2 _]. congruence.
  - injection H as -> _. apply andb_true_iff in H1 as [H1 _]. congruence.
  - injection H as -> H.
    apply andb_true_iff in H1 as [_ H1]. apply andb_true_iff in H2 as [_ H2].
    destruct (IH w2 a b r1 r2 H1 H2 Ha Hb H) as (-> & -> & ->). auto.
Qed.

(** A character that stands inside a text is one of its characters. *)
Lemma char_inside (p : char -> bool) :
  forall (w1 w2 : str) (a : char) (r1 r2 : str),
    w1 ++ (a :: r1) = w2 ++ r2 ->
    (List.length w1 < List.length w2)%nat ->
    forallb p w2 = true ->
    p a = true.
Proof.
  induction w1 as [|c w1 IH]; intros [|d w2] a r1 r2 H Hlt Hp;
    simpl in *; try lia.
  - injection H as -> _. now apply andb_true_iff in Hp as [Hp _].
  - injection H as -> H. apply andb_true_iff in Hp as [_ Hp].
    apply (IH w2 a r1 r2 H); [lia | exact Hp].
Qed.

Lemma message_unique (m1 m2 e1 e2 : str) :
  forallb not_LF m1 = true ->
  forallb not_LF m2 = true ->
  e1 = [] \/ e1 = [LF] ->
  e2 = [] \/ e2 = [LF] ->
  m1 ++ e1 = m2 ++ e2 ->
  m1 = m2 /\ e1 = e2.
Proof.
  intros H1 H2 [-> | ->] [-> | ->] H.
  - rewrite !app_nil_r in H. auto.
  - rewrite app_nil_r in H. subst m1.
    rewrite forallb_app in H1. apply andb_true_iff in H1 as [_ H1].
    discriminate.
  - rewrite app_nil_r in H. subst m2.
    rewrite forallb_app in H2. apply andb_true_iff in H2 as [_ H2].
    discriminate.
  - destruct (span_unique not_LF m1 m2 LF LF [] [] H1 H2 eq_refl eq_refl H)
      as (-> & _ & _). auto.
Qed.

Lemma number_text_digits (py : interpreter) (w : str) :
  number_text py w = true -> forallb (is_decimal py) w = true.
Proof. unfold number_text. rewrite andb_true_iff. tauto. Qed.

Lemma error_code_text_length (py : interpreter) (ec : str) :
  error_code_text py ec = true -> List.length ec = 4%nat.
Proof.
  destruct ec as [|a ds]; [discriminate|]. cbn [error_code_text].
  rewrite !andb_true_iff. intros [[_ H] _]. apply Nat.eqb_eq in H.
  simpl. now rewrite H.
Qed.

(** The fields of a line are determined by the line and the file
    path. *)
Lemma fields_unique (py : interpreter) (d1 d2 : raw_diagnostic) (e1 e2 : str) :
  python py ->
  diagnostic_fields py d1 = true ->
  diagnostic_fields py d2 = true ->
  e1 = [] \/ e1 = [LF] ->
  e2 = [] \/ e2 = [LF] ->
  concise_line d1 ++ e1 = concise_line d2 ++ e2 ->
  List.length (file_path d1) = List.length (file_path d2) ->
  d1 = d2 /\ e1 = e2.
Proof.
  intros Hpy. unfold diagnostic_fields. rewrite !andb_true_iff.
  intros [[[[[[_ _] Hc1] Hl1] Hcol1] Hec1] Hm1]
         [[[[[[_ _] Hc2] Hl2] Hcol2] Hec2] Hm2] He1 He2 H Hlen.
  destruct d1 as [fp1 c1 l1 col1 ec1 m1], d2 as [fp2 c2 l2 col2 ec2 m2].
  unfold concise_line in H.
  cbn [file_path cell_number line_number column_number error_code message] in *.
  rewrite !append_assoc in H.
  apply append_length_inv in H as [-> H]; [|exact Hlen].
  apply app_inv_head in H.
  change (text ":") with [code ":"] in H.
  change (text ": ") with [code ":"; code " "] in H.
  change (text " ") with [code " "] in H.
  cbn [app] in H.
  pose proof (python_colon py Hpy) as Hcolon.
  apply (span_unique (is_decimal py)) in H as (-> & _ & H);
    auto using number_text_digits.
  apply (span_unique (is_decimal py)) in H as (-> & _ & H);
    auto using number_text_digits.
  apply (span_unique (is_decimal py)) in H as (-> & _ & H);
    auto using number_text_digits.
  injection H as H.
  apply append_length_inv in H as [-> H];
    [|now rewrite (error_code_text_length py ec1),
        (error_code_text_length py ec2)].
  injection H as H.
  apply message_unique in H as [-> ->]; auto.
Qed.

(** Matching gives back the fields a line is written from, when the file
    path has no colon in it. *)
Lemma match_of_fields (py : interpreter) (d : raw_diagnostic) :
  python py ->
  diagnostic_fields py d = true ->
  no_colon (file_path d) = true ->
  exists m,
    Re.match_ (RUFF_CONCISE_LINE_OUTPUT_PATTERN py) (concise_line d) = Some m
    /\ Re.named m = groups_of d.
Proof.
  intros Hpy Hd Hcolon.
  destruct (pattern_complete py d [] Hd (or_introl eq_refl)) as [m Hm].
  rewrite app_nil_r in Hm.
  exists m. split; [exact Hm|].
  destruct (pattern_sound py _ _ Hm) as (d0 & e0 & Hd0 & Hs & He0 & Hg).
  pose proof (pattern_least py _ m d0 Hm Hg d [] Hd (or_introl eq_refl)
                (eq_sym (app_nil_r _))) as Hle.
  assert (Hlen : List.length (file_path d0) = List.length (file_path d)).
  { destruct (Nat.eq_dec (List.length (file_path d0))
                (List.length (file_path d))) as [E|Hne]; [exact E|].
    exfalso.
    assert (Hs' : file_path d0
                    ++ code ":" :: (text "cell " ++ cell_number d0 ++ text ":"
                                      ++ line_number d0 ++ text ":"
                                      ++ column_number d0 ++ text ": "
                                      ++ error_code d0 ++ text " "
                                      ++ message d0 ++ e0)
                  = file_path d
                      ++ (text ":cell " ++ cell_number d ++ text ":"
                            ++ line_number d ++ text ":" ++ column_number d
                            ++ text ": " ++ error_code d ++ text " "
                            ++ message d)).
    { unfold concise_line in Hs. rewrite !append_assoc in Hs.
      symmetry. exact Hs. }
    pose proof (char_inside (fun a => negb (N.eqb a (code ":"))) _ _ _ _ _
                  Hs' ltac:(lia) Hcolon) as Hbad.
    discriminate. }
  destruct (fields_unique py d0 d e0 [] Hpy Hd0 Hd He0 (or_introl eq_refl))
    as [-> _]; auto.
  now rewrite app_nil_r.
Qed.

(* ================================================================== *)
(** * What every Python agrees on *)

Lemma similar_refl (P : char -> bool) (r : Re.regex) : similar P r r.
Proof. induction r; constructor; auto; intros a _; reflexivity. Qed.

Lemma rep_similar (A : Type) (P : char -> bool) (c c' : Re.cclass)
    (greedy : bool) (lo : nat) (hi : option nat) :
  agree_on P c c' ->
  forall (s : str) (n : nat) (k k' : nat -> str -> option A),
    forallb P s = true ->
    (forall n' s', forallb P s' = true -> k n' s' = k' n' s') ->
    Re.rep c greedy lo hi n s k = Re.rep c' greedy lo hi n s k'.
Proof.
  intros Hc. induction s as [|a s IH]; intros n k k' Hs Hk.
  - cbn [Re.rep]. now rewrite (Hk n [] eq_refl).
  - cbn [forallb] in Hs. apply andb_true_iff in Hs as [Ha Hs].
    cbn [Re.rep]. rewrite (Hc a Ha), (IH (S n) k k' Hs Hk).
    rewrite (Hk n (a :: s)); [reflexivity|].
    cbn [forallb]. now rewrite Ha, Hs.
Qed.

(** Patterns that differ only outside the characters of the subject
    match it alike. *)
Lemma exec_similar (A : Type) (P : char -> bool) (r r' : Re.regex) :
  similar P r r' ->
  forall (st : Re.state) (k k' : Re.state -> option A),
    forallb P (Re.rest st) = true ->
    (forall st', forallb P (Re.rest st') = true -> k st' = k' st') ->
    Re.exec r st k = Re.exec r' st k'.
Proof.
  induction 1 as [|c c' Hc|c c' lo hi greedy Hc|r1 r1' r2 r2' _ IH1 _ IH2
                 |r1 r1' r2 r2' _ IH1 _ IH2|name r r' _ IH| |];
    intros st k k' Hst Hk; cbn [Re.exec].
  - now apply Hk.
  - destruct (Re.rest st) as [|a s]; [reflexivity|].
    cbn [forallb] in Hst. apply andb_true_iff in Hst as [Ha Hs].
    rewrite (Hc a Ha). destruct (Re.accepts c' a); [|reflexivity].
    now apply Hk.
  - apply (rep_similar A P); [exact Hc | exact Hst |].
    intros n' s' Hs'. now apply Hk.
  - apply IH1; [exact Hst|]. intros st' Hst'. now apply IH2.
  - now rewrite (IH1 st k k' Hst Hk), (IH2 st k k' Hst Hk).
  - apply IH; [exact Hst|]. intros st' Hst'. now apply Hk.
  - destruct (Re.pos st =? 0)%nat; [now apply Hk | reflexivity].
  - pose proof (Hk st Hst) as Hkst.
    destruct (Re.rest st) as [|a [|b s]]; [exact Hkst | | reflexivity].
    destruct (N.eqb a LF); [exact Hkst | reflexivity].
Qed.

Lemma pattern_similar (py : interpreter) :
  python py ->
  similar (fun a => (a <? 128)%N) (RUFF_CONCISE_LINE_OUTPUT_PATTERN py)
    (RUFF_CONCISE_LINE_OUTPUT_PATTERN (ascii_interpreter 640)).
Proof.
  intros Hpy.
  assert (Hd : agree_on (fun a => (a <? 128)%N) (Re.CDigit (decimal py))
                 (Re.CDigit (decimal (ascii_interpreter 640)))).
  { intros a Ha. exact (is_decimal_ascii py a Hpy Ha). }
  unfold RUFF_CONCISE_LINE_OUTPUT_PATTERN.
  repeat first [ apply S_Seq | apply S_Group | apply S_Rep; exact Hd
               | apply similar_refl ].
Qed.

(** On a line in ASCII the pattern matches the same for every Python. *)
Lemma match_python (py : interpreter) (s : str) :
  python py -> ascii_text s = true ->
  Re.match_ (RUFF_CONCISE_LINE_OUTPUT_PATTERN py) s
  = Re.match_ (RUFF_CONCISE_LINE_OUTPUT_PATTERN (ascii_interpreter 640)) s.
Proof.
  intros Hpy Hs. unfold Re.match_, Re.match_at.
  apply (exec_similar _ _ _ _ (pattern_similar py Hpy)); [exact Hs|].
  reflexivity.
Qed.

Lemma ascii_text_app (s t : str) :
  ascii_text (s ++ t) = ascii_text s && ascii_text t.
Proof. apply forallb_app. Qed.

Lemma rewrite_diagnostic_python (py : interpreter) (offsets : list Z)
    (d : raw_diagnostic) (out : str) :
  python py ->
  ascii_text (cell_number d) = true ->
  ascii_text (line_number d) = true ->
  ascii_text (column_number d) = true ->
  rewrite_diagnostic (ascii_interpreter 640) offsets d = Return out ->
  rewrite_diagnostic py offsets d = Return out.
Proof.
  intros Hpy Hc Hl Hcol H. unfold rewrite_diagnostic in *.
  apply bind_Return in H as (cell & Ecell & H).
  apply bind_Return in H as (offset & Eoffset & H).
  unfold rewrite_with_offset in *.
  apply bind_Return in H as (line & Eline & H).
  apply bind_Return in H as (t1 & E1 & H).
  apply bind_Return in H as (column & Ecolumn & H).
  apply bind_Return in H as (t2 & E2 & H).
  rewrite (int_python py _ _ Hpy Hc Ecell). cbn [bind].
  rewrite Eoffset. cbn [bind].
  rewrite (int_python py _ _ Hpy Hl Eline). cbn [bind].
  rewrite (str_python py _ _ Hpy E1). cbn [bind].
  rewrite (int_python py _ _ Hpy Hcol Ecolumn). cbn [bind].
  rewrite (str_python py _ _ Hpy E2). cbn [bind].
  exact H.
Qed.

Lemma render_match_python (py : interpreter) (offsets : list Z) (s : str)
    (m : Re.match_object) (out : str) :
  python py -> ascii_text s = true ->
  Re.match_ (RUFF_CONCISE_LINE_OUTPUT_PATTERN (ascii_interpreter 640)) s
  = Some m ->
  render_match (ascii_interpreter 640) offsets m = Return out ->
  render_match py offsets m = Return out.
Proof.
  intros Hpy Hs Hm Hout.
  apply pattern_sound in Hm as (d & e & _ & -> & _ & Hg).
  rewrite (render_match_groups py offsets m d Hg).
  rewrite (render_match_groups _ offsets m d Hg) in Hout.
  unfold concise_line in Hs. rewrite !ascii_text_app, !andb_true_iff in Hs.
  destruct Hs as [[_ (_ & Hc & _ & Hl & _ & Hcol & _)] _].
  now apply rewrite_diagnostic_python.
Qed.

Lemma transformed_lines_python (py : interpreter) (offsets : list Z)
    (ruff_lines outs : list str) :
  python py ->
  Forall (fun ruff_line => ascii_text ruff_line = true) ruff_lines ->
  transformed_lines (ascii_interpreter 640) offsets ruff_lines = Return outs ->
  transformed_lines py offsets ruff_lines = Return outs.
Proof.
  intros Hpy. revert outs.
  induction ruff_lines as [|l ls IH]; intros outs Hall H; [exact H|].
  inversion Hall as [|? ? Hl Hls]; subst.
  cbn [transformed_lines] in *. rewrite (match_python py l Hpy Hl).
  destruct (Re.match_ (RUFF_CONCISE_LINE_OUTPUT_PATTERN (ascii_interpreter 640)) l)
    as [m|] eqn:Em; [|now apply IH].
  apply bind_Return in H as (t & Ht & H).
  apply bind_Return in H as (others & Ho & H).
  rewrite (render_match_python py offsets l m t Hpy Hl Em Ht). cbn [bind].
  rewrite (IH others Hls Ho). exact H.
Qed.

Lemma interleave_forallb (P : char -> bool) :
  forall pieces seps : list str,
    List.length pieces = S (List.length seps) ->
    forallb P (interleave pieces seps) = true ->
    Forall (fun piece => forallb P piece = true) pieces.
Proof.
  induction pieces as [|piece pieces IH]; intros seps Hlen H; [discriminate|].
  destruct seps as [|sep seps].
  - destruct pieces; [|discriminate]. constructor; [exact H | constructor].
  - cbn [interleave] in H. rewrite !forallb_app, !andb_true_iff in H.
    destruct H as (Hp & _ & H).
    constructor; [exact Hp|]. apply (IH seps); [|exact H].
    cbn [List.length] in Hlen. lia.
Qed.

(** The lines of a text in ASCII are in ASCII. *)
Lemma split_ascii (s : str) :
  ascii_text s = true ->
  Forall (fun piece => ascii_text piece = true) (Re.split LINE_BREAK s).
Proof.
  intros Hs. rewrite split_LINE_BREAK.
  destruct (split_lines_spec s) as (seps & Hi & Hlen & _ & _).
  apply (interleave_forallb _ _ seps Hlen). now rewrite Hi.
Qed.

(** An output in ASCII that is rewritten under the smallest limit is
    rewritten to the same text by every Python. *)
Lemma transform_python (py : interpreter) (ruff_output : str)
    (cell_sources : list str) (out : str) :
  python py -> ascii_text ruff_output = true ->
  transform_ruff_to_jetbrains_compatible_output (ascii_interpreter 640)
    ruff_output cell_sources = Return out ->
  transform_ruff_to_jetbrains_compatible_output py ruff_output cell_sources
  = Return out.
Proof.
  intros Hpy Hs H. unfold transform_ruff_to_jetbrains_compatible_output in *.
  apply bind_Return in H as (lines & Hlines & H).
  rewrite (transformed_lines_python py _ _ lines Hpy (split_ascii _ Hs) Hlines).
  exact H.
Qed.

(* ================================================================== *)
(** * The rewriter, line by line *)

(** The rewriter returns the renderings of the matching lines, joined;
    it returns nothing else, and returns whenever they all render. *)
Lemma transform_iff (py : interpreter) (ruff_output : str)
    (cell_sources : list str) (out : str) :
  transform_ruff_to_jetbrains_compatible_output py ruff_output cell_sources
  = Return out
  <-> exists outs,
        out = Py.join [LF] outs
        /\ Forall2 (rendered py (compute_jetbrains_cell_offsets cell_sources))
             (matching_lines py (Re.split LINE_BREAK ruff_output)) outs.
Proof.
  unfold transform_ruff_to_jetbrains_compatible_output. split.
  - intros H. apply bind_Return in H as (lines & Hlines & H).
    injection H as <-. exists lines.
    split; [reflexivity | now apply transformed_lines_in_order].
  - intros (outs & -> & H).
    now rewrite (transformed_lines_rendered _ _ _ _ H).
Qed.

(** One matching line that fails to render makes the rewriter raise,
    either the error of a cell number out of range or the error of a
    number past the limit. *)
Lemma transform_raises (py : interpreter) (ruff_output : str)
    (cell_sources : list str) (ruff_line : str) (m : Re.match_object)
    (e : exn) :
  In ruff_line (Re.split LINE_BREAK ruff_output) ->
  Re.match_ (RUFF_CONCISE_LINE_OUTPUT_PATTERN py) ruff_line = Some m ->
  render_match py (compute_jetbrains_cell_offsets cell_sources) m = Raise e ->
  exists e',
    transform_ruff_to_jetbrains_compatible_output py ruff_output cell_sources
    = Raise e'
    /\ (e' = IndexError "list index out of range"
        \/ e' = ValueError "Exceeds the limit for integer string conversion").
Proof.
  intros Hin Hm Hr. unfold transform_ruff_to_jetbrains_compatible_output.
  destruct (transformed_lines_fails py _ _ _ _ _ Hin Hm Hr) as [e' He'].
  rewrite He'. exists e'. split; [reflexivity|].
  now apply transformed_lines_raise in He'.
Qed.

(** The lines before the first one that fails to render do not change
    the exception. *)
Lemma transform_first_failure (py : interpreter) (ruff_output : str)
    (cell_sources : list str) (before after : list str) (ruff_line : str)
    (m : Re.match_object) (e : exn) (outs : list str) :
  Re.split LINE_BREAK ruff_output = before ++ ruff_line :: after ->
  transformed_lines py (compute_jetbrains_cell_offsets cell_sources) before
  = Return outs ->
  Re.match_ (RUFF_CONCISE_LINE_OUTPUT_PATTERN py) ruff_line = Some m ->
  render_match py (compute_jetbrains_cell_offsets cell_sources) m = Raise e ->
  transform_ruff_to_jetbrains_compatible_output py ruff_output cell_sources
  = Raise e.
Proof.
  intros Hs Hb Hm Hr. unfold transform_ruff_to_jetbrains_compatible_output.
  rewrite Hs.
  now rewrite (transformed_lines_first_failure py _ _ _ _ _ _ _ Hb Hm Hr).
Qed.

Lemma cell_of_groups (py : interpreter) (m : Re.match_object)
    (d : raw_diagnostic) :
  Re.named m = groups_of d ->
  cell_of py m = Py.int py (cell_number d)
  /\ line_of py m = Py.int py (line_number d)
  /\ column_of py m = Py.int py (column_number d).
Proof.
  intros Hm. unfold cell_of, line_of, column_of, Re.getitem. rewrite Hm.
  repeat split.
Qed.

(** A rewritten output: not empty lines without line breaks, LF between
    them and none at the end. *)
Lemma joined_lines (lines : list str) :
  Forall (fun l => l <> [] /\ one_line l = true) lines ->
  (lines <> [] -> Re.split LINE_BREAK (Py.join [LF] lines) = lines)
  /\ forallb not_CR (Py.join [LF] lines) = true
  /\ ends_with_line_break (Py.join [LF] lines) = false.
Proof.
  intros Hshape.
  assert (H1 : Forall (fun l => one_line l = true) lines)
    by (eapply Forall_impl; [|exact Hshape]; simpl; tauto).
  repeat split.
  - intros Hne. rewrite split_LINE_BREAK. now apply split_lines_join.
  - apply forallb_join; [reflexivity|].
    eapply Forall_impl; [|exact H1]. intros l Hl.
    apply forallb_impl with (2 := Hl).
    intros a Ha. unfold not_CR, is_line_break_char in *.
    destruct (N.eqb a CR); [discriminate | reflexivity].
  - now apply join_no_trailing_line_break.
Qed.

(* ================================================================== *)
(** * The properties of the specification *)

(** C1.  A line that matches the pattern is made of six fields, and the
    f-string does with them what the specification says, in this order:
    it reads the cell number and looks up [offsets[cell_number - 1]],
    reads the line and writes [absolute_line = offset + line], reads the
    column and writes [absolute_column = column - 1]; when the cell number
    is one of the notebook and the numbers are within the limit of the
    conversions, the result is
    [<file_path>:<absolute_line>:<absolute_column>: Ruff (<error_code>): <message>].
    The rewriter returns exactly the renderings of all the matching lines
    of the output, in their order, joined by LF.  In particular
    [nb.ipynb:cell 2:3:5: E501 line too long] with offsets [1, 4] is
    rewritten to [nb.ipynb:7:4: Ruff (E501): line too long], whatever the
    Python. *)
Theorem rewrite_matching_line :
  (forall (py : interpreter) (offsets : list Z) (ruff_line : str)
      (m : Re.match_object),
      Re.match_ (RUFF_CONCISE_LINE_OUTPUT_PATTERN py) ruff_line = Some m ->
      exists d e,
        ruff_line = concise_line d ++ e /\ (e = [] \/ e = [LF])
        /\ diagnostic_fields py d = true
        /\ Re.named m = groups_of d
        /\ render_match py offsets m = rewrite_diagnostic py offsets d
        /\ forall cell line column offset,
             Py.int py (cell_number d) = Return cell ->
             Py.int py (line_number d) = Return line ->
             Py.int py (column_number d) = Return column ->
             (1 <= cell <= Z.of_nat (List.length offsets))%Z ->
             nth_error offsets (Z.to_nat (cell - 1)) = Some offset ->
             convertible py (offset + line) = true ->
             convertible py (column - 1) = true ->
             render_match py offsets m
             = Return (rewritten_line (file_path d) (offset + line)
                         (column - 1) (error_code d) (message d)))
  /\ (forall (py : interpreter) (ruff_output : str) (cell_sources : list str)
        (out : str),
         transform_ruff_to_jetbrains_compatible_output py ruff_output
           cell_sources = Return out
         <-> exists outs,
               out = Py.join [LF] outs
               /\ Forall2
                    (rendered py (compute_jetbrains_cell_offsets cell_sources))
                    (matching_lines py (Re.split LINE_BREAK ruff_output))
                    outs)
  /\ (forall (py : interpreter) (ruff_line : str) (m : Re.match_object)
        (cell_sources : list str),
         one_line ruff_line = true ->
         Re.match_ (RUFF_CONCISE_LINE_OUTPUT_PATTERN py) ruff_line = Some m ->
         transform_ruff_to_jetbrains_compatible_output py ruff_line
           cell_sources
         = render_match py (compute_jetbrains_cell_offsets cell_sources) m)
  /\ (forall (py : interpreter) (cell_sources : list str),
         python py ->
         compute_jetbrains_cell_offsets cell_sources = [1; 4]%Z ->
         transform_ruff_to_jetbrains_compatible_output py
           (text "nb.ipynb:cell 2:3:5: E501 line too long") cell_sources
         = Return (text "nb.ipynb:7:4: Ruff (E501): line too long")).
Proof.
  split; [|split; [|split]].
  - intros py offsets ruff_line m Hm.
    apply pattern_sound in Hm as (d & e & Hd & Hs & He & Hm).
    exists d, e.
    pose proof (render_match_groups py offsets m d Hm) as Hr.
    repeat split; try assumption.
    intros cell line column offset Hc Hl Hcol Hrange Hnth H1 H2.
    rewrite Hr. unfold rewrite_diagnostic. rewrite Hc. cbn [bind].
    destruct (getitem_in_range offsets (cell - 1)) as (x & Hx & ->); [lia|].
    rewrite Hnth in Hx. injection Hx as <-. cbn [bind].
    now apply rewrite_with_offset_Return.
  - intros. apply transform_iff.
  - intros. now apply transform_single.
  - intros py cell_sources Hpy H.
    apply transform_python; [exact Hpy | reflexivity |].
    unfold transform_ruff_to_jetbrains_compatible_output. rewrite H.
    vm_compute. reflexivity.
Qed.

Lemma rewrite_matching_line_witness :
  transform_ruff_to_jetbrains_compatible_output (ascii_interpreter 4300)
    (text "nb.ipynb:cell 2:3:5: E501 line too long")
    [text "a" ++ [LF] ++ text "b"; text "x"]
  = Return (text "nb.ipynb:7:4: Ruff (E501): line too long").
Proof.
  apply (proj2 (proj2 (proj2 rewrite_matching_line))).
  - apply python_ascii_interpreter. right. apply Nat.leb_le. reflexivity.
  - reflexivity.
Defined.

(** C2.  The offsets are the exclusive prefix sums, seeded with 1, of the
    full block line counts (line breaks plus 2):
    [offset[0] = 1] and
    [offset[i] = offset[i-1] + fullBlockLineCount(cell[i-1])],
    element by element; [["a\nb"]] gives [[1]] and [["a", "b\nc"]]
    gives [[1, 3]]. *)
Theorem offsets_are_prefix_sums :
  (forall cell_sources : list str,
      compute_jetbrains_cell_offsets cell_sources
      = map (spec_offset cell_sources)
          (seq 0 (Nat.max 1 (List.length cell_sources))))
  /\ (forall cell_source : str,
         full_cell_line_count cell_source
         = (Z.of_nat (line_breaks cell_source) + 2)%Z)
  /\ compute_jetbrains_cell_offsets [text "a" ++ [LF] ++ text "b"] = [1%Z]
  /\ compute_jetbrains_cell_offsets [text "a"; text "b" ++ [LF] ++ text "c"]
     = [1; 3]%Z.
Proof.
  split; [|split; [|split]]; try reflexivity.
  - intros cell_sources. rewrite <- offsets_length.
    apply map_nth_error_seq. apply offsets_nth.
  - apply full_cell_line_count_spec.
Qed.

(** C3.  The offsets of a notebook are as many as its cells, except for
    the notebook without cells, which gets the one offset [1] where none
    is due. *)
Theorem offsets_count :
  (forall cell_sources : list str,
      List.length (compute_jetbrains_cell_offsets cell_sources)
      = Nat.max 1 (List.length cell_sources))
  /\ compute_jetbrains_cell_offsets [] = [1%Z]
  /\ List.length (compute_jetbrains_cell_offsets [])
     <> List.length (@nil str).
Proof.
  split; [apply offsets_length | split; [reflexivity | discriminate]].
Qed.

(** C4.  The offsets of a notebook with at least one cell are as many as
    the cells, strictly increasing, and start at 1. *)
Theorem offsets_strictly_increasing (cell_sources : list str) :
  cell_sources <> [] ->
  List.length (compute_jetbrains_cell_offsets cell_sources)
  = List.length cell_sources
  /\ strictly_increasing (compute_jetbrains_cell_offsets cell_sources)
  /\ nth_error (compute_jetbrains_cell_offsets cell_sources) 0 = Some 1%Z.
Proof.
  intros Hne. repeat split.
  - rewrite offsets_length. destruct cell_sources; [contradiction|].
    cbn [List.length]. lia.
  - apply offsets_increasing.
  - apply offsets_head.
Qed.

Lemma offsets_strictly_increasing_witness :
  List.length
    (compute_jetbrains_cell_offsets [text "a"; text "b" ++ [LF] ++ text "c"])
  = 2%nat
  /\ strictly_increasing
       (compute_jetbrains_cell_offsets
          [text "a"; text "b" ++ [LF] ++ text "c"])
  /\ nth_error
       (compute_jetbrains_cell_offsets
          [text "a"; text "b" ++ [LF] ++ text "c"]) 0
     = Some 1%Z.
Proof.
  apply (offsets_strictly_increasing [text "a"; text "b" ++ [LF] ++ text "c"]).
  discriminate.
Defined.



(** C6.  A matching line whose cell number is larger than the number of
    computed offsets makes the offset lookup, and with it the rendering of
    the line, fail with the [IndexError] of an index out of range.  The
    rewriter then returns no text: it raises, and what it raises is this
    [IndexError] when the lines before that one render. *)
Theorem cell_number_past_the_offsets
    (py : interpreter) (ruff_output : str) (cell_sources : list str)
    (ruff_line : str) (m : Re.match_object) (cell : Z) :
  In ruff_line (Re.split LINE_BREAK ruff_output) ->
  Re.match_ (RUFF_CONCISE_LINE_OUTPUT_PATTERN py) ruff_line = Some m ->
  cell_of py m = Return cell ->
  (Z.of_nat (List.length (compute_jetbrains_cell_offsets cell_sources)) < cell)%Z ->
  Py.getitem (compute_jetbrains_cell_offsets cell_sources) (cell - 1)
  = Raise (IndexError "list index out of range")
  /\ render_match py (compute_jetbrains_cell_offsets cell_sources) m
     = Raise (IndexError "list index out of range")
  /\ (exists e,
         transform_ruff_to_jetbrains_compatible_output py ruff_output
           cell_sources = Raise e
         /\ (e = IndexError "list index out of range"
             \/ e = ValueError "Exceeds the limit for integer string conversion"))
  /\ (forall (before after outs : list str),
         Re.split LINE_BREAK ruff_output = before ++ ruff_line :: after ->
         transformed_lines py (compute_jetbrains_cell_offsets cell_sources)
           before = Return outs ->
         transform_ruff_to_jetbrains_compatible_output py ruff_output
           cell_sources
         = Raise (IndexError "list index out of range")).
Proof.
  intros Hin Hm Hcell Hlt.
  assert (Hget : Py.getitem (compute_jetbrains_cell_offsets cell_sources)
                   (cell - 1)
                 = Raise (IndexError "list index out of range"))
    by (apply getitem_past_end; lia).
  assert (Hr : render_match py (compute_jetbrains_cell_offsets cell_sources) m
               = Raise (IndexError "list index out of range")).
  { destruct (pattern_sound py _ _ Hm) as (d & e & _ & _ & _ & Hd).
    destruct (cell_of_groups py m d Hd) as (Ec & _ & _).
    rewrite (render_match_groups py _ m d Hd). unfold rewrite_diagnostic.
    rewrite <- Ec, Hcell. cbn [bind]. rewrite Hget. reflexivity. }
  split; [exact Hget|]. split; [exact Hr|]. split.
  - exact (transform_raises py _ _ _ _ _ Hin Hm Hr).
  - intros before after outs Hs Hb.
    exact (transform_first_failure py _ _ _ _ _ _ _ _ Hs Hb Hm Hr).
Qed.

Lemma cell_number_past_the_offsets_witness :
  Py.getitem
    (compute_jetbrains_cell_offsets [text "a" ++ [LF] ++ text "b"; text "x"])
    (3 - 1)
  = Raise (IndexError "list index out of range")
  /\ render_match (ascii_interpreter 4300)
       (compute_jetbrains_cell_offsets [text "a" ++ [LF] ++ text "b"; text "x"])
       (Re.mk_match 39
          [("message", text "line too long"); ("error_code", text "E501");
           ("column", text "5"); ("line", text "3"); ("cell", text "3");
           ("file_path", text "nb.ipynb")])
     = Raise (IndexError "list index out of range")
  /\ (exists e,
         transform_ruff_to_jetbrains_compatible_output (ascii_interpreter 4300)
           (text "nb.ipynb:cell 3:3:5: E501 line too long")
           [text "a" ++ [LF] ++ text "b"; text "x"] = Raise e
         /\ (e = IndexError "list index out of range"
             \/ e = ValueError "Exceeds the limit for integer string conversion"))
  /\ (forall (before after outs : list str),
         Re.split LINE_BREAK (text "nb.ipynb:cell 3:3:5: E501 line too long")
         = before ++ text "nb.ipynb:cell 3:3:5: E501 line too long" :: after ->
         transformed_lines (ascii_interpreter 4300)
           (compute_jetbrains_cell_offsets
              [text "a" ++ [LF] ++ text "b"; text "x"])
           before = Return outs ->
         transform_ruff_to_jetbrains_compatible_output (ascii_interpreter 4300)
           (text "nb.ipynb:cell 3:3:5: E501 line too long")
           [text "a" ++ [LF] ++ text "b"; text "x"]
         = Raise (IndexError "list index out of range")).
Proof.
  apply (cell_number_past_the_offsets (ascii_interpreter 4300)
           (text "nb.ipynb:cell 3:3:5: E501 line too long")
           [text "a" ++ [LF] ++ text "b"; text "x"]
           (text "nb.ipynb:cell 3:3:5: E501 line too long")
           (Re.mk_match 39
              [("message", text "line too long"); ("error_code", text "E501");
               ("column", text "5"); ("line", text "3"); ("cell", text "3");
               ("file_path", text "nb.ipynb")])
           3%Z).
  - vm_compute. left. reflexivity.
  - vm_compute. reflexivity.
  - vm_compute. reflexivity.
  - vm_compute. reflexivity.
Defined.

(** C7.  The raw output is cut at every line break, be it CR LF, CR or
    LF: the pieces have no line break in them and the output is the pieces
    with one line break between each two.  The renderings of the matching
    lines are joined with one LF each, whatever the input used: the
    rewriter returns them joined whenever they all render and returns
    nothing else; the result has no CR in it, it splits back into the
    rewritten lines, and it does not end in a line break.  Three lines
    ended by CR LF, CR and LF come out with LF between them and none at the
    end.  The empty output is rewritten to the empty string. *)
Theorem line_breaks_in_and_out :
  (forall ruff_output : str,
      exists seps,
        interleave (Re.split LINE_BREAK ruff_output) seps = ruff_output
        /\ List.length (Re.split LINE_BREAK ruff_output) = S (List.length seps)
        /\ Forall line_break seps
        /\ Forall (fun piece => one_line piece = true)
             (Re.split LINE_BREAK ruff_output))
  /\ (forall first rest : str,
         one_line first = true ->
         Re.split LINE_BREAK first = [first]
         /\ Re.split LINE_BREAK (first ++ CR :: LF :: rest)
            = first :: Re.split LINE_BREAK rest
         /\ Re.split LINE_BREAK (first ++ LF :: rest)
            = first :: Re.split LINE_BREAK rest
         /\ ((forall rest', rest <> LF :: rest') ->
             Re.split LINE_BREAK (first ++ CR :: rest)
             = first :: Re.split LINE_BREAK rest))
  /\ (forall (py : interpreter) (ruff_output : str) (cell_sources : list str)
        (outs : list str),
         Forall2 (rendered py (compute_jetbrains_cell_offsets cell_sources))
           (matching_lines py (Re.split LINE_BREAK ruff_output)) outs ->
         transform_ruff_to_jetbrains_compatible_output py ruff_output
           cell_sources = Return (Py.join [LF] outs)
         /\ Forall (fun l => l <> [] /\ one_line l = true) outs
         /\ (outs <> [] -> Re.split LINE_BREAK (Py.join [LF] outs) = outs)
         /\ forallb not_CR (Py.join [LF] outs) = true
         /\ ends_with_line_break (Py.join [LF] outs) = false)
  /\ (forall (py : interpreter) (ruff_output : str) (cell_sources : list str)
        (out : str),
         transform_ruff_to_jetbrains_compatible_output py ruff_output
           cell_sources = Return out ->
         exists lines,
           transformed_lines py (compute_jetbrains_cell_offsets cell_sources)
             (Re.split LINE_BREAK ruff_output) = Return lines
           /\ out = Py.join [LF] lines
           /\ Forall (fun l => l <> [] /\ one_line l = true) lines
           /\ (lines <> [] -> Re.split LINE_BREAK out = lines)
           /\ forallb not_CR out = true
           /\ ends_with_line_break out = false)
  /\ (forall (py : interpreter) (cell_sources : list str),
         python py ->
         transform_ruff_to_jetbrains_compatible_output py
           (text "nb.ipynb:cell 1:1:1: E501 a" ++ [CR; LF]
              ++ text "nb.ipynb:cell 1:2:1: E501 b" ++ [CR]
              ++ text "nb.ipynb:cell 1:3:1: E501 c" ++ [LF])
           cell_sources
         = Return (text "nb.ipynb:2:0: Ruff (E501): a" ++ [LF]
                     ++ text "nb.ipynb:3:0: Ruff (E501): b" ++ [LF]
                     ++ text "nb.ipynb:4:0: Ruff (E501): c"))
  /\ (forall (py : interpreter) (cell_sources : list str),
         transform_ruff_to_jetbrains_compatible_output py [] cell_sources
         = Return []).
Proof.
  split; [|split; [|split; [|split; [|split]]]].
  - intros ruff_output. rewrite split_LINE_BREAK. apply split_lines_spec.
  - intros first rest H1. rewrite !split_LINE_BREAK.
    repeat split.
    + now apply split_lines_one_line.
    + now apply split_lines_app_CRLF.
    + now apply split_lines_app_LF.
    + intros Hrest. now apply split_lines_app_CR.
  - intros py ruff_output cell_sources outs H.
    pose proof (transformed_lines_rendered _ _ _ _ H) as Hlines.
    pose proof (transformed_lines_shape _ _ _ _ Hlines
                  (split_pieces_one_line ruff_output)) as Hshape.
    split.
    + apply transform_iff. eauto.
    + split; [exact Hshape | now apply joined_lines].
  - intros py ruff_output cell_sources out H.
    unfold transform_ruff_to_jetbrains_compatible_output in H.
    apply bind_Return in H as (lines & Hlines & H). injection H as <-.
    pose proof (transformed_lines_shape _ _ _ _ Hlines
                  (split_pieces_one_line ruff_output)) as Hshape.
    exists lines. split; [exact Hlines|]. split; [reflexivity|].
    split; [exact Hshape | now apply joined_lines].
  - intros py cell_sources Hpy.
    apply transform_python; [exact Hpy | reflexivity |].
    unfold transform_ruff_to_jetbrains_compatible_output.
    destruct (compute_jetbrains_cell_offsets cell_sources) as [|o os] eqn:E;
      [now destruct (offsets_not_empty cell_sources)|].
    pose proof (offsets_head cell_sources) as Hh. rewrite E in Hh.
    injection Hh as ->. reflexivity.
  - intros py cell_sources. reflexivity.
Qed.

Lemma line_breaks_in_and_out_witness :
  Re.split LINE_BREAK (text "a") = [text "a"]
  /\ Re.split LINE_BREAK (text "a" ++ CR :: LF :: text "b")
     = text "a" :: Re.split LINE_BREAK (text "b")
  /\ Re.split LINE_BREAK (text "a" ++ LF :: text "b")
     = text "a" :: Re.split LINE_BREAK (text "b")
  /\ ((forall rest', text "b" <> LF :: rest') ->
      Re.split LINE_BREAK (text "a" ++ CR :: text "b")
      = text "a" :: Re.split LINE_BREAK (text "b")).
Proof.
  apply (proj1 (proj2 line_breaks_in_and_out) (text "a") (text "b")).
  reflexivity.
Defined.

(** C9.  A line that matches with cell number 0 does not fail on the
    offset lookup: index [0 - 1] counts from the end of the offsets, which
    gives the offset of the last cell, and the line is rewritten with it,
    as long as its numbers are within the limit of the conversions; so is
    [nb.ipynb:cell 0:3:5: E501 line too long] in a notebook of two
    cells. *)
Theorem cell_zero_takes_the_last_offset :
  (forall (py : interpreter) (cell_sources : list str) (ruff_line : str)
      (m : Re.match_object) (d : raw_diagnostic),
      cell_sources <> [] ->
      one_line ruff_line = true ->
      Re.match_ (RUFF_CONCISE_LINE_OUTPUT_PATTERN py) ruff_line = Some m ->
      Re.named m = groups_of d ->
      Py.int py (cell_number d) = Return 0%Z ->
      nth_error (compute_jetbrains_cell_offsets cell_sources)
        (List.length cell_sources - 1)
      = Some (last (compute_jetbrains_cell_offsets cell_sources) 0%Z)
      /\ Py.getitem (compute_jetbrains_cell_offsets cell_sources) (0 - 1)
         = Return (last (compute_jetbrains_cell_offsets cell_sources) 0%Z)
      /\ transform_ruff_to_jetbrains_compatible_output py ruff_line
           cell_sources
         = rewrite_with_offset py d
             (last (compute_jetbrains_cell_offsets cell_sources) 0%Z)
      /\ transform_ruff_to_jetbrains_compatible_output py ruff_line
           cell_sources
         <> Raise (IndexError "list index out of range")
      /\ forall line column,
           Py.int py (line_number d) = Return line ->
           Py.int py (column_number d) = Return column ->
           convertible py
             (last (compute_jetbrains_cell_offsets cell_sources) 0%Z + line)
           = true ->
           convertible py (column - 1) = true ->
           transform_ruff_to_jetbrains_compatible_output py ruff_line
             cell_sources
           = Return
               (rewritten_line (file_path d)
                  (last (compute_jetbrains_cell_offsets cell_sources) 0%Z
                   + line)
                  (column - 1) (error_code d) (message d)))
  /\ (forall py : interpreter,
         python py ->
         transform_ruff_to_jetbrains_compatible_output py
           (text "nb.ipynb:cell 0:3:5: E501 line too long")
           [text "a" ++ [LF] ++ text "b"; text "x"]
         = Return (text "nb.ipynb:7:4: Ruff (E501): line too long")).
Proof.
  split.
  - intros py cell_sources ruff_line m d Hne H1 Hm Hd Hc.
    assert (Ht : transform_ruff_to_jetbrains_compatible_output py ruff_line
                   cell_sources
                 = rewrite_with_offset py d
                     (last (compute_jetbrains_cell_offsets cell_sources) 0%Z)).
    { rewrite (transform_single py _ m _ H1 Hm).
      rewrite (render_match_groups py _ m d Hd). unfold rewrite_diagnostic.
      rewrite Hc. cbn [bind]. change (0 - 1)%Z with (-1)%Z.
      rewrite getitem_last by apply offsets_not_empty. reflexivity. }
    split; [|split; [|split; [exact Ht | split]]].
    + pose proof (offsets_length cell_sources) as Hlen.
      pose proof (offsets_not_empty cell_sources) as Hoff.
      rewrite (app_removelast_last 0%Z Hoff) at 1.
      rewrite nth_error_app2; rewrite removelast_length, Hlen;
        destruct cell_sources; try contradiction; cbn [List.length]; try lia.
      replace (S (List.length cell_sources) - 1
               - Nat.pred (Nat.max 1 (S (List.length cell_sources))))%nat
        with 0%nat by lia.
      reflexivity.
    + change (0 - 1)%Z with (-1)%Z. apply getitem_last, offsets_not_empty.
    + rewrite Ht.
      destruct (pattern_sound py _ _ Hm) as (d0 & e0 & Hd0 & _ & _ & Hg0).
      assert (d0 = d) as ->.
      { rewrite Hd in Hg0. unfold groups_of in Hg0.
        destruct d, d0. cbn in Hg0. now injection Hg0 as <- <- <- <- <- <-. }
      destruct (rewrite_with_offset_cases py d
                  (last (compute_jetbrains_cell_offsets cell_sources) 0%Z) Hd0)
        as [[out ->] | ->]; discriminate.
    + intros line column Hl Hcol Hcl Hcc. rewrite Ht.
      now apply rewrite_with_offset_Return.
  - intros py Hpy.
    apply transform_python; [exact Hpy | reflexivity |].
    vm_compute. reflexivity.
Qed.

Lemma cell_zero_takes_the_last_offset_witness :
  transform_ruff_to_jetbrains_compatible_output (ascii_interpreter 4300)
    (text "nb.ipynb:cell 0:3:5: E501 line too long")
    [text "a" ++ [LF] ++ text "b"; text "x"]
  = rewrite_with_offset (ascii_interpreter 4300)
      (mk_raw_diagnostic (text "nb.ipynb") (text "0") (text "3") (text "5")
         (text "E501") (text "line too long"))
      (last (compute_jetbrains_cell_offsets
               [text "a" ++ [LF] ++ text "b"; text "x"]) 0%Z).
Proof.
  refine (proj1 (proj2 (proj2
           (proj1 cell_zero_takes_the_last_offset (ascii_interpreter 4300)
           [text "a" ++ [LF] ++ text "b"; text "x"]
           (text "nb.ipynb:cell 0:3:5: E501 line too long")
           (Re.mk_match 39
              [("message", text "line too long"); ("error_code", text "E501");
               ("column", text "5"); ("line", text "3"); ("cell", text "0");
               ("file_path", text "nb.ipynb")])
           (mk_raw_diagnostic (text "nb.ipynb") (text "0") (text "3")
              (text "5") (text "E501") (text "line too long"))
           _ eq_refl _ eq_refl eq_refl)))).
  - discriminate.
  - vm_compute. reflexivity.
Defined.

(** C10.  A notebook without cells gets the offsets [[1]], so a line that
    refers to its cell 1 finds an offset: the lookup raises nothing, and
    the line is rewritten with the absolute line [1 + line], as long as its
    numbers are within the limit of the conversions. *)
Theorem cell_one_of_no_cells :
  (forall (py : interpreter) (ruff_line : str) (m : Re.match_object)
      (d : raw_diagnostic),
      one_line ruff_line = true ->
      Re.match_ (RUFF_CONCISE_LINE_OUTPUT_PATTERN py) ruff_line = Some m ->
      Re.named m = groups_of d ->
      Py.int py (cell_number d) = Return 1%Z ->
      compute_jetbrains_cell_offsets [] = [1%Z]
      /\ Py.getitem (compute_jetbrains_cell_offsets []) (1 - 1) = Return 1%Z
      /\ transform_ruff_to_jetbrains_compatible_output py ruff_line []
         = rewrite_with_offset py d 1
      /\ transform_ruff_to_jetbrains_compatible_output py ruff_line []
         <> Raise (IndexError "list index out of range")
      /\ forall line column,
           Py.int py (line_number d) = Return line ->
           Py.int py (column_number d) = Return column ->
           convertible py (1 + line) = true ->
           convertible py (column - 1) = true ->
           transform_ruff_to_jetbrains_compatible_output py ruff_line []
           = Return (rewritten_line (file_path d) (1 + line) (column - 1)
                       (error_code d) (message d)))
  /\ (forall py : interpreter,
         python py ->
         transform_ruff_to_jetbrains_compatible_output py
           (text "nb.ipynb:cell 1:3:5: E501 line too long") []
         = Return (text "nb.ipynb:4:4: Ruff (E501): line too long")).
Proof.
  split.
  - intros py ruff_line m d H1 Hm Hd Hc.
    assert (Ht : transform_ruff_to_jetbrains_compatible_output py ruff_line []
                 = rewrite_with_offset py d 1).
    { rewrite (transform_single py _ m _ H1 Hm).
      rewrite (render_match_groups py _ m d Hd). unfold rewrite_diagnostic.
      rewrite Hc. reflexivity. }
    split; [reflexivity|]. split; [reflexivity|]. split; [exact Ht|]. split.
    + rewrite Ht.
      destruct (pattern_sound py _ _ Hm) as (d0 & e0 & Hd0 & _ & _ & Hg0).
      assert (d0 = d) as ->.
      { rewrite Hd in Hg0. unfold groups_of in Hg0.
        destruct d, d0. cbn in Hg0. now injection Hg0 as <- <- <- <- <- <-. }
      destruct (rewrite_with_offset_cases py d 1 Hd0) as [[out ->] | ->];
        discriminate.
    + intros line column Hl Hcol Hcl Hcc. rewrite Ht.
      now apply rewrite_with_offset_Return.
  - intros py Hpy.
    apply transform_python; [exact Hpy | reflexivity |].
    vm_compute. reflexivity.
Qed.

Lemma cell_one_of_no_cells_witness :
  transform_ruff_to_jetbrains_compatible_output (ascii_interpreter 4300)
    (text "nb.ipynb:cell 1:3:5: E501 line too long") []
  = Return (text "nb.ipynb:4:4: Ruff (E501): line too long").
Proof.
  apply (proj2 cell_one_of_no_cells (ascii_interpreter 4300)).
  apply python_ascii_interpreter. right. apply Nat.leb_le. reflexivity.
Defined.

(** C8.  With no argument, with more than one, with a path whose suffix
    is not [.ipynb], or with a path that is no file, the script prints one
    message in red to stderr, the message of that case, and exits with
    code 2: nothing goes to stdout, the linter is not run and the notebook
    is not read. *)
Theorem usage_errors_exit_2
    (py : interpreter) (suffix path_str : str -> str)
    (is_file : str -> result bool)
    (ruff_check : str -> result completed_process)
    (nbformat_read : str -> result notebook) (argv : list str)
    (message : str) :
  (List.length argv = 1%nat /\ message = no_file_message)
  \/ ((3 <= List.length argv)%nat /\ message = several_files_message)
  \/ (exists program notebook_path,
         argv = [program; notebook_path]
         /\ suffix notebook_path <> text ".ipynb"
         /\ message = not_a_notebook_message)
  \/ (exists program notebook_path,
         argv = [program; notebook_path]
         /\ suffix notebook_path = text ".ipynb"
         /\ is_file notebook_path = Return false
         /\ message = no_such_file_message (path_str notebook_path)) ->
  main py suffix path_str is_file ruff_check nbformat_read argv
  = mk_run [PrintErr (println message)] (Exit 2)
  /\ status (main py suffix path_str is_file ruff_check nbformat_read argv)
     = Exit 2
  /\ stderr_of (main py suffix path_str is_file ruff_check nbformat_read argv)
     = message ++ [LF]
  /\ stdout_of (main py suffix path_str is_file ruff_check nbformat_read argv)
     = []
  /\ (forall p,
         ~ In (RunRuff p)
             (trace (main py suffix path_str is_file ruff_check nbformat_read
                       argv))
         /\ ~ In (ReadNotebook p)
               (trace (main py suffix path_str is_file ruff_check
                         nbformat_read argv)))
  /\ exists body, message = RED ++ body ++ RESET.
Proof.
  intros H.
  assert (Hrun : main py suffix path_str is_file ruff_check nbformat_read argv
                 = mk_run [PrintErr (println message)] (Exit 2)
                 /\ exists body, message = RED ++ body ++ RESET).
  { destruct H as [[H ->] | [[H ->] | [(program & notebook_path & -> & H & ->)
                                      | (program & notebook_path & -> & H & Hf & ->)]]];
      unfold main.
    - rewrite H. cbn [Nat.eqb]. split; [reflexivity|].
      unfold no_file_message. eauto.
    - destruct (Nat.eqb_spec (List.length argv) 1) as [E|_]; [lia|].
      destruct (Nat.leb_spec 3 (List.length argv)) as [_|?]; [|lia].
      split; [reflexivity|]. unfold several_files_message. eauto.
    - cbn [List.length Nat.eqb Nat.leb nth_error].
      destruct (str_eqb (suffix notebook_path) (text ".ipynb")) eqn:E.
      + apply str_eqb_eq in E. contradiction.
      + cbn [negb]. split; [reflexivity|].
        unfold not_a_notebook_message.
        exists (text "ruff-jupyter-jetbrains is designed to be run on "
                  ++ UNDERLINE ++ text ".ipynb" ++ NO_UNDERLINE
                  ++ text " files. Make sure the JetBrains file watcher is configured for Jupyter files exclusively.").
        now rewrite <- !app_assoc.
    - cbn [List.length Nat.eqb Nat.leb nth_error].
      rewrite H, Hf.
      replace (str_eqb (text ".ipynb") (text ".ipynb")) with true
        by (symmetry; now apply str_eqb_eq).
      cbn [negb]. split; [reflexivity|].
      unfold no_such_file_message.
      exists (text "File " ++ path_str notebook_path
                ++ text " does not exist. This is unexpected if you use ruff-jupyter-jetbrains as a file watcher.").
      now rewrite <- !app_assoc. }
  destruct Hrun as [-> Hbody].
  split; [reflexivity|]. split; [reflexivity|]. split.
  { unfold stderr_of, written_to, println. cbn [trace flat_map app concat].
    now rewrite !app_nil_r. }
  split; [reflexivity|]. split; [|exact Hbody].
  intros p. cbn [trace]. split; intros [Hin | []]; discriminate.
Qed.

Lemma usage_errors_exit_2_witness :
  main (ascii_interpreter 4300) (fun _ => text ".ipynb") (fun p => p)
    (fun _ => Return false)
    (fun _ => Raise (OSError "ruff")) (fun _ => Raise (OSError "notebook"))
    [text "ruff-jupyter-jetbrains"; text "missing.ipynb"]
  = mk_run
      [PrintErr (println (no_such_file_message (text "missing.ipynb")))]
      (Exit 2).
Proof.
  apply (usage_errors_exit_2 (ascii_interpreter 4300)
           (fun _ => text ".ipynb") (fun p => p) (fun _ => Return false)
           (fun _ => Raise (OSError "ruff"))
           (fun _ => Raise (OSError "notebook"))
           [text "ruff-jupyter-jetbrains"; text "missing.ipynb"]
           (no_such_file_message (text "missing.ipynb"))).
  right. right. right.
  exists (text "ruff-jupyter-jetbrains"), (text "missing.ipynb").
  repeat split.
Defined.

(* ================================================================== *)
(** * More on the offset calculator *)

Lemma split_lines_length_bounded (n : nat) :
  forall s : str,
    (List.length s <= n)%nat ->
    List.length (split_lines s) = S (line_breaks s).
Proof.
  induction n as [|n IH]; intros s Hn.
  - destruct s; [reflexivity | simpl in Hn; lia].
  - destruct s as [|a s]; [reflexivity|].
    simpl in Hn. cbn [split_lines line_breaks].
    destruct (N.eqb a CR).
    + destruct s as [|b s]; [reflexivity|].
      destruct (N.eqb b LF); cbn [List.length]; f_equal; apply IH;
        simpl in Hn |- *; lia.
    + destruct (N.eqb a LF).
      * cbn [List.length]. f_equal. apply IH. lia.
      * specialize (IH s ltac:(lia)).
        destruct (split_lines s); [discriminate | exact IH].
Qed.

Lemma split_length (s : str) :
  List.length (Re.split LINE_BREAK s) = S (line_breaks s).
Proof.
  rewrite split_LINE_BREAK.
  apply (split_lines_length_bounded (List.length s)). lia.
Qed.

(** X1.  [re.split] with [LINE_BREAK] gives one piece more than
    [re.findall] finds line breaks: the full block line count of a cell,
    [len(re.findall(LINE_BREAK, cell_source)) + 2], is the number of its
    lines plus 1. *)
Theorem split_one_more_than_findall (s : str) :
  List.length (Re.split LINE_BREAK s)
  = S (List.length (Re.findall LINE_BREAK s))
  /\ full_cell_line_count s
     = (Z.of_nat (List.length (Re.split LINE_BREAK s)) + 1)%Z.
Proof.
  rewrite split_length, full_cell_line_count_spec, findall_LINE_BREAK.
  unfold spec_full_block_line_count. split; [reflexivity | lia].
Qed.

Lemma spec_offset_closed (cell_sources : list str) (i : nat) :
  (i <= List.length cell_sources)%nat ->
  spec_offset cell_sources i
  = (1 + 2 * Z.of_nat i
     + Z.of_nat (line_breaks_found (firstn i cell_sources)))%Z.
Proof.
  induction i as [|i IH]; intros Hi.
  - reflexivity.
  - cbn [spec_offset]. rewrite IH by lia.
    destruct (nth_error cell_sources i) as [c|] eqn:Hc;
      [|apply nth_error_None in Hc; lia].
    assert (Hf : firstn (S i) cell_sources
                 = (firstn i cell_sources ++ [c])).
    { clear IH Hi. revert i Hc.
      induction cell_sources as [|x xs IHxs]; intros [|i] Hc;
        try discriminate.
      - injection Hc as ->. reflexivity.
      - cbn [firstn app]. f_equal. now apply IHxs. }
    rewrite Hf. unfold line_breaks_found.
    rewrite map_app, list_sum_app.
    change (list_sum
              (map (fun cell_source =>
                      List.length (Re.findall LINE_BREAK cell_source)) [c]))
      with (List.length (Re.findall LINE_BREAK c) + 0)%nat.
    unfold spec_full_block_line_count. rewrite findall_LINE_BREAK. lia.
Qed.

(** X2.  Offset [i] is 1, plus 2 for each cell before cell [i], plus the
    line breaks found in those cells. *)
Theorem offsets_closed_form (cell_sources : list str) (i : nat) :
  (i < List.length cell_sources)%nat ->
  nth_error (compute_jetbrains_cell_offsets cell_sources) i
  = Some (1 + 2 * Z.of_nat i
          + Z.of_nat (line_breaks_found (firstn i cell_sources)))%Z.
Proof.
  intros Hi. rewrite offsets_nth.
  - now rewrite spec_offset_closed by lia.
  - rewrite offsets_length. lia.
Qed.

Lemma offsets_closed_form_witness :
  nth_error
    (compute_jetbrains_cell_offsets
       [text "a" ++ [LF] ++ text "b"; text "x" ++ [CR] ++ [LF] ++ text "y";
        text "z"]) 2
  = Some (1 + 2 * Z.of_nat 2
          + Z.of_nat
              (line_breaks_found
                 (firstn 2 [text "a" ++ [LF] ++ text "b";
                            text "x" ++ [CR] ++ [LF] ++ text "y"; text "z"])))%Z.
Proof.
  apply (offsets_closed_form
           [text "a" ++ [LF] ++ text "b";
            text "x" ++ [CR] ++ [LF] ++ text "y"; text "z"] 2).
  simpl. lia.
Defined.

Lemma spec_offset_ext (cells1 cells2 : list str) (i : nat) :
  (forall j, (j < i)%nat -> nth_error cells1 j = nth_error cells2 j) ->
  spec_offset cells1 i = spec_offset cells2 i.
Proof.
  induction i as [|i IH]; intros H; [reflexivity|].
  cbn [spec_offset]. rewrite IH, (H i) by (intros; auto with arith).
  reflexivity.
Qed.

Lemma offsets_ext (cells1 cells2 : list str) :
  List.length cells1 = List.length cells2 ->
  (forall j, (S j < List.length cells1)%nat ->
             nth_error cells1 j = nth_error cells2 j) ->
  compute_jetbrains_cell_offsets cells1 = compute_jetbrains_cell_offsets cells2.
Proof.
  intros Hlen H. apply nth_error_ext. intros i.
  destruct (Nat.lt_ge_cases i (Nat.max 1 (List.length cells1))) as [Hi|Hi].
  - rewrite !offsets_nth by (rewrite offsets_length; lia).
    f_equal. apply spec_offset_ext. intros j Hj. apply H. lia.
  - rewrite (proj2 (nth_error_None _ _)) by (rewrite offsets_length; lia).
    symmetry. apply nth_error_None. rewrite offsets_length. lia.
Qed.

(** X3.  The source of the last cell has no part in the offsets, and the
    offsets of a notebook stay what they are when cells are added after
    its last one. *)
Theorem offsets_of_a_prefix :
  (forall (cell_sources : list str) (last_source other_source : str),
      compute_jetbrains_cell_offsets (cell_sources ++ [last_source])
      = compute_jetbrains_cell_offsets (cell_sources ++ [other_source]))
  /\ (forall cell_sources more : list str,
         cell_sources <> [] ->
         firstn (List.length cell_sources)
           (compute_jetbrains_cell_offsets (cell_sources ++ more))
         = compute_jetbrains_cell_offsets cell_sources).
Proof.
  split.
  - intros cell_sources c c'. apply offsets_ext.
    + rewrite !length_app. reflexivity.
    + intros j Hj. rewrite length_app in Hj. cbn [List.length] in Hj.
      rewrite !nth_error_app1 by lia. reflexivity.
  - intros cell_sources more Hne.
    assert (Hpos : (1 <= List.length cell_sources)%nat)
      by (destruct cell_sources; [contradiction | simpl; lia]).
    apply nth_error_ext. intros i.
    destruct (Nat.lt_ge_cases i (List.length cell_sources)) as [Hi|Hi].
    + rewrite nth_error_firstn.
      destruct (Nat.ltb_spec i (List.length cell_sources)); [|lia].
      rewrite !offsets_nth
        by (rewrite offsets_length, ?length_app; lia).
      f_equal. apply spec_offset_ext. intros j Hj.
      rewrite nth_error_app1 by lia. reflexivity.
    + rewrite (proj2 (nth_error_None _ _))
        by (rewrite length_firstn, offsets_length, length_app; lia).
      symmetry. apply nth_error_None. rewrite offsets_length. lia.
Qed.

Lemma offsets_of_a_prefix_witness :
  firstn (List.length [text "a" ++ [LF] ++ text "b"; text "x"])
    (compute_jetbrains_cell_offsets
       (List.app [text "a" ++ [LF] ++ text "b"; text "x"] [text "y"; text "z"]))
  = compute_jetbrains_cell_offsets [text "a" ++ [LF] ++ text "b"; text "x"].
Proof.
  apply (proj2 offsets_of_a_prefix [text "a" ++ [LF] ++ text "b"; text "x"]
           [text "y"; text "z"]).
  discriminate.
Defined.

(** X4.  The absolute lines of two cells do not overlap: a line number
    within the lines of a cell is mapped below the offset of every later
    cell, hence below every absolute line of a later cell. *)
Theorem absolute_lines_do_not_overlap
    (cell_sources : list str) (k1 k2 : nat) (cell_source : str)
    (offset1 offset2 line1 line2 : Z) :
  (k1 < k2)%nat ->
  nth_error cell_sources k1 = Some cell_source ->
  nth_error (compute_jetbrains_cell_offsets cell_sources) k1 = Some offset1 ->
  nth_error (compute_jetbrains_cell_offsets cell_sources) k2 = Some offset2 ->
  (1 <= line1 <= Z.of_nat (List.length (Re.split LINE_BREAK cell_source)))%Z ->
  (1 <= line2)%Z ->
  (offset1 + line1 < offset2)%Z /\ (offset1 + line1 < offset2 + line2)%Z.
Proof.
  intros Hk Hc H1 H2 Hl1 Hl2.
  assert (Hlen : (k2 < List.length (compute_jetbrains_cell_offsets cell_sources))%nat)
    by (apply nth_error_Some; congruence).
  assert (Hnext : nth_error (compute_jetbrains_cell_offsets cell_sources) (S k1)
                  = Some (offset1 + full_cell_line_count cell_source)%Z).
  { rewrite offsets_nth in H1 by lia. injection H1 as <-.
    rewrite offsets_nth by lia. cbn [spec_offset].
    now rewrite Hc, full_cell_line_count_spec. }
  assert (Hle : (offset1 + full_cell_line_count cell_source <= offset2)%Z).
  { destruct (Nat.eq_dec (S k1) k2) as [<-|Hne].
    - rewrite Hnext in H2. injection H2 as <-. lia.
    - pose proof (offsets_increasing cell_sources (S k1) k2 _ _
                    ltac:(lia) Hnext H2). lia. }
  pose proof (split_length cell_source) as Hcount.
  rewrite full_cell_line_count_spec in Hle.
  unfold spec_full_block_line_count in Hle.
  lia.
Qed.

Lemma absolute_lines_do_not_overlap_witness :
  (1 + 2 < 4)%Z /\ (1 + 2 < 4 + 1)%Z.
Proof.
  apply (absolute_lines_do_not_overlap
           [text "a" ++ [LF] ++ text "b"; text "x"] 0 1
           (text "a" ++ [LF] ++ text "b") 1 4 2 1).
  - lia.
  - reflexivity.
  - reflexivity.
  - reflexivity.
  - vm_compute. split; discriminate.
  - lia.
Defined.


(* ================================================================== *)
(** * More on the rewriter *)

Lemma split_lines_cons (s : str) :
  exists piece pieces, split_lines s = piece :: pieces.
Proof.
  pose proof (split_lines_length_bounded (List.length s) s (le_n _)) as H.
  destruct (split_lines s) as [|piece pieces]; [discriminate | eauto].
Qed.

Lemma split_lines_CR_LF (s : str) :
  split_lines (CR :: (LF :: s)) = [] :: split_lines s.
Proof. reflexivity. Qed.

Lemma split_lines_CR_other (b : char) (s : str) :
  N.eqb b LF = false ->
  split_lines (CR :: (b :: s)) = [] :: split_lines (b :: s).
Proof.
  intros Hb. change (split_lines (CR :: (b :: s)))
    with (if N.eqb b LF then [] :: split_lines s
          else [] :: split_lines (b :: s)).
  now rewrite Hb.
Qed.

Lemma split_lines_LF (s : str) :
  split_lines (LF :: s) = [] :: split_lines s.
Proof. reflexivity. Qed.

Lemma split_lines_other (a : char) (s piece : str) (pieces : list str) :
  N.eqb a CR = false ->
  N.eqb a LF = false ->
  split_lines s = piece :: pieces ->
  split_lines (a :: s) = (a :: piece) :: pieces.
Proof. intros Hcr Hlf Hs. cbn [split_lines]. now rewrite Hcr, Hlf, Hs. Qed.

(** A line break at the end of a text adds one empty last line, or
    none when it completes a CR LF. *)
Lemma split_lines_trailing (n : nat) :
  forall s : str,
    (List.length s <= n)%nat ->
    forall lb,
      line_break lb ->
      split_lines (s ++ lb) = (split_lines s ++ [[]])
      \/ split_lines (s ++ lb) = split_lines s.
Proof.
  induction n as [|n IH]; intros s Hn lb Hlb.
  - destruct s; [|simpl in Hn; lia].
    destruct Hlb; left; reflexivity.
  - destruct s as [|a s].
    { destruct Hlb; left; reflexivity. }
    simpl in Hn.
    change ((a :: s) ++ lb) with ((a :: s ++ lb)).
    destruct (N.eqb_spec a CR) as [->|Hcr].
    + destruct s as [|b s].
      * destruct Hlb; [left | left | right]; reflexivity.
      * change ((b :: s) ++ lb) with ((b :: s ++ lb)).
        destruct (N.eqb_spec b LF) as [->|Hb].
        -- rewrite !split_lines_CR_LF.
           destruct (IH s ltac:(simpl in Hn; lia) lb Hlb) as [-> | ->];
             [left | right]; reflexivity.
        -- apply N.eqb_neq in Hb. rewrite !split_lines_CR_other by exact Hb.
           assert (Hs : (List.length (b :: s) <= n)%nat) by lia.
           destruct (IH (b :: s) Hs lb Hlb) as [E | E];
             change ((b :: s) ++ lb) with ((b :: s ++ lb)) in E;
             rewrite E; [left | right]; reflexivity.
    + destruct (N.eqb_spec a LF) as [->|Hlf].
      * rewrite !split_lines_LF.
        destruct (IH s ltac:(lia) lb Hlb) as [-> | ->];
          [left | right]; reflexivity.
      * apply N.eqb_neq in Hcr, Hlf.
        destruct (split_lines_cons s) as (piece & pieces & Es).
        rewrite (split_lines_other a s piece pieces Hcr Hlf Es).
        destruct (IH s ltac:(lia) lb Hlb) as [E | E].
        -- left. apply split_lines_other; auto. rewrite E, Es. reflexivity.
        -- right. apply split_lines_other; auto. now rewrite E.
Qed.

(** The lines of two texts with an LF between them are the lines of the
    first and the lines of the second, but for a CR at the end of the
    first, whose empty last line is gone: the LF completes it to one
    line break. *)
Lemma split_lines_concat_LF (n : nat) :
  forall a : str,
    (List.length a <= n)%nat ->
    forall b : str,
      split_lines (a ++ (LF :: b)) = (split_lines a ++ split_lines b)
      \/ exists first_lines,
           first_lines <> []
           /\ split_lines a = (first_lines ++ [[]])
           /\ split_lines (a ++ (LF :: b))
              = (first_lines ++ split_lines b).
Proof.
  induction n as [|n IH]; intros a Hn b.
  - destruct a; [|simpl in Hn; lia]. left. reflexivity.
  - destruct a as [|c a]; [left; reflexivity|].
    simpl in Hn.
    change ((c :: a) ++ (LF :: b)) with (c :: (a ++ (LF :: b))).
    destruct (N.eqb_spec c CR) as [->|Hcr].
    + destruct a as [|d a].
      * right. exists [[]]. repeat split. discriminate.
      * change ((d :: a) ++ (LF :: b)) with (d :: (a ++ (LF :: b))).
        destruct (N.eqb_spec d LF) as [->|Hd].
        -- rewrite !split_lines_CR_LF.
           destruct (IH a ltac:(simpl in Hn; lia) b)
             as [-> | (X & HX & E1 & E2)].
           ++ left. reflexivity.
           ++ right. exists ([] :: X). rewrite E1, E2.
              repeat split. discriminate.
        -- apply N.eqb_neq in Hd.
           rewrite !split_lines_CR_other by exact Hd.
           assert (Hs : (List.length (d :: a) <= n)%nat) by lia.
           destruct (IH (d :: a) Hs b) as [E | (X & HX & E1 & E2)];
             change ((d :: a) ++ (LF :: b))
               with (d :: (a ++ (LF :: b))) in *.
           ++ left. rewrite E. reflexivity.
           ++ right. exists ([] :: X). rewrite E1, E2.
              repeat split. discriminate.
    + destruct (N.eqb_spec c LF) as [->|Hlf].
      * rewrite !split_lines_LF.
        destruct (IH a ltac:(lia) b) as [-> | (X & HX & E1 & E2)].
        -- left. reflexivity.
        -- right. exists ([] :: X). rewrite E1, E2.
           repeat split. discriminate.
      * apply N.eqb_neq in Hcr, Hlf.
        destruct (split_lines_cons a) as (piece & pieces & Es).
        rewrite (split_lines_other c a piece pieces Hcr Hlf Es).
        destruct (IH a ltac:(lia) b) as [E | (X & HX & E1 & E2)].
        -- left. apply split_lines_other; auto. rewrite E, Es. reflexivity.
        -- right. destruct X as [|x X]; [contradiction|].
           rewrite Es in E1. cbn [app] in E1, E2. injection E1 as -> ->.
           exists ((c :: x) :: X). repeat split; [discriminate|].
           apply split_lines_other; auto.
Qed.

Lemma concat_cons (sep x : str) (rest : list str) :
  rest <> [] ->
  Py.join sep (x :: rest) = x ++ sep ++ Py.join sep rest.
Proof. destruct rest; [contradiction | reflexivity]. Qed.

Lemma one_after_the_other_both (first second : str) :
  first <> [] -> second <> [] ->
  one_after_the_other first second = first ++ [LF] ++ second.
Proof.
  destruct first; [contradiction|]. destruct second; [contradiction|].
  reflexivity.
Qed.

Lemma join_app (outs1 outs2 : list str) :
  Forall (fun l => l <> []) outs1 ->
  Forall (fun l => l <> []) outs2 ->
  Py.join [LF] (outs1 ++ outs2)
  = one_after_the_other (Py.join [LF] outs1) (Py.join [LF] outs2).
Proof.
  intros H1 H2.
  destruct outs2 as [|y outs2].
  { rewrite app_nil_r. unfold one_after_the_other.
    destruct (Py.join [LF] outs1); reflexivity. }
  assert (Hy : Py.join [LF] (y :: outs2) <> [])
    by (apply join_not_empty; [assumption | discriminate]).
  induction outs1 as [|x outs1 IH]; [reflexivity|].
  inversion H1 as [|? ? Hx Houts1]; subst.
  specialize (IH Houts1).
  change ((x :: outs1) ++ y :: outs2)
    with (x :: (outs1 ++ y :: outs2)).
  rewrite concat_cons by (destruct outs1; discriminate).
  rewrite IH.
  destruct outs1 as [|x' outs1].
  - change (one_after_the_other (Py.join [LF] [])
              (Py.join [LF] (y :: outs2)))
      with (Py.join [LF] (y :: outs2)).
    change (Py.join [LF] [x]) with x.
    rewrite one_after_the_other_both by assumption. reflexivity.
  - assert (Hu : Py.join [LF] (x' :: outs1) <> [])
      by (apply (join_not_empty [LF]); [assumption | discriminate]).
    rewrite (concat_cons [LF] x (x' :: outs1)) by discriminate.
    rewrite !one_after_the_other_both; try assumption.
    + now rewrite !append_assoc.
    + destruct x; [contradiction | discriminate].
Qed.


(** What a rendering takes: the three numbers read, the cell number not
    above the number of offsets, and the two numbers of the result
    written. *)
Lemma render_match_returns_iff (py : interpreter) (offsets : list Z)
    (s : str) (m : Re.match_object) :
  Re.match_ (RUFF_CONCISE_LINE_OUTPUT_PATTERN py) s = Some m ->
  (exists out, render_match py offsets m = Return out)
  <-> (exists cell line column offset,
          cell_of py m = Return cell
          /\ (cell <= Z.of_nat (List.length offsets))%Z
          /\ Py.getitem offsets (cell - 1) = Return offset
          /\ line_of py m = Return line
          /\ column_of py m = Return column
          /\ convertible py (offset + line) = true
          /\ convertible py (column - 1) = true).
Proof.
  intros Hm. apply pattern_sound in Hm as (d & e & _ & _ & _ & Hd).
  destruct (cell_of_groups py m d Hd) as (-> & -> & ->).
  rewrite (render_match_groups py offsets m d Hd). unfold rewrite_diagnostic.
  split.
  - intros [out H].
    apply bind_Return in H as (cell & Hc & H).
    apply bind_Return in H as (offset & Ho & H).
    apply rewrite_with_offset_inv in H
      as (line & column & Hl & Hcol & H1 & H2 & _).
    exists cell, line, column, offset. repeat split; try assumption.
    apply getitem_Return in Ho. lia.
  - intros (cell & line & column & offset & Hc & _ & Ho & Hl & Hcol & H1 & H2).
    rewrite Hc. cbn [bind]. rewrite Ho. cbn [bind].
    rewrite (rewrite_with_offset_Return py d offset line column Hl Hcol H1 H2).
    eauto.
Qed.

(** X5.  The rewriter returns the empty string exactly when no line of
    the raw output matches the pattern; the cells play no part in
    that. *)
Theorem empty_result_iff_nothing_matches
    (py : interpreter) (ruff_output : str) (cell_sources : list str) :
  transform_ruff_to_jetbrains_compatible_output py ruff_output cell_sources
  = Return []
  <-> matching_lines py (Re.split LINE_BREAK ruff_output) = [].
Proof.
  unfold transform_ruff_to_jetbrains_compatible_output. split.
  - intros H. apply bind_Return in H as (lines & Hlines & H).
    pose proof (transformed_lines_length _ _ _ _ Hlines) as Hlen.
    pose proof (transformed_lines_shape _ _ _ _ Hlines
                  (split_pieces_one_line ruff_output)) as Hshape.
    destruct lines as [|x lines].
    + destruct (matching_lines _ _); [reflexivity | discriminate].
    + exfalso.
      assert (Hne : Forall (fun l => l <> []) (x :: lines))
        by (eapply Forall_impl; [|exact Hshape]; simpl; tauto).
      apply (join_not_empty [LF] (x :: lines) Hne); [discriminate|].
      now injection H.
  - intros H. now rewrite (transformed_lines_no_match _ _ _ H).
Qed.

Lemma empty_result_iff_nothing_matches_witness :
  transform_ruff_to_jetbrains_compatible_output (ascii_interpreter 4300)
    (text "Found 3 errors." ++ [LF] ++ text "No fixes available.")
    [text "a" ++ [LF] ++ text "b"; text "x"]
  = Return [].
Proof.
  apply (proj2 (empty_result_iff_nothing_matches (ascii_interpreter 4300)
                  (text "Found 3 errors." ++ [LF] ++ text "No fixes available.")
                  [text "a" ++ [LF] ++ text "b"; text "x"])).
  reflexivity.
Defined.

(** X6.  The lines of the result are the renderings of the matching
    lines of the raw output, one for one and in the same order. *)
Theorem rewritten_lines_keep_the_order
    (py : interpreter) (ruff_output : str) (cell_sources : list str)
    (out : str) :
  transform_ruff_to_jetbrains_compatible_output py ruff_output cell_sources
  = Return out ->
  exists outs,
    out = Py.join [LF] outs
    /\ Forall2
         (fun ruff_line rewritten =>
            exists m,
              Re.match_ (RUFF_CONCISE_LINE_OUTPUT_PATTERN py) ruff_line = Some m
              /\ render_match py (compute_jetbrains_cell_offsets cell_sources) m
                 = Return rewritten)
         (matching_lines py (Re.split LINE_BREAK ruff_output)) outs.
Proof.
  intros H. apply transform_iff in H as (outs & -> & H).
  exists outs. split; [reflexivity | exact H].
Qed.

Lemma rewritten_lines_keep_the_order_witness :
  exists outs,
    text "nb.ipynb:7:4: Ruff (E501): line too long" ++ [LF]
      ++ text "nb.ipynb:2:0: Ruff (F401): unused"
    = Py.join [LF] outs
    /\ Forall2
         (fun ruff_line rewritten =>
            exists m,
              Re.match_
                (RUFF_CONCISE_LINE_OUTPUT_PATTERN (ascii_interpreter 4300))
                ruff_line = Some m
              /\ render_match (ascii_interpreter 4300)
                   (compute_jetbrains_cell_offsets
                      [text "a" ++ [LF] ++ text "b"; text "x"]) m
                 = Return rewritten)
         (matching_lines (ascii_interpreter 4300)
            (Re.split LINE_BREAK
               (text "nb.ipynb:cell 2:3:5: E501 line too long" ++ [CR] ++ [LF]
                  ++ text "Found 2 errors." ++ [LF]
                  ++ text "nb.ipynb:cell 1:1:1: F401 unused")))
         outs.
Proof.
  apply (rewritten_lines_keep_the_order (ascii_interpreter 4300)
           (text "nb.ipynb:cell 2:3:5: E501 line too long" ++ [CR] ++ [LF]
              ++ text "Found 2 errors." ++ [LF]
              ++ text "nb.ipynb:cell 1:1:1: F401 unused")
           [text "a" ++ [LF] ++ text "b"; text "x"]).
  vm_compute. reflexivity.
Defined.

(** X7.  The rewriter returns a text, rather than raising, exactly when
    every matching line of the raw output renders: its three numbers are
    read within the limit of the conversions, its cell number is not above
    the number of offsets, and the absolute line and column are written
    within the limit. *)
Theorem rewriter_returns_iff
    (py : interpreter) (ruff_output : str) (cell_sources : list str) :
  (exists out,
      transform_ruff_to_jetbrains_compatible_output py ruff_output
        cell_sources = Return out)
  <-> (forall ruff_line m,
          In ruff_line (Re.split LINE_BREAK ruff_output) ->
          Re.match_ (RUFF_CONCISE_LINE_OUTPUT_PATTERN py) ruff_line = Some m ->
          exists cell line column offset,
            cell_of py m = Return cell
            /\ (cell <= Z.of_nat
                          (List.length
                             (compute_jetbrains_cell_offsets cell_sources)))%Z
            /\ Py.getitem (compute_jetbrains_cell_offsets cell_sources)
                 (cell - 1) = Return offset
            /\ line_of py m = Return line
            /\ column_of py m = Return column
            /\ convertible py (offset + line) = true
            /\ convertible py (column - 1) = true).
Proof.
  split.
  - intros [out H] ruff_line m Hin Hm.
    apply (proj1 (render_match_returns_iff py _ _ _ Hm)).
    destruct (render_match py (compute_jetbrains_cell_offsets cell_sources) m)
      as [t|e] eqn:Er; [eauto|].
    destruct (transform_raises py _ _ _ _ _ Hin Hm Er) as (e' & He' & _).
    rewrite He' in H. discriminate.
  - intros H. unfold transform_ruff_to_jetbrains_compatible_output.
    destruct (transformed_lines_returns py
                (compute_jetbrains_cell_offsets cell_sources)
                (Re.split LINE_BREAK ruff_output)) as [outs ->].
    + intros ruff_line m Hin Hm.
      apply (proj2 (render_match_returns_iff py _ _ _ Hm)).
      exact (H ruff_line m Hin Hm).
    + simpl. eauto.
Qed.

Lemma rewriter_returns_iff_witness :
  exists out,
    transform_ruff_to_jetbrains_compatible_output (ascii_interpreter 4300)
      (text "nb.ipynb:cell 2:3:5: E501 line too long")
      [text "a" ++ [LF] ++ text "b"; text "x"]
    = Return out.
Proof.
  apply (proj2 (rewriter_returns_iff (ascii_interpreter 4300)
                  (text "nb.ipynb:cell 2:3:5: E501 line too long")
                  [text "a" ++ [LF] ++ text "b"; text "x"])).
  intros ruff_line m Hin Hm.
  destruct Hin as [<- | []].
  vm_compute in Hm. injection Hm as <-.
  exists 2%Z, 3%Z, 5%Z, 4%Z. vm_compute.
  repeat split; discriminate.
Defined.

(** X8.  A line break at the end of the raw output, of any of the three
    kinds, changes nothing: the rewriter returns, or raises, the same. *)
Theorem trailing_line_break_is_ignored
    (py : interpreter) (ruff_output lb : str) (cell_sources : list str) :
  line_break lb ->
  transform_ruff_to_jetbrains_compatible_output py (ruff_output ++ lb)
    cell_sources
  = transform_ruff_to_jetbrains_compatible_output py ruff_output cell_sources.
Proof.
  intros Hlb. unfold transform_ruff_to_jetbrains_compatible_output.
  rewrite !split_LINE_BREAK.
  destruct (split_lines_trailing (List.length ruff_output) ruff_output
              (le_n _) lb Hlb) as [-> | ->]; [|reflexivity].
  rewrite (transformed_lines_drop py _ (split_lines ruff_output) [] []
             (empty_line_does_not_match py)).
  now rewrite app_nil_r.
Qed.

Lemma trailing_line_break_is_ignored_witness :
  transform_ruff_to_jetbrains_compatible_output (ascii_interpreter 4300)
    (text "nb.ipynb:cell 2:3:5: E501 line too long" ++ [CR; LF])
    [text "a" ++ [LF] ++ text "b"; text "x"]
  = transform_ruff_to_jetbrains_compatible_output (ascii_interpreter 4300)
      (text "nb.ipynb:cell 2:3:5: E501 line too long")
      [text "a" ++ [LF] ++ text "b"; text "x"].
Proof.
  apply trailing_line_break_is_ignored. exact lb_crlf.
Defined.

(** X9.  Two raw outputs with an LF between them are rewritten to the
    two results one after the other. *)
Theorem rewriting_two_outputs
    (py : interpreter) (first second : str) (cell_sources : list str)
    (first_result second_result : str) :
  transform_ruff_to_jetbrains_compatible_output py first cell_sources
  = Return first_result ->
  transform_ruff_to_jetbrains_compatible_output py second cell_sources
  = Return second_result ->
  transform_ruff_to_jetbrains_compatible_output py
    (first ++ [LF] ++ second) cell_sources
  = Return (one_after_the_other first_result second_result).
Proof.
  unfold transform_ruff_to_jetbrains_compatible_output.
  rewrite !split_LINE_BREAK. intros H1 H2.
  apply bind_Return in H1 as (outs1 & Ho1 & H1). injection H1 as <-.
  apply bind_Return in H2 as (outs2 & Ho2 & H2). injection H2 as <-.
  assert (Hlines :
            transformed_lines py (compute_jetbrains_cell_offsets cell_sources)
              (split_lines (first ++ [LF] ++ second))
            = Return (outs1 ++ outs2)).
  { change (first ++ [LF] ++ second) with (first ++ LF :: second).
    destruct (split_lines_concat_LF (List.length first) first (le_n _) second)
      as [-> | (X & _ & E1 & ->)].
    - now rewrite transformed_lines_app, Ho1, Ho2.
    - rewrite E1 in Ho1.
      rewrite (transformed_lines_drop py _ X [] []
                 (empty_line_does_not_match py)),
        app_nil_r in Ho1.
      now rewrite transformed_lines_app, Ho1, Ho2. }
  rewrite Hlines. cbn [bind]. f_equal.
  apply join_app.
  - pose proof (transformed_lines_shape _ _ _ _ Ho1) as Hs.
    rewrite <- split_LINE_BREAK in Hs.
    specialize (Hs (split_pieces_one_line first)).
    eapply Forall_impl; [|exact Hs]. simpl. tauto.
  - pose proof (transformed_lines_shape _ _ _ _ Ho2) as Hs.
    rewrite <- split_LINE_BREAK in Hs.
    specialize (Hs (split_pieces_one_line second)).
    eapply Forall_impl; [|exact Hs]. simpl. tauto.
Qed.

Lemma rewriting_two_outputs_witness :
  transform_ruff_to_jetbrains_compatible_output (ascii_interpreter 4300)
    (text "nb.ipynb:cell 2:3:5: E501 line too long" ++ [LF]
       ++ text "nb.ipynb:cell 1:1:1: F401 unused")
    [text "a" ++ [LF] ++ text "b"; text "x"]
  = Return
      (one_after_the_other (text "nb.ipynb:7:4: Ruff (E501): line too long")
         (text "nb.ipynb:2:0: Ruff (F401): unused")).
Proof.
  apply rewriting_two_outputs; reflexivity.
Defined.

(* ================================================================== *)
(** * More on the diagnostic pattern *)

(** X10.  Matching gives back the fields a line is written from, when
    those are well formed and the file path has no colon in it. *)
Theorem match_gives_back_the_fields (py : interpreter) (d : raw_diagnostic) :
  python py ->
  diagnostic_fields py d = true ->
  no_colon (file_path d) = true ->
  exists m,
    Re.match_ (RUFF_CONCISE_LINE_OUTPUT_PATTERN py) (concise_line d) = Some m
    /\ Re.named m = groups_of d
    /\ Re.getitem m "file_path" = Return (file_path d)
    /\ Re.getitem m "cell" = Return (cell_number d)
    /\ Re.getitem m "line" = Return (line_number d)
    /\ Re.getitem m "column" = Return (column_number d)
    /\ Re.getitem m "error_code" = Return (error_code d)
    /\ Re.getitem m "message" = Return (message d).
Proof.
  intros Hpy Hd Hcolon.
  destruct (match_of_fields py d Hpy Hd Hcolon) as (m & Hm & Hg).
  exists m. split; [exact Hm|]. split; [exact Hg|].
  unfold Re.getitem. rewrite Hg. repeat split.
Qed.

Lemma match_gives_back_the_fields_witness :
  exists m,
    Re.match_ (RUFF_CONCISE_LINE_OUTPUT_PATTERN (ascii_interpreter 4300))
      (concise_line
         (mk_raw_diagnostic (text "nb.ipynb") (text "2") (text "3") (text "5")
            (text "E501") (text "a:cell 1:1:1: E1 b")))
    = Some m
    /\ Re.named m
       = groups_of
           (mk_raw_diagnostic (text "nb.ipynb") (text "2") (text "3")
              (text "5") (text "E501") (text "a:cell 1:1:1: E1 b"))
    /\ Re.getitem m "file_path" = Return (text "nb.ipynb")
    /\ Re.getitem m "cell" = Return (text "2")
    /\ Re.getitem m "line" = Return (text "3")
    /\ Re.getitem m "column" = Return (text "5")
    /\ Re.getitem m "error_code" = Return (text "E501")
    /\ Re.getitem m "message" = Return (text "a:cell 1:1:1: E1 b").
Proof.
  apply (match_gives_back_the_fields (ascii_interpreter 4300)
           (mk_raw_diagnostic (text "nb.ipynb") (text "2") (text "3")
              (text "5") (text "E501") (text "a:cell 1:1:1: E1 b"))).
  - apply python_ascii_interpreter. right. apply Nat.leb_le. reflexivity.
  - reflexivity.
  - reflexivity.
Defined.

(* ================================================================== *)
(** * The limit of the conversions and the digits of other scripts *)

(** X14.  A matching line with a number of more digits than the
    interpreter converts is not rewritten: reading its line number, or
    writing the absolute line, raises a [ValueError], and the rewriter
    raises it when the line is the whole output. *)
Theorem numbers_past_the_limit
    (py : interpreter) (cell_sources : list str) (ruff_line : str)
    (m : Re.match_object) (d : raw_diagnostic) (cell offset : Z) :
  one_line ruff_line = true ->
  Re.match_ (RUFF_CONCISE_LINE_OUTPUT_PATTERN py) ruff_line = Some m ->
  Re.named m = groups_of d ->
  Py.int py (cell_number d) = Return cell ->
  Py.getitem (compute_jetbrains_cell_offsets cell_sources) (cell - 1)
  = Return offset ->
  (convertible_text py (line_number d) = false ->
   Py.int py (line_number d)
   = Raise (ValueError "Exceeds the limit for integer string conversion")
   /\ transform_ruff_to_jetbrains_compatible_output py ruff_line cell_sources
      = Raise (ValueError "Exceeds the limit for integer string conversion"))
  /\ (forall line,
         Py.int py (line_number d) = Return line ->
         convertible py (offset + line) = false ->
         Py.str_ py (offset + line)
         = Raise (ValueError "Exceeds the limit for integer string conversion")
         /\ transform_ruff_to_jetbrains_compatible_output py ruff_line
              cell_sources
            = Raise
                (ValueError "Exceeds the limit for integer string conversion")).
Proof.
  intros H1 Hm Hd Hc Ho.
  assert (Ht : transform_ruff_to_jetbrains_compatible_output py ruff_line
                 cell_sources
               = rewrite_with_offset py d offset).
  { rewrite (transform_single py _ m _ H1 Hm).
    rewrite (render_match_groups py _ m d Hd). unfold rewrite_diagnostic.
    rewrite Hc. cbn [bind]. rewrite Ho. reflexivity. }
  split.
  - intros Hl.
    destruct (pattern_sound py _ _ Hm) as (d0 & e0 & Hd0 & _ & _ & Hg0).
    assert (d0 = d) as ->.
    { rewrite Hd in Hg0. unfold groups_of in Hg0.
      destruct d, d0. cbn in Hg0. now injection Hg0 as <- <- <- <- <- <-. }
    unfold diagnostic_fields in Hd0. rewrite !andb_true_iff in Hd0.
    destruct Hd0 as [[[[[[_ _] _] Hnum] _] _] _].
    destruct (int_number_text py _ Hnum) as [v Hv]. rewrite Hl in Hv.
    split; [exact Hv|]. rewrite Ht. unfold rewrite_with_offset.
    rewrite Hv. reflexivity.
  - intros line Hl Hs.
    assert (Hstr : Py.str_ py (offset + line)
                   = Raise (ValueError
                              "Exceeds the limit for integer string conversion"))
      by (rewrite str_convertible, Hs; reflexivity).
    split; [exact Hstr|]. rewrite Ht. unfold rewrite_with_offset.
    rewrite Hl. cbn [bind]. rewrite Hstr. reflexivity.
Qed.

Lemma numbers_past_the_limit_witness :
  Py.int (ascii_interpreter 640) (repeat (code "9") 641)
  = Raise (ValueError "Exceeds the limit for integer string conversion")
  /\ transform_ruff_to_jetbrains_compatible_output (ascii_interpreter 640)
       (text "nb.ipynb:cell 1:" ++ repeat (code "9") 641
          ++ text ":5: E501 line too long")
       [text "a"]
     = Raise (ValueError "Exceeds the limit for integer string conversion").
Proof.
  refine (proj1
            (numbers_past_the_limit (ascii_interpreter 640) [text "a"]
               (text "nb.ipynb:cell 1:" ++ repeat (code "9") 641
                  ++ text ":5: E501 line too long")
               (Re.mk_match 679
                  [("message", text "line too long");
                   ("error_code", text "E501"); ("column", text "5");
                   ("line", repeat (code "9") 641); ("cell", text "1");
                   ("file_path", text "nb.ipynb")])
               (mk_raw_diagnostic (text "nb.ipynb") (text "1")
                  (repeat (code "9") 641) (text "5") (text "E501")
                  (text "line too long"))
               1%Z 1%Z _ _ eq_refl eq_refl eq_refl) _);
    vm_compute; reflexivity.
Defined.

(** X15.  The decimal digits of other scripts are digits to the pattern
    and to [int]: a line whose numbers are written in them matches, and
    is rewritten with the numbers they stand for, in ASCII digits. *)
Theorem digits_of_other_scripts
    (py : interpreter) (two three five : char) (cell_sources : list str) :
  python py ->
  decimal py two = Some 2%N ->
  decimal py three = Some 3%N ->
  decimal py five = Some 5%N ->
  compute_jetbrains_cell_offsets cell_sources = [1; 4]%Z ->
  transform_ruff_to_jetbrains_compatible_output py
    (text "nb.ipynb:cell " ++ [two] ++ text ":" ++ [three] ++ text ":"
       ++ [five] ++ text ": E501 line too long")
    cell_sources
  = Return (text "nb.ipynb:7:4: Ruff (E501): line too long").
Proof.
  intros Hpy H2 H3 H5 Hoffsets.
  set (d := mk_raw_diagnostic (text "nb.ipynb") [two] [three] [five]
              (text "E501") (text "line too long")).
  assert (Hdigit : forall a v, decimal py a = Some v ->
                               is_line_break_char a = false).
  { intros a v Ha. unfold is_line_break_char.
    destruct (N.eqb_spec a CR) as [->|_].
    - destruct Hpy as [Hascii _]. rewrite (Hascii CR eq_refl) in Ha.
      discriminate.
    - destruct (N.eqb_spec a LF) as [->|_]; [|reflexivity].
      destruct Hpy as [Hascii _]. rewrite (Hascii LF eq_refl) in Ha.
      discriminate. }
  assert (Hfields : diagnostic_fields py d = true).
  { unfold diagnostic_fields, number_text, error_code_text, d, is_decimal.
    cbn [file_path cell_number line_number column_number error_code message
         forallb str_eqb].
    rewrite H2, H3, H5.
    change (text "E501") with [code "E"; code "5"; code "0"; code "1"].
    cbn [forallb].
    destruct Hpy as [Hascii _].
    rewrite (Hascii (code "5") eq_refl), (Hascii (code "0") eq_refl),
      (Hascii (code "1") eq_refl).
    reflexivity. }
  destruct (match_of_fields py d Hpy Hfields eq_refl) as (m & Hm & Hg).
  assert (Hline : one_line (concise_line d) = true).
  { unfold concise_line, d.
    cbn [file_path cell_number line_number column_number error_code message].
    rewrite !one_line_append. unfold one_line at 3 5 7. cbn [forallb].
    rewrite (Hdigit two _ H2), (Hdigit three _ H3), (Hdigit five _ H5).
    reflexivity. }
  change (text "nb.ipynb:cell " ++ [two] ++ text ":" ++ [three] ++ text ":"
            ++ [five] ++ text ": E501 line too long")
    with (concise_line d).
  rewrite (transform_single py _ m _ Hline Hm).
  rewrite (render_match_groups py _ m d Hg), Hoffsets.
  assert (Hint : forall a v, decimal py a = Some v ->
                             Py.int py [a] = Return (Z.of_N v)).
  { intros a v Ha. unfold Py.int. cbn [Py.digits_value]. rewrite Ha.
    now rewrite (exceeds_limit_python py (List.length [a]) Hpy eq_refl). }
  unfold rewrite_diagnostic, rewrite_with_offset, d.
  cbn [file_path cell_number line_number column_number error_code message].
  rewrite (Hint two _ H2), (Hint three _ H3), (Hint five _ H5).
  cbn [bind]. change (Py.getitem [1; 4]%Z (Z.of_N 2 - 1)) with (Return 4%Z).
  cbn [bind].
  rewrite (str_python py (4 + Z.of_N 3) (text "7") Hpy eq_refl).
  cbn [bind].
  rewrite (str_python py (Z.of_N 5 - 1) (text "4") Hpy eq_refl).
  reflexivity.
Qed.

Lemma digits_of_other_scripts_witness :
  transform_ruff_to_jetbrains_compatible_output
    (mk_interpreter
       (fun a => if (1632 <=? a)%N && (a <=? 1641)%N then Some (a - 1632)%N
                 else ascii_decimal a)
       4300)
    (text "nb.ipynb:cell " ++ [1634%N] ++ text ":" ++ [1635%N] ++ text ":"
       ++ [1637%N] ++ text ": E501 line too long")
    [text "a" ++ [LF] ++ text "b"; text "x"]
  = Return (text "nb.ipynb:7:4: Ruff (E501): line too long").
Proof.
  apply digits_of_other_scripts; try reflexivity.
  split.
  - intros a Ha. cbn [decimal].
    destruct (N.leb_spec 1632 a) as [H|_]; [lia | reflexivity].
  - right. apply Nat.leb_le. reflexivity.
Defined.

(** X16.  A raw output in ASCII whose numbers are within the smallest
    limit a Python can have is rewritten to the same text by every
    Python. *)
Theorem every_python_rewrites_alike
    (py : interpreter) (ruff_output : str) (cell_sources : list str)
    (out : str) :
  python py ->
  ascii_text ruff_output = true ->
  transform_ruff_to_jetbrains_compatible_output (ascii_interpreter 640)
    ruff_output cell_sources = Return out ->
  transform_ruff_to_jetbrains_compatible_output py ruff_output cell_sources
  = Return out.
Proof. apply transform_python. Qed.

Lemma every_python_rewrites_alike_witness :
  transform_ruff_to_jetbrains_compatible_output (ascii_interpreter 0)
    (text "nb.ipynb:cell 2:3:5: E501 line too long" ++ [LF]
       ++ text "Found 1 error.")
    [text "a" ++ [LF] ++ text "b"; text "x"]
  = Return (text "nb.ipynb:7:4: Ruff (E501): line too long").
Proof.
  apply every_python_rewrites_alike.
  - apply python_ascii_interpreter. left. reflexivity.
  - reflexivity.
  - reflexivity.
Defined.

(* ================================================================== *)
(** * More on the command line *)

Ltac in_cases :=
  repeat match goal with
    | H : In _ (_ :: _) |- _ =>
        destruct H as [H|H]; [try discriminate H; try (injection H as <-)|]
    | H : In _ [] |- _ => destruct H
    | H : _ \/ _ |- _ => destruct H
    end.

Section MoreMain.

Variable py : interpreter.
Variable suffix : str -> str.
Variable path_str : str -> str.
Variable is_file : str -> result bool.
Variable ruff_check : str -> result completed_process.
Variable nbformat_read : str -> result notebook.

Lemma main_checked (program notebook_path : str) :
  suffix notebook_path = text ".ipynb" ->
  main py suffix path_str is_file ruff_check nbformat_read
    [program; notebook_path]
  = match is_file notebook_path with
    | Raise e => mk_run [] (Uncaught e)
    | Return false =>
        usage_error (no_such_file_message (path_str notebook_path))
    | Return true =>
        match ruff_check notebook_path with
        | Raise e => mk_run [RunRuff notebook_path] (Uncaught e)
        | Return ruff_output =>
            match read_cells nbformat_read notebook_path with
            | Raise e =>
                mk_run [RunRuff notebook_path; ReadNotebook notebook_path]
                  (Uncaught e)
            | Return cell_sources =>
                match transform_ruff_to_jetbrains_compatible_output py
                        (stdout ruff_output) cell_sources with
                | Raise e =>
                    mk_run [RunRuff notebook_path; ReadNotebook notebook_path]
                      (Uncaught e)
                | Return jetbrains_compatible_output =>
                    mk_run [RunRuff notebook_path;
                            ReadNotebook notebook_path;
                            PrintOut jetbrains_compatible_output;
                            PrintOut (stderr ruff_output)]
                      (Exit (returncode ruff_output))
                end
            end
        end
    end.
Proof.
  intros Hs. unfold main. cbn [List.length Nat.eqb Nat.leb nth_error].
  rewrite Hs.
  replace (str_eqb (text ".ipynb") (text ".ipynb")) with true
    by (symmetry; now apply str_eqb_eq).
  cbn [negb]. unfold no_such_file_message.
  destruct (is_file notebook_path) as [[|]|e]; reflexivity.
Qed.

(** X11.  On an existing [.ipynb] file, when the linter has run, the
    notebook is read and the diagnostics are rewritten, the script writes
    the rewritten diagnostics and then what the linter wrote to its
    stderr, both to stdout and as they are, writes nothing to stderr, and
    exits with the linter's return code; the linter runs before the
    notebook is read. *)
Theorem run_mirrors_the_linter
    (program notebook_path : str) (ruff_output : completed_process)
    (notebook_content : notebook) (rewritten : str) :
  suffix notebook_path = text ".ipynb" ->
  is_file notebook_path = Return true ->
  ruff_check notebook_path = Return ruff_output ->
  nbformat_read notebook_path = Return notebook_content ->
  transform_ruff_to_jetbrains_compatible_output py (stdout ruff_output)
    (map source (cells notebook_content)) = Return rewritten ->
  trace (main py suffix path_str is_file ruff_check nbformat_read
           [program; notebook_path])
  = [RunRuff notebook_path; ReadNotebook notebook_path;
     PrintOut rewritten; PrintOut (stderr ruff_output)]
  /\ status (main py suffix path_str is_file ruff_check nbformat_read
               [program; notebook_path])
     = Exit (returncode ruff_output)
  /\ stdout_of (main py suffix path_str is_file ruff_check nbformat_read
                  [program; notebook_path])
     = rewritten ++ stderr ruff_output
  /\ stderr_of (main py suffix path_str is_file ruff_check nbformat_read
                  [program; notebook_path])
     = [].
Proof.
  intros Hs Hf Hr Hn Ht.
  rewrite (main_checked program notebook_path Hs), Hf, Hr.
  unfold read_cells. rewrite Hn. cbn [bind]. rewrite Ht.
  repeat split.
  unfold stdout_of, written_to. cbn [trace flat_map app concat].
  now rewrite app_nil_r.
Qed.

(** X12.  When a diagnostic of the linter names a cell past the offsets
    of the notebook, the script ends in an uncaught exception, which is
    the [IndexError] of the lookup when the lines before render: nothing
    is written to stdout or stderr, and what the linter wrote to its
    stderr is not passed on. *)
Theorem run_ends_in_the_index_error
    (program notebook_path : str) (ruff_output : completed_process)
    (notebook_content : notebook) (ruff_line : str)
    (m : Re.match_object) (cell : Z) :
  suffix notebook_path = text ".ipynb" ->
  is_file notebook_path = Return true ->
  ruff_check notebook_path = Return ruff_output ->
  nbformat_read notebook_path = Return notebook_content ->
  In ruff_line (Re.split LINE_BREAK (stdout ruff_output)) ->
  Re.match_ (RUFF_CONCISE_LINE_OUTPUT_PATTERN py) ruff_line = Some m ->
  cell_of py m = Return cell ->
  (Z.of_nat (Nat.max 1 (List.length (cells notebook_content))) < cell)%Z ->
  trace (main py suffix path_str is_file ruff_check nbformat_read
           [program; notebook_path])
  = [RunRuff notebook_path; ReadNotebook notebook_path]
  /\ (exists e,
         status (main py suffix path_str is_file ruff_check nbformat_read
                   [program; notebook_path])
         = Uncaught e
         /\ (e = IndexError "list index out of range"
             \/ e = ValueError "Exceeds the limit for integer string conversion"))
  /\ (forall before after outs,
         Re.split LINE_BREAK (stdout ruff_output)
         = before ++ ruff_line :: after ->
         transformed_lines py
           (compute_jetbrains_cell_offsets
              (map source (cells notebook_content)))
           before = Return outs ->
         status (main py suffix path_str is_file ruff_check nbformat_read
                   [program; notebook_path])
         = Uncaught (IndexError "list index out of range"))
  /\ stdout_of (main py suffix path_str is_file ruff_check nbformat_read
                  [program; notebook_path])
     = []
  /\ stderr_of (main py suffix path_str is_file ruff_check nbformat_read
                  [program; notebook_path])
     = [].
Proof.
  intros Hs Hf Hr Hn Hin Hm Hcell Hlt.
  rewrite (main_checked program notebook_path Hs), Hf, Hr.
  unfold read_cells. rewrite Hn. cbn [bind].
  assert (Hrender :
            render_match py
              (compute_jetbrains_cell_offsets
                 (map source (cells notebook_content))) m
            = Raise (IndexError "list index out of range")).
  { destruct (pattern_sound py _ _ Hm) as (d & e & _ & _ & _ & Hd).
    destruct (cell_of_groups py m d Hd) as (Ec & _ & _).
    rewrite (render_match_groups py _ m d Hd). unfold rewrite_diagnostic.
    rewrite <- Ec, Hcell. cbn [bind].
    rewrite getitem_past_end; [reflexivity|].
    rewrite offsets_length, length_map. lia. }
  destruct (transform_raises py _ _ _ _ _ Hin Hm Hrender) as (e' & He' & Hkind).
  rewrite He'. repeat split.
  - exists e'. split; [reflexivity | exact Hkind].
  - intros before after outs Hsplit Hbefore.
    rewrite (transform_first_failure py _ _ _ _ _ _ _ _ Hsplit Hbefore Hm
               Hrender) in He'.
    now injection He' as <-.
Qed.

(** X13.  The linter is run, and the notebook is read, on nothing but
    the single argument of the script, and only when that is an existing
    file with the suffix [.ipynb]; the linter is the first thing to
    happen, and the notebook is read right after it has run.  Stdout is
    written only in a run where the linter has run on the argument, the
    notebook is read and the diagnostics are rewritten: the run then
    writes these and the linter's stderr, and exits with the linter's
    return code. *)
Theorem linter_runs_only_on_a_notebook (argv : list str) :
  (forall p,
      In (RunRuff p)
        (trace (main py suffix path_str is_file ruff_check nbformat_read argv))
      \/ In (ReadNotebook p)
           (trace (main py suffix path_str is_file ruff_check nbformat_read
                     argv)) ->
      (exists program,
          argv = [program; p] /\ suffix p = text ".ipynb"
          /\ is_file p = Return true)
      /\ exists rest,
           trace (main py suffix path_str is_file ruff_check nbformat_read
                    argv)
           = RunRuff p :: rest)
  /\ (forall p,
         In (ReadNotebook p)
           (trace (main py suffix path_str is_file ruff_check nbformat_read
                     argv)) ->
         (exists ruff_output, ruff_check p = Return ruff_output)
         /\ exists rest,
              trace (main py suffix path_str is_file ruff_check nbformat_read
                       argv)
              = RunRuff p :: ReadNotebook p :: rest)
  /\ (forall written,
         In (PrintOut written)
           (trace (main py suffix path_str is_file ruff_check nbformat_read
                     argv)) ->
         exists program p ruff_output notebook_content rewritten,
           argv = [program; p]
           /\ ruff_check p = Return ruff_output
           /\ nbformat_read p = Return notebook_content
           /\ transform_ruff_to_jetbrains_compatible_output py
                (stdout ruff_output) (map source (cells notebook_content))
              = Return rewritten
           /\ trace (main py suffix path_str is_file ruff_check nbformat_read
                       argv)
              = [RunRuff p; ReadNotebook p; PrintOut rewritten;
                 PrintOut (stderr ruff_output)]
           /\ status (main py suffix path_str is_file ruff_check nbformat_read
                        argv)
              = Exit (returncode ruff_output)).
Proof.
  destruct argv as [|program [|notebook_path [|third rest]]];
    try solve [unfold main, usage_error;
               cbn [List.length Nat.eqb Nat.leb nth_error];
               repeat split; intros; cbn [trace status] in *; in_cases].
  destruct (str_eqb (suffix notebook_path) (text ".ipynb")) eqn:Hs.
  - apply str_eqb_eq in Hs. rewrite (main_checked program notebook_path Hs).
    destruct (is_file notebook_path) as [[|]|e] eqn:Hf;
      [|unfold usage_error; repeat split; intros; cbn [trace status] in *;
        in_cases
       |repeat split; intros; cbn [trace status] in *; in_cases].
    destruct (ruff_check notebook_path) as [ruff_output|e] eqn:Hr;
      [|repeat split; intros; cbn [trace status] in *; in_cases; eauto].
    unfold read_cells.
    destruct (nbformat_read notebook_path) as [notebook_content|e] eqn:Hn;
      cbn [bind];
      [|repeat split; intros; cbn [trace status] in *; in_cases; eauto].
    destruct (transform_ruff_to_jetbrains_compatible_output py
                (stdout ruff_output) (map source (cells notebook_content)))
      as [out|e] eqn:Ht;
      repeat split; intros; cbn [trace status] in *; in_cases; eauto;
      exists program, notebook_path, ruff_output, notebook_content, out;
      repeat split; assumption.
  - unfold main, usage_error. cbn [List.length Nat.eqb Nat.leb nth_error].
    rewrite Hs. cbn [negb].
    repeat split; intros; cbn [trace status] in *; in_cases.
Qed.

(** X17.  When the file system cannot tell whether the argument is a
    file, as for a name that is too long, [Path.is_file] raises and
    nothing catches it: the script prints nothing, does not run the linter
    and does not exit with code 2. *)
Theorem is_file_error_is_not_caught
    (program notebook_path : str) (e : exn) :
  suffix notebook_path = text ".ipynb" ->
  is_file notebook_path = Raise e ->
  main py suffix path_str is_file ruff_check nbformat_read
    [program; notebook_path]
  = mk_run [] (Uncaught e)
  /\ status (main py suffix path_str is_file ruff_check nbformat_read
               [program; notebook_path])
     <> Exit 2
  /\ stdout_of (main py suffix path_str is_file ruff_check nbformat_read
                  [program; notebook_path])
     = []
  /\ stderr_of (main py suffix path_str is_file ruff_check nbformat_read
                  [program; notebook_path])
     = [].
Proof.
  intros Hs Hf. rewrite (main_checked program notebook_path Hs), Hf.
  repeat split. discriminate.
Qed.

End MoreMain.

Lemma run_mirrors_the_linter_witness :
  trace (main (ascii_interpreter 4300) (fun _ => text ".ipynb") (fun p => p)
           (fun _ => Return true)
           (fun _ => Return
                       (mk_completed_process
                          (text "nb.ipynb:cell 2:3:5: E501 line too long"
                             ++ [LF])
                          (text "warning: x") 1))
           (fun _ => Return
                       (mk_notebook
                          [mk_cell (text "a" ++ [LF] ++ text "b");
                           mk_cell (text "x")]))
           [text "ruff-jupyter-jetbrains"; text "nb.ipynb"])
  = [RunRuff (text "nb.ipynb"); ReadNotebook (text "nb.ipynb");
     PrintOut (text "nb.ipynb:7:4: Ruff (E501): line too long");
     PrintOut (text "warning: x")].
Proof.
  refine (proj1
            (run_mirrors_the_linter (ascii_interpreter 4300)
               (fun _ => text ".ipynb") (fun p => p) (fun _ => Return true)
               (fun _ => Return
                           (mk_completed_process
                              (text "nb.ipynb:cell 2:3:5: E501 line too long"
                                 ++ [LF])
                              (text "warning: x") 1))
               (fun _ => Return
                           (mk_notebook
                              [mk_cell (text "a" ++ [LF] ++ text "b");
                               mk_cell (text "x")]))
               (text "ruff-jupyter-jetbrains") (text "nb.ipynb")
               (mk_completed_process
                  (text "nb.ipynb:cell 2:3:5: E501 line too long" ++ [LF])
                  (text "warning: x") 1)
               (mk_notebook
                  [mk_cell (text "a" ++ [LF] ++ text "b"); mk_cell (text "x")])
               (text "nb.ipynb:7:4: Ruff (E501): line too long")
               eq_refl eq_refl eq_refl eq_refl eq_refl)).
Defined.

Lemma run_ends_in_the_index_error_witness :
  trace (main (ascii_interpreter 4300) (fun _ => text ".ipynb") (fun p => p)
           (fun _ => Return true)
           (fun _ => Return
                       (mk_completed_process
                          (text "nb.ipynb:cell 3:3:5: E501 line too long")
                          (text "warning: x") 1))
           (fun _ => Return
                       (mk_notebook
                          [mk_cell (text "a" ++ [LF] ++ text "b");
                           mk_cell (text "x")]))
           [text "ruff-jupyter-jetbrains"; text "nb.ipynb"])
  = [RunRuff (text "nb.ipynb"); ReadNotebook (text "nb.ipynb")].
Proof.
  refine (proj1
            (run_ends_in_the_index_error (ascii_interpreter 4300)
               (fun _ => text ".ipynb") (fun p => p) (fun _ => Return true)
               (fun _ => Return
                           (mk_completed_process
                              (text "nb.ipynb:cell 3:3:5: E501 line too long")
                              (text "warning: x") 1))
               (fun _ => Return
                           (mk_notebook
                              [mk_cell (text "a" ++ [LF] ++ text "b");
                               mk_cell (text "x")]))
               (text "ruff-jupyter-jetbrains") (text "nb.ipynb")
               (mk_completed_process
                  (text "nb.ipynb:cell 3:3:5: E501 line too long")
                  (text "warning: x") 1)
               (mk_notebook
                  [mk_cell (text "a" ++ [LF] ++ text "b"); mk_cell (text "x")])
               (text "nb.ipynb:cell 3:3:5: E501 line too long")
               (Re.mk_match 39
                  [("message", text "line too long");
                   ("error_code", text "E501"); ("column", text "5");
                   ("line", text "3"); ("cell", text "3");
                   ("file_path", text "nb.ipynb")])
               3%Z eq_refl eq_refl eq_refl eq_refl _ _ eq_refl _)).
  - vm_compute. left. reflexivity.
  - vm_compute. reflexivity.
  - vm_compute. reflexivity.
Defined.

Lemma linter_runs_only_on_a_notebook_witness :
  (exists program,
      [text "ruff-jupyter-jetbrains"; text "nb.ipynb"]
      = [program; text "nb.ipynb"]
      /\ text ".ipynb" = text ".ipynb"
      /\ Return true = Return true)
  /\ exists rest,
       trace (main (ascii_interpreter 4300) (fun _ => text ".ipynb")
                (fun p => p) (fun _ => Return true)
                (fun _ => Return (mk_completed_process [] [] 0))
                (fun _ => Return (mk_notebook []))
                [text "ruff-jupyter-jetbrains"; text "nb.ipynb"])
       = RunRuff (text "nb.ipynb") :: rest.
Proof.
  apply (proj1 (linter_runs_only_on_a_notebook (ascii_interpreter 4300)
                  (fun _ => text ".ipynb") (fun p => p) (fun _ => Return true)
                  (fun _ => Return (mk_completed_process [] [] 0))
                  (fun _ => Return (mk_notebook []))
                  [text "ruff-jupyter-jetbrains"; text "nb.ipynb"])
           (text "nb.ipynb")).
  left. vm_compute. left. reflexivity.
Defined.

Lemma is_file_error_is_not_caught_witness :
  main (ascii_interpreter 4300) (fun _ => text ".ipynb") (fun p => p)
    (fun _ => Raise (OSError "File name too long"))
    (fun _ => Return (mk_completed_process [] [] 0))
    (fun _ => Return (mk_notebook []))
    [text "ruff-jupyter-jetbrains"; text "nb.ipynb"]
  = mk_run [] (Uncaught (OSError "File name too long")).
Proof.
  refine (proj1
            (is_file_error_is_not_caught (ascii_interpreter 4300)
               (fun _ => text ".ipynb") (fun p => p)
               (fun _ => Raise (OSError "File name too long"))
               (fun _ => Return (mk_completed_process [] [] 0))
               (fun _ => Return (mk_notebook []))
               (text "ruff-jupyter-jetbrains") (text "nb.ipynb")
               (OSError "File name too long") eq_refl eq_refl)).
Defined.
